(** * OAuth2 + PKCE token lifecycle of the Etsy MCP server

    A shallow embedding of
      - [src/services/tokenStorage.ts]  (class [TokenStorage]),
      - [src/services/etsyApi.ts]       ([generatePKCE], [refreshToken]),
      - [src/services/oauthServer.ts]   (state store, sweep, [/oauth/callback]),
      - [src/services/mcpServer.ts]     ([getValidAccessToken]),
    followed by the properties of the authentication subsystem.

    Conventions.  JavaScript numbers that hold timestamps, lifetimes and
    identifiers are integers ([Z]); [Date.now()] is an explicit argument
    of every function that reads the clock; an optional field
    ([f?: T]) is an [option]; the file system and the HTTP endpoints are
    explicit arguments, so every function below is executable.  An
    [async] handler runs to completion: no other handler is interleaved
    at its [await]s.  The logger is taken not to throw. *)

From Stdlib Require Import ZArith NArith Ascii String List Lia.
From Stdlib.Strings Require Import Byte.
From stdpp Require Import base option strings list gmap.
From stdpp Require Import pretty.

Local Open Scope string_scope.
Local Open Scope Z_scope.

(** ** JavaScript values in conditions *)

(** [if (n)] on an optional number: [undefined] and [0] are falsy. *)
Definition truthy_num (n : option Z) : bool :=
  match n with
  | Some z => negb (z =? 0)
  | None => false
  end.

(** [if (s)] on an optional string: [undefined] and [''] are falsy. *)
Definition truthy_str (s : option string) : bool :=
  match s with
  | Some s => negb (String.eqb s "")
  | None => false
  end.

(** ** Exceptions *)

(** What a [catch (error)] clause can tell apart: a file-system error
    carries a [code]; every other exception ([SyntaxError] of
    [JSON.parse], [TypeError], the [Error] of a failed HTTP exchange)
    has no [code]. *)
Inductive Exn :=
| FsError (code : string)
| OtherError.

Inductive Outcome (A : Type) :=
| Returned (a : A)
| Thrown (e : Exn).
Arguments Returned {A} a.
Arguments Thrown {A} e.

#[global] Instance Outcome_bind : MBind Outcome := fun A B f m =>
  match m with
  | Returned a => f a
  | Thrown e => Thrown e
  end.

Definition throws {A} (o : Outcome A) : Prop :=
  match o with
  | Returned _ => False
  | Thrown _ => True
  end.

(** [error.code === 'EROFS' || error.code === 'EACCES'] *)
Definition is_EROFS_or_EACCES (e : Exn) : bool :=
  match e with
  | FsError code => String.eqb code "EROFS" || String.eqb code "EACCES"
  | OtherError => false
  end.

(** ** tokenStorage.ts *)

Module TokenStorage.

(** [interface TokenData] *)
Record TokenData := {
  access_token : string;
  refresh_token : option string;
  expires_at : option Z;
  user_id : option Z;
  shop_id : option Z;
  shop_name : option string
}.

(** The argument of [saveTokens]: [TokenData & { expires_in?: number }]. *)
Record TokenUpdate := {
  data : TokenData;
  expires_in : option Z
}.

(** What [tokens.json] holds: a JSON text that parses to a [TokenData],
    or a text on which [JSON.parse] (or the first property access on
    its result) throws. *)
Inductive FileContent :=
| Json (tokens : TokenData)
| Unparsable.

(** The part of the file system the class touches: the token file, and
    the error (if any) that the next read, write or unlink raises. *)
Record FileSystem := {
  tokens_json : option FileContent;
  read_error : option string;
  write_error : option string;
  unlink_error : option string
}.

(** The singleton instance: its [fileStorageEnabled] flag, and the disk
    behind [tokenFilePath]. *)
Record store := {
  fileStorageEnabled : bool;
  disk : FileSystem
}.

Definition existsSync (d : FileSystem) : bool :=
  match tokens_json d with
  | Some _ => true
  | None => false
  end.

Definition readFileSync (d : FileSystem) : Outcome FileContent :=
  match read_error d with
  | Some code => Thrown (FsError code)
  | None =>
      match tokens_json d with
      | Some c => Returned c
      | None => Thrown (FsError "ENOENT")
      end
  end.

Definition JSON_parse (c : FileContent) : Outcome TokenData :=
  match c with
  | Json tokens => Returned tokens
  | Unparsable => Thrown OtherError
  end.

Definition writeFileSync (d : FileSystem) (tokens : TokenData) : Outcome FileSystem :=
  match write_error d with
  | Some code => Thrown (FsError code)
  | None =>
      Returned {| tokens_json := Some (Json tokens);
                  read_error := read_error d;
                  write_error := write_error d;
                  unlink_error := unlink_error d |}
  end.

Definition unlinkSync (d : FileSystem) : Outcome FileSystem :=
  match unlink_error d with
  | Some code => Thrown (FsError code)
  | None =>
      Returned {| tokens_json := None;
                  read_error := read_error d;
                  write_error := write_error d;
                  unlink_error := unlink_error d |}
  end.

(** [this.fileStorageEnabled = false] *)
Definition disable (s : store) : store :=
  {| fileStorageEnabled := false; disk := disk s |}.

Definition with_disk (s : store) (d : FileSystem) : store :=
  {| fileStorageEnabled := fileStorageEnabled s; disk := d |}.

(** The three-way choice of [newExpiresAt] in [saveTokens]. *)
Definition newExpiresAt (tokens : TokenUpdate) (now : Z) : Z :=
  if truthy_num (expires_in tokens) then
    now + default 0 (expires_in tokens) * 1000
  else if truthy_num (expires_at (data tokens)) then
    default 0 (expires_at (data tokens))
  else
    now + 60 * 60 * 1000.

Definition tokensToSave (tokens : TokenUpdate) (now : Z) : TokenData :=
  {| access_token := access_token (data tokens);
     refresh_token := refresh_token (data tokens);
     user_id := user_id (data tokens);
     shop_id := shop_id (data tokens);
     shop_name := shop_name (data tokens);
     expires_at := Some (newExpiresAt tokens now) |}.

(** [saveTokens(tokens)]; the body of its [try] is one write. *)
Definition saveTokens (tokens : TokenUpdate) (now : Z) (s : store) : Outcome unit * store :=
  if negb (fileStorageEnabled s) then (Returned tt, s)
  else
    match writeFileSync (disk s) (tokensToSave tokens now) with
    | Returned d => (Returned tt, with_disk s d)
    | Thrown error =>
        if is_EROFS_or_EACCES error then (Returned tt, disable s)
        else (Thrown error, s)
    end.

(** The [try] block shared by [getTokens] and
    [loadPotentiallyExpiredTokens]: existence test, read, parse. *)
Definition read_record (d : FileSystem) : Outcome (option TokenData) :=
  if negb (existsSync d) then Returned None
  else
    content ← readFileSync d;
    tokens ← JSON_parse content;
    Returned (Some tokens).

(** [tokens.expires_at && tokens.expires_at < Date.now()] *)
Definition is_expired (tokens : TokenData) (now : Z) : bool :=
  truthy_num (expires_at tokens) && (default 0 (expires_at tokens) <? now).

(** The [catch] clause shared by both readers: the flag is cleared on
    EROFS/EACCES, every error is swallowed, [null] is returned. *)
Definition read_catch (error : Exn) (s : store) : option TokenData * store :=
  (None, if is_EROFS_or_EACCES error then disable s else s).

(** [getTokens()] *)
Definition getTokens (now : Z) (s : store) : option TokenData * store :=
  if negb (fileStorageEnabled s) then (None, s)
  else
    match read_record (disk s) with
    | Returned None => (None, s)
    | Returned (Some tokens) =>
        if is_expired tokens now then (None, s) else (Some tokens, s)
    | Thrown error => read_catch error s
    end.

(** [loadPotentiallyExpiredTokens()] *)
Definition loadPotentiallyExpiredTokens (s : store) : option TokenData * store :=
  if negb (fileStorageEnabled s) then (None, s)
  else
    match read_record (disk s) with
    | Returned r => (r, s)
    | Thrown error => read_catch error s
    end.

(** [clearTokens()] *)
Definition clearTokens (s : store) : Outcome unit * store :=
  if negb (fileStorageEnabled s) then (Returned tt, s)
  else if existsSync (disk s) then
    match unlinkSync (disk s) with
    | Returned d => (Returned tt, with_disk s d)
    | Thrown error =>
        if is_EROFS_or_EACCES error then (Returned tt, disable s)
        else (Thrown error, s)
    end
  else (Returned tt, s).

(** [hasValidToken()]; [access_token] is a declared string, so the
    test [!== undefined] always passes. *)
Definition hasValidToken (now : Z) (s : store) : bool * store :=
  match getTokens now s with
  | (Some _, s') => (true, s')
  | (None, s') => (false, s')
  end.

End TokenStorage.

(** ** etsyApi.ts *)

(** A [POST] to [/public/oauth/token]: the two grant types in use. *)
Inductive TokenRequest :=
| AuthorizationCodeGrant (code code_verifier : string)
| RefreshTokenGrant (refresh_token : string).

Module EtsyApiClient.

(** [interface OAuthTokenResponse] *)
Record OAuthTokenResponse := {
  access_token : string;
  refresh_token : string;
  expires_in : Z;
  token_type : string;
  scope : string;
  user_id : option Z
}.

(** The provider's token endpoint: the response body, or [None] when
    [axios.post] rejects (network error, non-2xx status). *)
Definition Provider := TokenRequest -> option OAuthTokenResponse.

(** The singleton [etsyApi]: its [accessToken] field, and the
    requests it has posted to the token endpoint, oldest first. *)
Record client := {
  accessToken : option string;
  posted : list TokenRequest
}.

Definition post (rq : TokenRequest) (api : client) : client :=
  {| accessToken := accessToken api; posted := posted api ++ [rq] |}.

Definition setAccessToken (token : string) (api : client) : client :=
  {| accessToken := Some token; posted := posted api |}.

(** *** [generatePKCE] *)

Definition base64_alphabet : list ascii :=
  list_ascii_of_string
    "ABCDEFGHIJKLMNOPQRSTUVWXYZabcdefghijklmnopqrstuvwxyz0123456789+/".

Definition base64_digit (sextet : N) : ascii :=
  nth (N.to_nat (N.land sextet 63)) base64_alphabet "="%char.

(** [Buffer.toString('base64')]: three bytes give four digits, the
    last group is padded with [=]. *)
Fixpoint base64 (bytes : list Byte.byte) : list ascii :=
  match bytes with
  | [] => []
  | [a] =>
      let n := N.shiftl (Byte.to_N a) 16 in
      [base64_digit (N.shiftr n 18); base64_digit (N.shiftr n 12);
       "="%char; "="%char]
  | [a; b] =>
      let n := N.lor (N.shiftl (Byte.to_N a) 16) (N.shiftl (Byte.to_N b) 8) in
      [base64_digit (N.shiftr n 18); base64_digit (N.shiftr n 12);
       base64_digit (N.shiftr n 6); "="%char]
  | a :: b :: c :: rest =>
      let n := N.lor (N.lor (N.shiftl (Byte.to_N a) 16)
                            (N.shiftl (Byte.to_N b) 8)) (Byte.to_N c) in
      base64_digit (N.shiftr n 18) :: base64_digit (N.shiftr n 12) ::
      base64_digit (N.shiftr n 6) :: base64_digit n :: base64 rest
  end.

(** The character class [[a-zA-Z0-9]]. *)
Definition is_alnum (c : ascii) : bool :=
  let n := N_of_ascii c in
  ((97 <=? n) && (n <=? 122) || (65 <=? n) && (n <=? 90) ||
   (48 <=? n) && (n <=? 57))%N.

(** [.replace(/[^a-zA-Z0-9]/g, '')] *)
Definition strip_non_alnum (s : list ascii) : list ascii :=
  List.filter is_alnum s.

(** [.substring(0, n)] *)
Definition substring0 (n : nat) (s : list ascii) : list ascii := firstn n s.

(** [.replace(/\+/g, '-').replace(/\//g, '_').replace(/=/g, '')] *)
Definition base64url_nopad (s : list ascii) : list ascii :=
  List.filter (fun c => negb (Ascii.eqb c "="))
    (map (fun c => if Ascii.eqb c "/" then "_"%char else c)
       (map (fun c => if Ascii.eqb c "+" then "-"%char else c) s)).

(** [localCodeVerifier], from the 32 bytes of [crypto.randomBytes(32)]. *)
Definition codeVerifier_of (random : list Byte.byte) : string :=
  string_of_list_ascii (substring0 128 (strip_non_alnum (base64 random))).

Record PKCE := {
  codeVerifier : string;
  codeChallenge : string
}.

Section PKCE.
(** [crypto.createHash('sha256').update(s).digest()] *)
Variable sha256 : string -> list Byte.byte.

Definition generatePKCE (random : list Byte.byte) : PKCE :=
  let localCodeVerifier := codeVerifier_of random in
  {| codeVerifier := localCodeVerifier;
     codeChallenge :=
       string_of_list_ascii
         (base64url_nopad (base64 (sha256 localCodeVerifier))) |}.
End PKCE.

(** *** [getAccessTokenFromCode] and [refreshToken] *)

Definition is_digit (c : ascii) : bool :=
  let n := N_of_ascii c in ((48 <=? n) && (n <=? 57))%N.

Definition is_space (c : ascii) : bool :=
  let n := N_of_ascii c in ((n =? 32) || (9 <=? n) && (n <=? 13))%N.

Fixpoint skip_spaces (s : list ascii) : list ascii :=
  match s with
  | c :: rest => if is_space c then skip_spaces rest else s
  | [] => []
  end.

(** The value of the longest prefix of decimal digits, [None] if it
    is empty. *)
Fixpoint digits (acc : option Z) (s : list ascii) : option Z :=
  match s with
  | c :: rest =>
      if is_digit c then
        digits (Some (default 0 acc * 10 + Z.of_N (N_of_ascii c) - 48)) rest
      else acc
  | [] => acc
  end.

(** [parseInt(s, 10)]; [None] is [NaN]. *)
Definition parseInt10 (s : string) : option Z :=
  match skip_spaces (list_ascii_of_string s) with
  | "-"%char :: rest => Z.opp <$> digits None rest
  | "+"%char :: rest => digits None rest
  | rest => digits None rest
  end.

(** [s.split('.')[0]] *)
Fixpoint before_dot (s : list ascii) : list ascii :=
  match s with
  | c :: rest => if Ascii.eqb c "." then [] else c :: before_dot rest
  | [] => []
  end.

(** [userIdFromToken] *)
Definition userIdFromToken (access_token : string) : option Z :=
  if String.eqb access_token "" then None
  else parseInt10 (string_of_list_ascii (before_dot (list_ascii_of_string access_token))).

(** [getAccessTokenFromCode(code, codeVerifier)] *)
Definition getAccessTokenFromCode (provider : Provider) (code verifier : string)
    (api : client) : Outcome OAuthTokenResponse * client :=
  let rq := AuthorizationCodeGrant code verifier in
  match provider rq with
  | Some response =>
      (Returned {| access_token := access_token response;
                   refresh_token := refresh_token response;
                   expires_in := expires_in response;
                   token_type := token_type response;
                   scope := scope response;
                   user_id := userIdFromToken (access_token response) |},
       setAccessToken (access_token response) (post rq api))
  | None => (Thrown OtherError, post rq api)
  end.

(** [refreshToken(refreshToken)] *)
Definition refreshToken (provider : Provider) (refreshToken : string)
    (api : client) : Outcome OAuthTokenResponse * client :=
  let rq := RefreshTokenGrant refreshToken in
  match provider rq with
  | Some response => (Returned response, setAccessToken (access_token response) (post rq api))
  | None => (Thrown OtherError, post rq api)
  end.

End EtsyApiClient.

(** ** The process state shared by the two servers *)

(** [interface StateData] of oauthServer.ts *)
Record StateData := {
  codeVerifier : string;
  createdAt : Z
}.

(** The [stateStore] map of the [OAuthServer] instance and the two
    singletons [TokenStorage.getInstance()] and [etsyApi]. *)
Record World := {
  stateStore : gmap string StateData;
  tokenStorage : TokenStorage.store;
  etsyApi : EtsyApiClient.client
}.

Definition set_stateStore (m : gmap string StateData) (w : World) : World :=
  {| stateStore := m; tokenStorage := tokenStorage w; etsyApi := etsyApi w |}.

Definition set_tokenStorage (s : TokenStorage.store) (w : World) : World :=
  {| stateStore := stateStore w; tokenStorage := s; etsyApi := etsyApi w |}.

Definition set_etsyApi (a : EtsyApiClient.client) (w : World) : World :=
  {| stateStore := stateStore w; tokenStorage := tokenStorage w; etsyApi := a |}.

(** ** oauthServer.ts *)

Module OAuthServer.

Definition stateTTL : Z := 5 * 60 * 1000.

(** [now - data.createdAt > this.stateTTL] *)
Definition is_stale (now : Z) (data : StateData) : bool :=
  stateTTL <? now - createdAt data.

(** One tick of the interval timer of [cleanupExpiredStates]: the
    [forEach] deletes every stale entry and keeps the others. *)
Definition cleanupExpiredStates (now : Z) (store : gmap string StateData)
    : gmap string StateData :=
  filter (fun entry : string * StateData => is_stale now entry.2 = false) store.

(** [Buffer.toString('hex')] *)
Definition hex_digit (n : N) : ascii :=
  nth (N.to_nat (N.land n 15)) (list_ascii_of_string "0123456789abcdef") "0"%char.

Definition hex (bytes : list Byte.byte) : string :=
  string_of_list_ascii
    (flat_map (fun b => [hex_digit (N.shiftr (Byte.to_N b) 4); hex_digit (Byte.to_N b)])
       bytes).

(** The redirect of [GET /auth], by the two arguments of
    [getAuthorizationUrl]. *)
Record Redirect := {
  url_state : string;
  url_code_challenge : string
}.

Section Routes.
Variable sha256 : string -> list Byte.byte.

(** [GET /auth]; [random16] and [random32] are what the two calls
    of [crypto.randomBytes] return. *)
Definition route_auth (random16 random32 : list Byte.byte) (now : Z) (w : World)
    : Redirect * World :=
  let state := hex random16 in
  let pkce := EtsyApiClient.generatePKCE sha256 random32 in
  let store :=
    <[state := {| codeVerifier := EtsyApiClient.codeVerifier pkce;
                   createdAt := now |}]> (stateStore w) in
  ({| url_state := state;
      url_code_challenge := EtsyApiClient.codeChallenge pkce |},
   set_stateStore store w).
End Routes.

(** A parsed query parameter: absent, a string, or the array or
    object that a repeated or bracketed parameter parses to. *)
Inductive QueryValue :=
| QAbsent
| QString (s : string)
| QStructured.

Definition q_truthy (v : QueryValue) : bool :=
  match v with
  | QAbsent => false
  | QString s => negb (String.eqb s "")
  | QStructured => true
  end.

(** [req.query] of the callback. *)
Record CallbackQuery := {
  code : QueryValue;
  state : QueryValue;
  error : QueryValue;
  error_description : QueryValue
}.

Record Shop := {
  shop_id : option Z;
  shop_name : option string
}.

(** The shapes of the answer of [getUserShops] the handler tells apart. *)
Inductive UserShopsResponse :=
| ShopList (results : list Shop) (count : Z)
| ShopObject (shop : Shop)
| NoShop.

(** [etsyApi.getUserShops(user_id, access_token)]; [None] when the
    request fails. *)
Definition ShopsApi := Z -> string -> option UserShopsResponse.

(** The page sent back: status 200 by [sendSuccessResponse], status
    500 with its message by [sendErrorResponse]. *)
Inductive Reply :=
| AuthenticationSuccessful (userId : option Z) (shop : option Shop)
| OAuthError (error error_description : QueryValue)
| MissingCodeOrState
| InvalidOrExpiredState
| TokenExchangeFailed.

(** Lines 96-104 of the handler: [stateStore.get(state)], and the
    [stateStore.delete(state)] that follows a hit. *)
Definition consume (state : string) (store : gmap string StateData)
    : option StateData * gmap string StateData :=
  match store !! state with
  | None => (None, store)
  | Some storedStateData => (Some storedStateData, delete state store)
  end.

(** [shopToSet] after the inner [try]. *)
Definition shopToSet (shops : ShopsApi) (tokens : EtsyApiClient.OAuthTokenResponse)
    : option Shop :=
  if truthy_num (EtsyApiClient.user_id tokens)
     && negb (String.eqb (EtsyApiClient.access_token tokens) "") then
    match shops (default 0 (EtsyApiClient.user_id tokens))
                (EtsyApiClient.access_token tokens) with
    | Some (ShopList results count) =>
        if 0 <? count then head results else None
    | Some (ShopObject shop) =>
        if truthy_num (shop_id shop) then Some shop else None
    | Some NoShop => None
    | None => None
    end
  else None.

(** The [try] block of the handler, entered after the state entry is
    gone from the store: exchange, shop lookup, save. *)
Definition exchange_and_store (provider : EtsyApiClient.Provider) (shops : ShopsApi)
    (now : Z) (code verifier : string) (w : World) : Reply * World :=
  match EtsyApiClient.getAccessTokenFromCode provider code verifier (etsyApi w) with
  | (Returned tokens, api) =>
      let shop := shopToSet shops tokens in
      let update :=
        {| TokenStorage.data :=
             {| TokenStorage.access_token := EtsyApiClient.access_token tokens;
                TokenStorage.refresh_token := Some (EtsyApiClient.refresh_token tokens);
                TokenStorage.expires_at := None;
                TokenStorage.user_id := EtsyApiClient.user_id tokens;
                TokenStorage.shop_id := shop ≫= shop_id;
                TokenStorage.shop_name := shop ≫= shop_name |};
           TokenStorage.expires_in := Some (EtsyApiClient.expires_in tokens) |} in
      match TokenStorage.saveTokens update now (tokenStorage w) with
      | (Returned _, storage) =>
          (AuthenticationSuccessful (EtsyApiClient.user_id tokens) shop,
           set_etsyApi
             (EtsyApiClient.setAccessToken (EtsyApiClient.access_token tokens) api)
             (set_tokenStorage storage w))
      | (Thrown _, storage) =>
          (TokenExchangeFailed, set_etsyApi api (set_tokenStorage storage w))
      end
  | (Thrown _, api) => (TokenExchangeFailed, set_etsyApi api w)
  end.

(** [GET /oauth/callback] *)
Definition route_callback (provider : EtsyApiClient.Provider) (shops : ShopsApi)
    (now : Z) (query : CallbackQuery) (w : World) : Reply * World :=
  if q_truthy (error query) then
    (OAuthError (error query) (error_description query), w)
  else
    match code query, state query with
    | QString code, QString state =>
        if String.eqb code "" || String.eqb state "" then (MissingCodeOrState, w)
        else
          match consume state (stateStore w) with
          | (None, _) => (InvalidOrExpiredState, w)
          | (Some storedStateData, store) =>
              exchange_and_store provider shops now code
                (codeVerifier storedStateData) (set_stateStore store w)
          end
    | _, _ => (MissingCodeOrState, w)
    end.

End OAuthServer.

(** ** mcpServer.ts *)

Module EtsyMCPServer.

(** The readings of [Date.now()] during one call of
    [getValidAccessToken]: in [getTokens], at line 507 after the
    exchange, and in [saveTokens]. *)
Record Clock := {
  at_getTokens : Z;
  at_refreshed : Z;
  at_saveTokens : Z
}.

(** The [catch (refreshError)] clause: [clearTokens()], then [null]. *)
Definition refresh_failed (storage : TokenStorage.store) (w : World)
    : Outcome (option string) * World :=
  match TokenStorage.clearTokens storage with
  | (Returned _, storage') => (Returned None, set_tokenStorage storage' w)
  | (Thrown e, storage') => (Thrown e, set_tokenStorage storage' w)
  end.

(** The argument of [saveTokens] at lines 504-511: the refreshed
    tokens, with [user_id], [shop_id] and [shop_name] of the old
    record. *)
Definition refreshed_tokens (old : TokenStorage.TokenData)
    (response : EtsyApiClient.OAuthTokenResponse) (now : Z)
    : TokenStorage.TokenUpdate :=
  {| TokenStorage.data :=
       {| TokenStorage.access_token := EtsyApiClient.access_token response;
          TokenStorage.refresh_token := Some (EtsyApiClient.refresh_token response);
          TokenStorage.expires_at :=
            Some (now + EtsyApiClient.expires_in response * 1000);
          TokenStorage.user_id := TokenStorage.user_id old;
          TokenStorage.shop_id := TokenStorage.shop_id old;
          TokenStorage.shop_name := TokenStorage.shop_name old |};
     TokenStorage.expires_in := None |}.

(** The [try] block: exchange, save, [setAccessToken]; and its
    [catch]. *)
Definition refresh (provider : EtsyApiClient.Provider) (clock : Clock)
    (old : TokenStorage.TokenData) (storage : TokenStorage.store) (w : World)
    : Outcome (option string) * World :=
  match EtsyApiClient.refreshToken provider
          (default "" (TokenStorage.refresh_token old)) (etsyApi w) with
  | (Returned refreshedTokensResponse, api) =>
      match TokenStorage.saveTokens
              (refreshed_tokens old refreshedTokensResponse (at_refreshed clock))
              (at_saveTokens clock) storage with
      | (Returned _, storage') =>
          (Returned (Some (EtsyApiClient.access_token refreshedTokensResponse)),
           set_etsyApi
             (EtsyApiClient.setAccessToken
                (EtsyApiClient.access_token refreshedTokensResponse) api)
             (set_tokenStorage storage' w))
      | (Thrown _, storage') => refresh_failed storage' (set_etsyApi api w)
      end
  | (Thrown _, api) => refresh_failed storage (set_etsyApi api w)
  end.

(** [getValidAccessToken()] *)
Definition getValidAccessToken (provider : EtsyApiClient.Provider) (clock : Clock)
    (w : World) : Outcome (option string) * World :=
  let '(tokens, storage1) :=
    TokenStorage.getTokens (at_getTokens clock) (tokenStorage w) in
  if truthy_str (TokenStorage.access_token <$> tokens) then
    (Returned (TokenStorage.access_token <$> tokens), set_tokenStorage storage1 w)
  else
    let '(potentiallyExpiredTokens, storage2) :=
      TokenStorage.loadPotentiallyExpiredTokens storage1 in
    match potentiallyExpiredTokens with
    | Some old =>
        if truthy_str (TokenStorage.refresh_token old) then
          refresh provider clock old storage2 w
        else (Returned None, set_tokenStorage storage2 w)
    | None => (Returned None, set_tokenStorage storage2 w)
    end.

End EtsyMCPServer.

(** ** The process as a sequence of events *)

(** What can happen to the shared state while the process runs: the two
    routes of the callback listener, a tick of the sweep timer, a tool
    call asking for an access token, direct calls of the four
    [TokenStorage] methods (as the tools make them), and a change of the
    disk from outside the process. *)
Inductive Event :=
| GetAuth (random16 random32 : list Byte.byte) (now : Z)
| GetCallback (provider : EtsyApiClient.Provider) (shops : OAuthServer.ShopsApi)
    (now : Z) (query : OAuthServer.CallbackQuery)
| TimerTick (now : Z)
| NeedAccessToken (provider : EtsyApiClient.Provider) (clock : EtsyMCPServer.Clock)
| SaveTokens (tokens : TokenStorage.TokenUpdate) (now : Z)
| GetTokens (now : Z)
| LoadPotentiallyExpiredTokens
| ClearTokens
| DiskChanged (d : TokenStorage.FileSystem).

Section Process.
Variable sha256 : string -> list Byte.byte.

Definition step (ev : Event) (w : World) : World :=
  match ev with
  | GetAuth random16 random32 now =>
      (OAuthServer.route_auth sha256 random16 random32 now w).2
  | GetCallback provider shops now query =>
      (OAuthServer.route_callback provider shops now query w).2
  | TimerTick now =>
      set_stateStore (OAuthServer.cleanupExpiredStates now (stateStore w)) w
  | NeedAccessToken provider clock =>
      (EtsyMCPServer.getValidAccessToken provider clock w).2
  | SaveTokens tokens now =>
      set_tokenStorage (TokenStorage.saveTokens tokens now (tokenStorage w)).2 w
  | GetTokens now =>
      set_tokenStorage (TokenStorage.getTokens now (tokenStorage w)).2 w
  | LoadPotentiallyExpiredTokens =>
      set_tokenStorage (TokenStorage.loadPotentiallyExpiredTokens (tokenStorage w)).2 w
  | ClearTokens =>
      set_tokenStorage (TokenStorage.clearTokens (tokenStorage w)).2 w
  | DiskChanged d =>
      set_tokenStorage
        {| TokenStorage.fileStorageEnabled :=
             TokenStorage.fileStorageEnabled (tokenStorage w);
           TokenStorage.disk := d |} w
  end.

Fixpoint run (evs : list Event) (w : World) : World :=
  match evs with
  | [] => w
  | ev :: rest => run rest (step ev w)
  end.
End Process.

(** No [GET /auth] in [evs] draws the state value [s] again. *)
Definition never_reissued (s : string) (evs : list Event) : Prop :=
  Forall (fun ev =>
            match ev with
            | GetAuth random16 _ _ => OAuthServer.hex random16 <> s
            | _ => True
            end) evs.

(** ** Vocabulary of the statements *)

(** The store is enabled, [tokens.json] holds the record [r], and
    reading it raises no error. *)
Definition readable (s : TokenStorage.store) (r : TokenStorage.TokenData) : Prop :=
  TokenStorage.fileStorageEnabled s = true /\
  TokenStorage.tokens_json (TokenStorage.disk s) = Some (TokenStorage.Json r) /\
  TokenStorage.read_error (TokenStorage.disk s) = None.

(** [error.code] is one of the two codes the class handles. *)
Definition permission_code (code : string) : Prop :=
  code = "EROFS" \/ code = "EACCES".

(** Concrete states used in the examples. *)
Definition sample_tokens (expiry : option Z) : TokenStorage.TokenData :=
  {| TokenStorage.access_token := "111.old";
     TokenStorage.refresh_token := Some "r0";
     TokenStorage.expires_at := expiry;
     TokenStorage.user_id := Some 111;
     TokenStorage.shop_id := Some 42;
     TokenStorage.shop_name := Some "MyShop" |}.

Definition sample_disk (content : option TokenStorage.FileContent)
    (write unlink : option string) : TokenStorage.FileSystem :=
  {| TokenStorage.tokens_json := content;
     TokenStorage.read_error := None;
     TokenStorage.write_error := write;
     TokenStorage.unlink_error := unlink |}.

Definition enabled_store (d : TokenStorage.FileSystem) : TokenStorage.store :=
  {| TokenStorage.fileStorageEnabled := true; TokenStorage.disk := d |}.

Definition store_holding (r : TokenStorage.TokenData) : TokenStorage.store :=
  enabled_store (sample_disk (Some (TokenStorage.Json r)) None None).

Definition bare_update (access : string) : TokenStorage.TokenUpdate :=
  {| TokenStorage.data :=
       {| TokenStorage.access_token := access;
          TokenStorage.refresh_token := None;
          TokenStorage.expires_at := None;
          TokenStorage.user_id := None;
          TokenStorage.shop_id := None;
          TokenStorage.shop_name := None |};
     TokenStorage.expires_in := None |}.

Definition fresh_api : EtsyApiClient.client :=
  {| EtsyApiClient.accessToken := None; EtsyApiClient.posted := [] |}.

Definition world_of (store : gmap string StateData) (s : TokenStorage.store) : World :=
  {| stateStore := store; tokenStorage := s; etsyApi := fresh_api |}.

(** A callback query that passes the first two checks of the handler:
    no [error] parameter, and non-empty strings [c] and [s] as [code]
    and [state]. *)
Definition well_formed_callback (query : OAuthServer.CallbackQuery) (c s : string)
    : Prop :=
  OAuthServer.q_truthy (OAuthServer.error query) = false /\
  OAuthServer.code query = OAuthServer.QString c /\
  OAuthServer.state query = OAuthServer.QString s /\
  c <> "" /\ s <> "".

Definition callback_query (c s : string) : OAuthServer.CallbackQuery :=
  {| OAuthServer.code := OAuthServer.QString c;
     OAuthServer.state := OAuthServer.QString s;
     OAuthServer.error := OAuthServer.QAbsent;
     OAuthServer.error_description := OAuthServer.QAbsent |}.

(** A provider that rejects every request, and one that always grants. *)
Definition failing_provider : EtsyApiClient.Provider := fun _ => None.

Definition granted : EtsyApiClient.OAuthTokenResponse :=
  {| EtsyApiClient.access_token := "111.new";
     EtsyApiClient.refresh_token := "r1";
     EtsyApiClient.expires_in := 3600;
     EtsyApiClient.token_type := "Bearer";
     EtsyApiClient.scope := "listings_r";
     EtsyApiClient.user_id := None |}.

Definition granting_provider : EtsyApiClient.Provider := fun _ => Some granted.

Definition no_shops : OAuthServer.ShopsApi := fun _ _ => None.

(** The sweep ticks of the first five minutes after time 0. *)
Definition ticks_of_five_minutes : list Event :=
  [TimerTick 60000; TimerTick 120000; TimerTick 180000; TimerTick 240000;
   TimerTick 300000].

(** The stored record [r] yields no usable access token at clock
    reading [now] (it is expired, or its access token is empty) and
    carries the non-empty refresh token [rt]. *)
Definition refresh_due (now : Z) (s : TokenStorage.store) (r : TokenStorage.TokenData)
    (rt : string) : Prop :=
  readable s r /\
  (TokenStorage.is_expired r now = true \/ TokenStorage.access_token r = "") /\
  TokenStorage.refresh_token r = Some rt /\ rt <> "".

(** A file-system operation is set to raise an error that the class
    does not handle (a code other than EROFS and EACCES). *)
Definition unhandled_error (err : option string) : Prop :=
  exists code, err = Some code /\ ~ permission_code code.

Definition sample_clock (now : Z) : EtsyMCPServer.Clock :=
  {| EtsyMCPServer.at_getTokens := now;
     EtsyMCPServer.at_refreshed := now + 1;
     EtsyMCPServer.at_saveTokens := now + 2 |}.

(** The entry under [s], if there is one, was created at time [T]. *)
Definition created_at (s : string) (T : Z) (w : World) : Prop :=
  forall d, stateStore w !! s = Some d -> createdAt d = T.

(** The event [ev] cannot remove or replace the entry that [GET /auth]
    stored under [s] at time [T]: it is not an [/auth] request drawing
    [s] again, not a callback carrying [s], and not a sweep tick later
    than [T + stateTTL]. *)
Definition leaves_entry (s : string) (T : Z) (ev : Event) : Prop :=
  match ev with
  | GetAuth random16 _ _ => OAuthServer.hex random16 <> s
  | GetCallback _ _ _ query => OAuthServer.state query <> OAuthServer.QString s
  | TimerTick now => now <= T + OAuthServer.stateTTL
  | _ => True
  end.

(** Reading a hexadecimal text back, to state that [hex] loses nothing. *)
Definition hex_value (c : ascii) : option N :=
  let n := N_of_ascii c in
  if ((48 <=? n) && (n <=? 57))%N then Some (n - 48)%N
  else if ((97 <=? n) && (n <=? 102))%N then Some (n - 87)%N
  else None.

Fixpoint unhex_chars (s : list ascii) : option (list Byte.byte) :=
  match s with
  | [] => Some []
  | c1 :: c2 :: rest =>
      match hex_value c1, hex_value c2, unhex_chars rest with
      | Some hi, Some lo, Some bytes =>
          match Byte.of_N (16 * hi + lo) with
          | Some b => Some (b :: bytes)
          | None => None
          end
      | _, _, _ => None
      end
  | _ => None
  end.

Definition unhex (s : string) : option (list Byte.byte) :=
  unhex_chars (list_ascii_of_string s).

(** The character class [[0-9a-f]]. *)
Definition is_lower_hex (c : ascii) : bool :=
  match hex_value c with
  | Some _ => true
  | None => false
  end.

(** The base64url alphabet [[A-Za-z0-9_-]]. *)
Definition is_base64url (c : ascii) : bool :=
  EtsyApiClient.is_alnum c || Ascii.eqb c "-" || Ascii.eqb c "_".

(** ** etsyApi.ts: requests to the marketplace *)

Module EtsyApiRequests.

Inductive Method := GET | POST.

(** The argument of the [axios] call in [makeRequest]. *)
Record Request := {
  method : Method;
  url : string;
  headers : list (string * string);
  data : option string
}.

(** What the marketplace answers to a pass-through request: the
    response body (as the text that [JSON.stringify(body, null, 2)]
    prints), or, when [axios] rejects, the detail
    [error.response?.data?.error || error.message]. *)
Inductive Answer :=
| Body (text : string)
| Rejected (detail : string).

Definition Marketplace := Request -> Answer.

Definition baseURL : string := "https://api.etsy.com/v3".

(** [getHeaders(accessToken)] *)
Definition getHeaders (apiKey : string) (accessToken : option string)
    : list (string * string) :=
  app [("x-api-key", apiKey); ("Content-Type", "application/json")]
      (if truthy_str accessToken
       then [("Authorization", "Bearer " ++ default "" accessToken)]
       else []).

(** The request that [makeRequest(endpoint, method, data, accessToken)]
    hands to [axios]. *)
Definition request (apiKey : string) (endpoint : string) (m : Method)
    (body : option string) (accessToken : option string) : Request :=
  {| method := m;
     url := baseURL ++ endpoint;
     headers := getHeaders apiKey accessToken;
     data := body |}.

(** [shopId.toString()] and the [${userId}] of a template, for the
    integers that identifiers are. *)
Definition toString (n : Z) : string := pretty n.

(** The endpoints of [getShopDetails], [getListings],
    [getShopShippingProfiles] and [getUserShops]. *)
Definition shop_endpoint (shopId : string) : string :=
  "/application/shops/" ++ shopId.

Definition listings_endpoint (shopId : string) : string :=
  "/application/shops/" ++ shopId ++ "/listings/active".

Definition shipping_profiles_endpoint (shopId : string) : string :=
  "/application/shops/" ++ shopId ++ "/shipping-profiles".

Definition user_shops_endpoint (userId : Z) : string :=
  "/application/users/" ++ toString userId ++ "/shops".

End EtsyApiRequests.

(** ** mcpServer.ts: the tool handlers *)

Module Tools.

(** The message of the [Error] handed to [handleError]: a text built by
    the handler, the text [makeRequest] builds for a rejected request, or
    the message of a caught file-system error. *)
Inductive ErrorText :=
| Message (text : string)
| ApiRequestFailed (detail : string)
| MessageOf (e : Exn).

(** The texts of the successful results. *)
Inductive Content :=
| Json (text : string)
| NoShopsFound
| DefaultShopSet (shopName : option string) (shopId : option Z)
| NoDefaultShop
| CurrentDefaultShop (shopName : string) (shopId : Z).

(** The value a tool returns: [content], or [content] with
    [isError: true] and the text [Error: ...]. *)
Inductive ToolResult :=
| Result (content : Content)
| IsError (message : ErrorText).

(** [handleError(error, customMessage?)] *)
Definition handleError (error : ErrorText) (customMessage : option string) : ToolResult :=
  IsError (if truthy_str customMessage then Message (default "" customMessage)
           else error).

(** What one tool call does: its result, the process state it leaves,
    and the requests it sent to the marketplace, oldest first. *)
Record Run := {
  result : ToolResult;
  world : World;
  sent : list EtsyApiRequests.Request
}.

Definition shop_id_required : string :=
  "Shop ID is required. Provide a shop_id or run `set_default_shop` first.".

Section Handlers.
Variable apiKey : string.
Variable provider : EtsyApiClient.Provider.

(** The lines [let shopIdToUse = args.shop_id; if (!shopIdToUse) ...]:
    the argument when it is a non-zero number, otherwise the [shop_id]
    of the record that [getTokens] returns, when that is non-zero. *)
Definition shopIdToUse (shop_id : option Z) (now : Z) (w : World) : option Z * World :=
  if truthy_num shop_id then (shop_id, w)
  else
    let '(storedTokens, storage) := TokenStorage.getTokens now (tokenStorage w) in
    (if truthy_num (storedTokens ≫= TokenStorage.shop_id)
     then storedTokens ≫= TokenStorage.shop_id else None,
     set_tokenStorage storage w).

(** The handlers of [get_listings], [get_shop_details] and
    [list_shop_shipping_profiles] are the same text up to the message of
    the missing token, the endpoint, and the custom message of the
    [catch]. *)
Definition shop_tool (authMessage : string) (endpoint : string -> string)
    (customMessage : option string) (market : EtsyApiRequests.Marketplace)
    (clock : EtsyMCPServer.Clock) (now : Z) (shop_id : option Z) (w : World) : Run :=
  match EtsyMCPServer.getValidAccessToken provider clock w with
  | (Thrown e, w1) =>
      {| result := handleError (MessageOf e) customMessage; world := w1; sent := [] |}
  | (Returned accessToken, w1) =>
      if negb (truthy_str accessToken) then
        {| result := handleError (Message authMessage) None; world := w1; sent := [] |}
      else
        match shopIdToUse shop_id now w1 with
        | (None, w2) =>
            {| result := handleError (Message shop_id_required) None;
               world := w2; sent := [] |}
        | (Some shopId, w2) =>
            let rq :=
              EtsyApiRequests.request apiKey (endpoint (EtsyApiRequests.toString shopId))
                EtsyApiRequests.GET None accessToken in
            match market rq with
            | EtsyApiRequests.Body text =>
                {| result := Result (Json text); world := w2; sent := [rq] |}
            | EtsyApiRequests.Rejected detail =>
                {| result := handleError (ApiRequestFailed detail) customMessage;
                   world := w2; sent := [rq] |}
            end
        end
  end.

Definition get_listings :=
  shop_tool "Authentication required. Please run the authenticate tool."
    EtsyApiRequests.listings_endpoint None.

Definition get_shop_details :=
  shop_tool "Authentication required. Please run the authenticate tool."
    EtsyApiRequests.shop_endpoint None.

Definition list_shop_shipping_profiles :=
  shop_tool "Authentication required."
    EtsyApiRequests.shipping_profiles_endpoint (Some "Failed to list shipping profiles.").

(** [shopToSet] in [set_default_shop]; [Thrown] is the [TypeError] of
    reading [shop_name] of a missing first result. *)
Definition select_shop (response : OAuthServer.UserShopsResponse)
    : Outcome (option OAuthServer.Shop) :=
  match response with
  | OAuthServer.ShopList results count =>
      if 0 <? count then
        match head results with
        | Some shop => Returned (Some shop)
        | None => Thrown OtherError
        end
      else Returned None
  | OAuthServer.ShopObject shop =>
      Returned (if truthy_num (OAuthServer.shop_id shop) then Some shop else None)
  | OAuthServer.NoShop => Returned None
  end.

(** The argument of [saveTokens] in [set_default_shop]:
    [{...tokens, user_id, shop_id, shop_name}]. *)
Definition with_shop (tokens : TokenStorage.TokenData) (shop : OAuthServer.Shop)
    : TokenStorage.TokenUpdate :=
  {| TokenStorage.data :=
       {| TokenStorage.access_token := TokenStorage.access_token tokens;
          TokenStorage.refresh_token := TokenStorage.refresh_token tokens;
          TokenStorage.expires_at := TokenStorage.expires_at tokens;
          TokenStorage.user_id := TokenStorage.user_id tokens;
          TokenStorage.shop_id := OAuthServer.shop_id shop;
          TokenStorage.shop_name := OAuthServer.shop_name shop |};
     TokenStorage.expires_in := None |}.

Definition failed_to_set : option string := Some "Failed to set default shop.".

(** The handler of [set_default_shop]; [now_get] and [now_save] are the
    clock readings of its [getTokens] and [saveTokens]. *)
Definition set_default_shop (shops : OAuthServer.ShopsApi)
    (clock : EtsyMCPServer.Clock) (now_get now_save : Z) (w : World) : Run :=
  match EtsyMCPServer.getValidAccessToken provider clock w with
  | (Thrown e, w1) =>
      {| result := handleError (MessageOf e) failed_to_set; world := w1; sent := [] |}
  | (Returned accessToken, w1) =>
      if negb (truthy_str accessToken) then
        {| result :=
             handleError
               (Message "Authentication required. Please run authenticate first.") None;
           world := w1; sent := [] |}
      else
        let '(tokens, storage) := TokenStorage.getTokens now_get (tokenStorage w1) in
        let w2 := set_tokenStorage storage w1 in
        match tokens with
        | Some tokens =>
            if truthy_num (TokenStorage.user_id tokens) then
              let userId := default 0 (TokenStorage.user_id tokens) in
              let rq :=
                EtsyApiRequests.request apiKey (EtsyApiRequests.user_shops_endpoint userId)
                  EtsyApiRequests.GET None accessToken in
              match shops userId (default "" accessToken) with
              | Some userShopsResponse =>
                  match select_shop userShopsResponse with
                  | Returned (Some shop) =>
                      match TokenStorage.saveTokens (with_shop tokens shop) now_save
                              storage with
                      | (Returned _, storage') =>
                          {| result :=
                               Result (DefaultShopSet (OAuthServer.shop_name shop)
                                         (OAuthServer.shop_id shop));
                             world := set_tokenStorage storage' w1; sent := [rq] |}
                      | (Thrown e, storage') =>
                          {| result := handleError (MessageOf e) failed_to_set;
                             world := set_tokenStorage storage' w1; sent := [rq] |}
                      end
                  | Returned None =>
                      {| result := Result NoShopsFound; world := w2; sent := [rq] |}
                  | Thrown e =>
                      {| result := handleError (MessageOf e) failed_to_set;
                         world := w2; sent := [rq] |}
                  end
              | None =>
                  {| result := handleError (MessageOf OtherError) failed_to_set;
                     world := w2; sent := [rq] |}
              end
            else
              {| result :=
                   handleError
                     (Message "User ID not found. Please try to re-authenticate.") None;
                 world := w2; sent := [] |}
        | None =>
            {| result :=
                 handleError
                   (Message "User ID not found. Please try to re-authenticate.") None;
               world := w2; sent := [] |}
        end
  end.

End Handlers.

(** The handler of [get_default_shop]. *)
Definition get_default_shop (now : Z) (w : World) : Run :=
  let '(tokens, storage) := TokenStorage.getTokens now (tokenStorage w) in
  let w1 := set_tokenStorage storage w in
  match tokens with
  | Some tokens =>
      if truthy_num (TokenStorage.shop_id tokens) then
        {| result :=
             Result (CurrentDefaultShop
                       (if truthy_str (TokenStorage.shop_name tokens)
                        then default "" (TokenStorage.shop_name tokens) else "N/A")
                       (default 0 (TokenStorage.shop_id tokens)));
           world := w1; sent := [] |}
      else {| result := Result NoDefaultShop; world := w1; sent := [] |}
  | None => {| result := Result NoDefaultShop; world := w1; sent := [] |}
  end.

End Tools.

(** A usable access token: what [getValidAccessToken] must return for a
    tool to go on. *)
Definition grants_token (provider : EtsyApiClient.Provider)
    (clock : EtsyMCPServer.Clock) (w : World) (token : string) : Prop :=
  fst (EtsyMCPServer.getValidAccessToken provider clock w) = Returned (Some token) /\
  token <> "".

Definition echo_market : EtsyApiRequests.Marketplace :=
  fun rq => EtsyApiRequests.Body (EtsyApiRequests.url rq).

Definition one_shop : OAuthServer.ShopsApi :=
  fun _ _ =>
    Some (OAuthServer.ShopObject
            {| OAuthServer.shop_id := Some 77; OAuthServer.shop_name := Some "Seventy" |}).

(** ** tokenStorage.ts: the constructor *)

Module TokenStorageSetup.

(** [new TokenStorage()]: [directory_exists] is what
    [fs.existsSync(storagePath)] returns, [mkdir_error] the error (if
    any) that [fs.mkdirSync] raises, [d] the disk behind the token
    path. *)
Definition construct (directory_exists : bool) (mkdir_error : option string)
    (d : TokenStorage.FileSystem) : Outcome TokenStorage.store :=
  let enabled :=
    {| TokenStorage.fileStorageEnabled := true; TokenStorage.disk := d |} in
  if directory_exists then Returned enabled
  else
    match mkdir_error with
    | None => Returned enabled
    | Some code =>
        if is_EROFS_or_EACCES (FsError code) then
          Returned {| TokenStorage.fileStorageEnabled := false; TokenStorage.disk := d |}
        else Thrown (FsError code)
    end.

End TokenStorageSetup.

(** No event of [evs] is a change of the disk from outside. *)
Definition no_outside_change (evs : list Event) : Prop :=
  Forall (fun ev => match ev with DiskChanged _ => False | _ => True end) evs.

(** The stored record is readable, not expired at [now] and has the
    non-empty access token [t]. *)
Definition usable_stored_token (now : Z) (s : TokenStorage.store) (t : string) : Prop :=
  exists r,
    readable s r /\ TokenStorage.is_expired r now = false /\
    TokenStorage.access_token r = t /\ t <> "".

(** A refresh is due, the provider grants it with the access token
    [t], and the write of the token file raises no error that
    [saveTokens] re-throws. *)
Definition refresh_yields (provider : EtsyApiClient.Provider) (now : Z)
    (s : TokenStorage.store) (t : string) : Prop :=
  exists r rt response,
    refresh_due now s r rt /\
    provider (RefreshTokenGrant rt) = Some response /\
    ~ unhandled_error (TokenStorage.write_error (TokenStorage.disk s)) /\
    EtsyApiClient.access_token response = t.

(** A provider that grants every request with an empty access token. *)
Definition granting_empty_token : EtsyApiClient.Provider := fun _ =>
  Some {| EtsyApiClient.access_token := "";
          EtsyApiClient.refresh_token := "r1";
          EtsyApiClient.expires_in := 3600;
          EtsyApiClient.token_type := "Bearer";
          EtsyApiClient.scope := "listings_r";
          EtsyApiClient.user_id := None |}.

(** * Properties *)

(** ** JavaScript conditions *)

Lemma truthy_num_true (n : option Z) :
  truthy_num n = true <-> exists z, n = Some z /\ z <> 0.
Proof.
  destruct n as [z|]; simpl.
  - rewrite negb_true_iff, Z.eqb_neq. split.
    + intros Hz. exists z. split; [reflexivity | exact Hz].
    + intros (z' & Heq & Hz). injection Heq as ->. exact Hz.
  - split; [discriminate | intros (z & Heq & _); discriminate].
Qed.

Lemma truthy_str_true (o : option string) :
  truthy_str o = true <-> exists s, o = Some s /\ s <> "".
Proof.
  destruct o as [s|]; simpl.
  - rewrite negb_true_iff, String.eqb_neq. split.
    + intros Hs. exists s. split; [reflexivity | exact Hs].
    + intros (s' & Heq & Hs). injection Heq as ->. exact Hs.
  - split; [discriminate | intros (s & Heq & _); discriminate].
Qed.

Lemma permission_code_handled (code : string) :
  permission_code code <-> is_EROFS_or_EACCES (FsError code) = true.
Proof.
  unfold permission_code. simpl. rewrite orb_true_iff, !String.eqb_eq. tauto.
Qed.

(** ** TokenStorage: expiry-aware reads *)

Section TokenStorageReads.
Import TokenStorage.

Lemma read_record_readable (s : store) (r : TokenData) :
  readable s r -> read_record (disk s) = Returned (Some r).
Proof.
  intros (_ & Hfile & Hread).
  unfold read_record, existsSync, readFileSync. rewrite Hfile, Hread. reflexivity.
Qed.

Lemma getTokens_readable (s : store) (r : TokenData) (now : Z) :
  readable s r ->
  getTokens now s = (if is_expired r now then None else Some r, s).
Proof.
  intros Hr. unfold getTokens.
  rewrite (read_record_readable s r Hr).
  destruct Hr as (-> & _). simpl. destruct (is_expired r now); reflexivity.
Qed.

Lemma loadPotentiallyExpiredTokens_readable (s : store) (r : TokenData) :
  readable s r -> loadPotentiallyExpiredTokens s = (Some r, s).
Proof.
  intros Hr. unfold loadPotentiallyExpiredTokens.
  rewrite (read_record_readable s r Hr).
  destruct Hr as (-> & _). reflexivity.
Qed.

Lemma is_expired_true (r : TokenData) (now : Z) :
  is_expired r now = true <-> exists e, expires_at r = Some e /\ e <> 0 /\ e < now.
Proof.
  unfold is_expired. rewrite andb_true_iff, truthy_num_true, Z.ltb_lt. split.
  - intros ((e & He & Hne) & Hlt). rewrite He in Hlt. simpl in Hlt. eauto.
  - intros (e & He & Hne & Hlt). rewrite He. simpl. eauto.
Qed.

(** C3, as stated, fails at the boundary: a record whose [expires_at]
    equals the clock reading is not treated as expired, [getTokens]
    returns it. *)
Lemma getTokens_boundary_counterexample :
  let r := sample_tokens (Some 1000) in
  readable (store_holding r) r /\
  expires_at r = Some 1000 /\
  1000 <= 1000 /\
  fst (getTokens 1000 (store_holding r)) = Some r /\
  fst (getTokens 1000 (store_holding r)) <> None.
Proof.
  repeat split; try reflexivity; try lia. discriminate.
Qed.

(** C3 (amended): for a stored, readable record, [getTokens] returns
    null when [expires_at] is set, non-zero and strictly before the
    clock reading; it returns the record when [expires_at] is at or
    after the clock reading (the boundary [now = expires_at] included),
    and when [expires_at] is missing or zero. *)
Theorem getTokens_expiry (s : store) (r : TokenData) (now : Z) :
  readable s r ->
  (forall e, expires_at r = Some e -> e <> 0 -> e < now ->
             getTokens now s = (None, s)) /\
  (forall e, expires_at r = Some e -> now <= e ->
             getTokens now s = (Some r, s)) /\
  (expires_at r = None \/ expires_at r = Some 0 ->
   getTokens now s = (Some r, s)).
Proof.
  intros Hr. rewrite (getTokens_readable s r now Hr).
  destruct (is_expired r now) eqn:Hexp.
  - apply is_expired_true in Hexp as (e & He & Hne & Hlt).
    split; [ intros; reflexivity | split ].
    + intros e' He' Hle. rewrite He in He'. injection He' as <-. lia.
    + intros [Hn|Hz]; rewrite He in *; [discriminate | ].
      injection Hz as ->. lia.
  - split; [ | split; reflexivity ].
    intros e He Hne Hlt.
    assert (is_expired r now = true) as Habs by (apply is_expired_true; eauto).
    congruence.
Qed.

Lemma getTokens_expiry_witness :
  let r := sample_tokens (Some 1000) in
  readable (store_holding r) r /\
  getTokens 1001 (store_holding r) = (None, store_holding r) /\
  getTokens 1000 (store_holding r) = (Some r, store_holding r).
Proof.
  intros r.
  assert (readable (store_holding r) r) as Hr by (repeat split; reflexivity).
  split; [exact Hr | split].
  - apply (proj1 (getTokens_expiry (store_holding r) r 1001 Hr) 1000);
      [reflexivity | lia | lia].
  - apply (proj1 (proj2 (getTokens_expiry (store_holding r) r 1000 Hr)) 1000);
      [reflexivity | lia].
Defined.

End TokenStorageReads.

(** ** TokenStorage: what [saveTokens] writes *)

Section TokenStorageWrites.
Import TokenStorage.

Lemma saveTokens_writes (tokens : TokenUpdate) (now : Z) (s : store) :
  fileStorageEnabled s = true ->
  write_error (disk s) = None ->
  saveTokens tokens now s =
    (Returned tt,
     with_disk s {| tokens_json := Some (Json (tokensToSave tokens now));
                    read_error := read_error (disk s);
                    write_error := write_error (disk s);
                    unlink_error := unlink_error (disk s) |}).
Proof.
  intros Hen Hw. unfold saveTokens, writeFileSync. rewrite Hen, Hw. reflexivity.
Qed.

Lemma newExpiresAt_cases (tokens : TokenUpdate) (now : Z) :
  (exists lifetime, expires_in tokens = Some lifetime /\ lifetime <> 0 /\
                    newExpiresAt tokens now = now + lifetime * 1000) \/
  (truthy_num (expires_in tokens) = false /\
   exists previous, expires_at (data tokens) = Some previous /\ previous <> 0 /\
                    newExpiresAt tokens now = previous) \/
  (truthy_num (expires_in tokens) = false /\
   truthy_num (expires_at (data tokens)) = false /\
   newExpiresAt tokens now = now + 3600000).
Proof.
  unfold newExpiresAt.
  destruct (truthy_num (expires_in tokens)) eqn:Hin.
  - left. apply truthy_num_true in Hin as (z & -> & Hz). exists z. auto.
  - right. destruct (truthy_num (expires_at (data tokens))) eqn:Hat.
    + left. apply truthy_num_true in Hat as (z & -> & Hz).
      split; [reflexivity | exists z; auto].
    + right. repeat split.
Qed.

(** C8, as stated, misses a case: a save that supplies neither
    [expires_in] nor [expires_at] persists [now + 1 hour], which is
    neither of the two values the claim allows. *)
Lemma saveTokens_default_lifetime_counterexample :
  let update := bare_update "111.new" in
  let now := 1000 in
  let saved := tokens_json (disk (snd (saveTokens update now (store_holding (sample_tokens None))))) in
  saved = Some (Json (tokensToSave update now)) /\
  expires_at (tokensToSave update now) = Some 3601000 /\
  ~ ((exists lifetime, expires_in update = Some lifetime /\
                       3601000 = now + lifetime * 1000) \/
     (expires_in update = None /\ expires_at (data update) = Some 3601000)).
Proof.
  repeat split.
  intros [(lifetime & Hin & _) | (_ & Hat)]; discriminate.
Qed.

(** C8 (amended): after every save that writes (store enabled, the
    write raises no error) the persisted record has [expires_at] set,
    and its value is [now + expires_in * 1000] when a non-zero
    [expires_in] is supplied; otherwise the supplied [expires_at] when
    that is present and non-zero; otherwise [now + 1 hour]. *)
Theorem saveTokens_expires_at (tokens : TokenUpdate) (now : Z) (s : store) :
  fileStorageEnabled s = true ->
  write_error (disk s) = None ->
  exists saved expiry,
    fst (saveTokens tokens now s) = Returned tt /\
    tokens_json (disk (snd (saveTokens tokens now s))) = Some (Json saved) /\
    expires_at saved = Some expiry /\
    ((exists lifetime, expires_in tokens = Some lifetime /\ lifetime <> 0 /\
                       expiry = now + lifetime * 1000) \/
     (truthy_num (expires_in tokens) = false /\
      exists previous, expires_at (data tokens) = Some previous /\ previous <> 0 /\
                       expiry = previous) \/
     (truthy_num (expires_in tokens) = false /\
      truthy_num (expires_at (data tokens)) = false /\
      expiry = now + 3600000)).
Proof.
  intros Hen Hw. rewrite (saveTokens_writes tokens now s Hen Hw).
  exists (tokensToSave tokens now), (newExpiresAt tokens now).
  repeat split. apply newExpiresAt_cases.
Qed.

Lemma saveTokens_expires_at_witness :
  let s := store_holding (sample_tokens (Some 5)) in
  fileStorageEnabled s = true /\
  write_error (disk s) = None /\
  exists saved expiry,
    fst (saveTokens (bare_update "111.new") 1000 s) = Returned tt /\
    tokens_json (disk (snd (saveTokens (bare_update "111.new") 1000 s)))
      = Some (Json saved) /\
    expires_at saved = Some expiry.
Proof.
  intros s. split; [reflexivity | split; [reflexivity | ]].
  destruct (saveTokens_expires_at (bare_update "111.new") 1000 s eq_refl eq_refl)
    as (saved & expiry & Hret & Hfile & Hexp & _).
  exists saved, expiry. auto.
Defined.

End TokenStorageWrites.

(** ** TokenStorage: the disabled mode *)

Section DisabledMode.
Import TokenStorage.

Lemma disabled_getTokens (now : Z) (s : store) :
  fileStorageEnabled s = false -> getTokens now s = (None, s).
Proof. intros H. unfold getTokens. rewrite H. reflexivity. Qed.

Lemma disabled_loadPotentiallyExpiredTokens (s : store) :
  fileStorageEnabled s = false -> loadPotentiallyExpiredTokens s = (None, s).
Proof. intros H. unfold loadPotentiallyExpiredTokens. rewrite H. reflexivity. Qed.

Lemma disabled_saveTokens (tokens : TokenUpdate) (now : Z) (s : store) :
  fileStorageEnabled s = false -> saveTokens tokens now s = (Returned tt, s).
Proof. intros H. unfold saveTokens. rewrite H. reflexivity. Qed.

Lemma disabled_clearTokens (s : store) :
  fileStorageEnabled s = false -> clearTokens s = (Returned tt, s).
Proof. intros H. unfold clearTokens. rewrite H. reflexivity. Qed.

Lemma saveTokens_permission_error (tokens : TokenUpdate) (now : Z) (s : store)
    (code : string) :
  fileStorageEnabled s = true ->
  write_error (disk s) = Some code ->
  permission_code code ->
  saveTokens tokens now s = (Returned tt, disable s).
Proof.
  intros Hen Hw Hcode. apply permission_code_handled in Hcode.
  unfold saveTokens, writeFileSync. rewrite Hen, Hw. simpl negb. cbv iota.
  rewrite Hcode. reflexivity.
Qed.

End DisabledMode.

Section DisabledForever.
Variable sha256 : string -> list Byte.byte.

Lemma set_tokenStorage_same (w : World) : set_tokenStorage (tokenStorage w) w = w.
Proof. destruct w; reflexivity. Qed.

Lemma getValidAccessToken_disabled (provider : EtsyApiClient.Provider)
    (clock : EtsyMCPServer.Clock) (w : World) :
  TokenStorage.fileStorageEnabled (tokenStorage w) = false ->
  EtsyMCPServer.getValidAccessToken provider clock w = (Returned None, w).
Proof.
  intros Hoff. unfold EtsyMCPServer.getValidAccessToken.
  rewrite (disabled_getTokens _ _ Hoff). simpl.
  rewrite (disabled_loadPotentiallyExpiredTokens _ Hoff). simpl.
  rewrite set_tokenStorage_same. reflexivity.
Qed.

Lemma exchange_and_store_disabled (provider : EtsyApiClient.Provider)
    (shops : OAuthServer.ShopsApi) (now : Z) (code verifier : string) (w : World) :
  TokenStorage.fileStorageEnabled (tokenStorage w) = false ->
  tokenStorage (snd (OAuthServer.exchange_and_store provider shops now code verifier w))
    = tokenStorage w.
Proof.
  intros Hoff. unfold OAuthServer.exchange_and_store.
  destruct (EtsyApiClient.getAccessTokenFromCode provider code verifier (etsyApi w))
    as [[tokens|e] api]; [ | reflexivity ].
  rewrite (disabled_saveTokens _ _ _ Hoff). reflexivity.
Qed.

Lemma route_callback_disabled (provider : EtsyApiClient.Provider)
    (shops : OAuthServer.ShopsApi) (now : Z) (query : OAuthServer.CallbackQuery)
    (w : World) :
  TokenStorage.fileStorageEnabled (tokenStorage w) = false ->
  tokenStorage (snd (OAuthServer.route_callback provider shops now query w))
    = tokenStorage w.
Proof.
  intros Hoff. unfold OAuthServer.route_callback.
  destruct (OAuthServer.q_truthy (OAuthServer.error query)); [reflexivity | ].
  destruct (OAuthServer.code query) as [ | code | ]; try reflexivity.
  destruct (OAuthServer.state query) as [ | state | ]; try reflexivity.
  destruct (String.eqb code "" || String.eqb state ""); [reflexivity | ].
  unfold OAuthServer.consume.
  destruct (stateStore w !! state) as [d|]; [ | reflexivity ].
  apply (exchange_and_store_disabled provider shops now code _
           (set_stateStore (delete state (stateStore w)) w)).
  exact Hoff.
Qed.

(** One event cannot re-enable a disabled store. *)
Lemma step_keeps_disabled (ev : Event) (w : World) :
  TokenStorage.fileStorageEnabled (tokenStorage w) = false ->
  TokenStorage.fileStorageEnabled (tokenStorage (step sha256 ev w)) = false.
Proof.
  intros Hoff. destruct ev; simpl.
  - exact Hoff.
  - rewrite route_callback_disabled; assumption.
  - exact Hoff.
  - rewrite getValidAccessToken_disabled; assumption.
  - rewrite disabled_saveTokens; assumption.
  - rewrite disabled_getTokens; assumption.
  - rewrite disabled_loadPotentiallyExpiredTokens; assumption.
  - rewrite disabled_clearTokens; assumption.
  - exact Hoff.
Qed.

Lemma run_keeps_disabled (evs : list Event) (w : World) :
  TokenStorage.fileStorageEnabled (tokenStorage w) = false ->
  TokenStorage.fileStorageEnabled (tokenStorage (run sha256 evs w)) = false.
Proof.
  revert w. induction evs as [ | ev evs IH]; intros w Hoff; simpl.
  - exact Hoff.
  - apply IH, step_keeps_disabled, Hoff.
Qed.

(** C9: a save that fails with EROFS or EACCES returns normally and
    leaves the store disabled; whatever happens afterwards in the
    process (any sequence of events, the disk becoming writable again
    included), the store stays disabled, both readers return null and
    every save returns normally without changing anything. *)
Theorem permission_error_disables_store (tokens : TokenStorage.TokenUpdate)
    (now : Z) (s : TokenStorage.store) (code : string) :
  TokenStorage.fileStorageEnabled s = true ->
  TokenStorage.write_error (TokenStorage.disk s) = Some code ->
  permission_code code ->
  fst (TokenStorage.saveTokens tokens now s) = Returned tt /\
  forall (evs : list Event) (w : World),
    tokenStorage w = snd (TokenStorage.saveTokens tokens now s) ->
    let later := tokenStorage (run sha256 evs w) in
    TokenStorage.fileStorageEnabled later = false /\
    (forall now', TokenStorage.getTokens now' later = (None, later)) /\
    TokenStorage.loadPotentiallyExpiredTokens later = (None, later) /\
    (forall tokens' now',
       TokenStorage.saveTokens tokens' now' later = (Returned tt, later)).
Proof.
  intros Hen Hw Hcode.
  rewrite (saveTokens_permission_error tokens now s code Hen Hw Hcode).
  split; [reflexivity | ].
  intros evs w Hw0 later.
  assert (TokenStorage.fileStorageEnabled later = false) as Hoff.
  { apply run_keeps_disabled. rewrite Hw0. reflexivity. }
  split; [exact Hoff | split; [ | split ]].
  - intros now'. apply disabled_getTokens, Hoff.
  - apply disabled_loadPotentiallyExpiredTokens, Hoff.
  - intros tokens' now'. apply disabled_saveTokens, Hoff.
Qed.

End DisabledForever.

Lemma permission_error_disables_store_witness :
  let s := enabled_store (sample_disk None (Some "EROFS") None) in
  let w := world_of ∅ (snd (TokenStorage.saveTokens (bare_update "111.new") 1000 s)) in
  let healthy := sample_disk (Some (TokenStorage.Json (sample_tokens None))) None None in
  let later :=
    tokenStorage (run (fun _ => []) [DiskChanged healthy; SaveTokens (bare_update "b") 2000] w) in
  permission_code "EROFS" /\
  fst (TokenStorage.saveTokens (bare_update "111.new") 1000 s) = Returned tt /\
  TokenStorage.getTokens 3000 later = (None, later) /\
  TokenStorage.saveTokens (bare_update "c") 3000 later = (Returned tt, later).
Proof.
  intros s w healthy later.
  assert (permission_code "EROFS") as Hcode by (left; reflexivity).
  destruct (permission_error_disables_store (fun _ => []) (bare_update "111.new")
              1000 s "EROFS" eq_refl eq_refl Hcode) as [Hret Hlater].
  destruct (Hlater [DiskChanged healthy; SaveTokens (bare_update "b") 2000] w eq_refl)
    as (_ & Hget & _ & Hsave).
  split; [exact Hcode | split; [exact Hret | split]].
  - apply Hget.
  - apply Hsave.
Defined.

(** ** PKCE: the code verifier *)

Section CodeVerifier.
Import EtsyApiClient.

Example base64_Man :
  string_of_list_ascii (base64 [x4d; x61; x6e]) = "TWFu" /\
  string_of_list_ascii (base64 [x4d; x61]) = "TWE=" /\
  string_of_list_ascii (base64 [x4d]) = "TQ==".
Proof. repeat split. Qed.

Lemma length_string_of_list_ascii (l : list ascii) :
  String.length (string_of_list_ascii l) = length l.
Proof. induction l as [ | c l IH]; simpl; [reflexivity | f_equal; exact IH]. Qed.

(** 32 bytes: ten whole groups and a group of two, so 43 digits and
    one [=]. *)
Lemma base64_32_bytes (random : list Byte.byte) :
  length random = 32%nat ->
  exists body, base64 random = (body ++ ["="%char])%list /\ length body = 43%nat.
Proof.
  intros Hlen.
  do 32 (destruct random as [ | ? random]; [discriminate Hlen | ]).
  destruct random; [ | discriminate Hlen ].
  cbn [base64].
  eexists (_ :: _ :: _ :: _ :: _ :: _ :: _ :: _ :: _ :: _ :: _ :: _ :: _ :: _ :: _ ::
           _ :: _ :: _ :: _ :: _ :: _ :: _ :: _ :: _ :: _ :: _ :: _ :: _ :: _ :: _ ::
           _ :: _ :: _ :: _ :: _ :: _ :: _ :: _ :: _ :: _ :: _ :: _ :: _ :: []).
  split; reflexivity.
Qed.

(** The 43 characters in front of the padding are digits of the
    alphabet. *)
Lemma base64_32_bytes_digits (digest : list Byte.byte) :
  length digest = 32%nat ->
  exists body,
    base64 digest = (body ++ ["="%char])%list /\ length body = 43%nat /\
    Forall (fun c => exists n, c = base64_digit n) body.
Proof.
  intros Hlen.
  do 32 (destruct digest as [ | ? digest]; [discriminate Hlen | ]).
  destruct digest; [ | discriminate Hlen ].
  cbn [base64].
  eexists (_ :: _ :: _ :: _ :: _ :: _ :: _ :: _ :: _ :: _ :: _ :: _ :: _ :: _ :: _ ::
           _ :: _ :: _ :: _ :: _ :: _ :: _ :: _ :: _ :: _ :: _ :: _ :: _ :: _ :: _ ::
           _ :: _ :: _ :: _ :: _ :: _ :: _ :: _ :: _ :: _ :: _ :: _ :: _ :: []).
  split; [reflexivity | split; [reflexivity | ]].
  repeat (constructor; [eexists; reflexivity | ]). constructor.
Qed.

(** A digit of the alphabet is alphanumeric unless it is [+] or [/];
    it is never the padding character. *)
Lemma base64_digit_alnum (n : N) :
  is_alnum (base64_digit n)
    = negb (Ascii.eqb (base64_digit n) "+" || Ascii.eqb (base64_digit n) "/"
            || Ascii.eqb (base64_digit n) "=") /\
  Ascii.eqb (base64_digit n) "=" = false.
Proof.
  unfold base64_digit.
  assert (N.to_nat (N.land n 63) < 64)%nat as Hlt.
  { assert (N.land n 63 < 64)%N; [ | lia ].
    change 63%N with (N.ones 6). rewrite N.land_ones. apply N.mod_lt. discriminate. }
  remember (N.to_nat (N.land n 63)) as k eqn:Hk. clear Hk.
  do 64 (destruct k as [ | k]; [split; reflexivity | ]).
  lia.
Qed.

Lemma strip_non_alnum_alnum (s : list ascii) :
  Forall (fun c => is_alnum c = true) (strip_non_alnum s).
Proof.
  apply List.Forall_forall. intros c Hin.
  apply List.filter_In in Hin. apply Hin.
Qed.

Lemma codeVerifier_alnum (random : list Byte.byte) :
  Forall (fun c => is_alnum c = true)
         (list_ascii_of_string (codeVerifier_of random)).
Proof.
  unfold codeVerifier_of, substring0.
  rewrite list_ascii_of_string_of_list_ascii.
  apply Forall_take, strip_non_alnum_alnum.
Qed.

Lemma codeVerifier_at_most_128 (random : list Byte.byte) :
  (String.length (codeVerifier_of random) <= 128)%nat.
Proof.
  unfold codeVerifier_of, substring0.
  rewrite length_string_of_list_ascii. apply List.firstn_le_length.
Qed.

Lemma codeVerifier_at_most_43 (random : list Byte.byte) :
  length random = 32%nat ->
  (String.length (codeVerifier_of random) <= 43)%nat.
Proof.
  intros Hlen. destruct (base64_32_bytes random Hlen) as (body & Heq & Hbody).
  unfold codeVerifier_of, substring0, strip_non_alnum.
  rewrite length_string_of_list_ascii, Heq, List.filter_app. simpl List.filter.
  rewrite List.app_nil_r, List.length_firstn.
  pose proof (List.filter_length_le is_alnum body). lia.
Qed.

(** On the base64 text of 32 bytes the character class of the first
    [replace] removes exactly [+], [/] and [=], and [substring] cuts
    nothing. *)
Lemma codeVerifier_is_stripped_base64 (random : list Byte.byte) :
  length random = 32%nat ->
  codeVerifier_of random
    = string_of_list_ascii
        (List.filter
           (fun c => negb (Ascii.eqb c "+" || Ascii.eqb c "/" || Ascii.eqb c "="))
           (base64 random)).
Proof.
  intros Hlen. destruct (base64_32_bytes_digits random Hlen) as (body & Heq & Hbody & Hdigits).
  unfold codeVerifier_of, substring0, strip_non_alnum. f_equal.
  rewrite List.firstn_all2.
  - apply List.filter_ext_in. intros c Hin. rewrite Heq in Hin.
    apply List.in_app_or in Hin as [Hin | [<- | []]]; [ | reflexivity ].
    rewrite List.Forall_forall in Hdigits.
    destruct (Hdigits c Hin) as (n & ->). apply base64_digit_alnum.
  - pose proof (List.filter_length_le is_alnum (base64 random)) as Hle.
    assert (length (base64 random) = 44%nat) as H44
      by (rewrite Heq, List.length_app, Hbody; reflexivity).
    lia.
Qed.

(** Each [+] and [/] among the 43 digits shortens the verifier by one
    character. *)
Lemma codeVerifier_length (random : list Byte.byte) :
  length random = 32%nat ->
  (String.length (codeVerifier_of random)
   + length (List.filter (fun c => Ascii.eqb c "+" || Ascii.eqb c "/") (base64 random))
   = 43)%nat.
Proof.
  intros Hlen. rewrite (codeVerifier_is_stripped_base64 random Hlen).
  destruct (base64_32_bytes_digits random Hlen) as (body & -> & Hbody & Hdigits).
  rewrite length_string_of_list_ascii, !List.filter_app. simpl List.filter at 2 4.
  rewrite !List.app_nil_r, <- Hbody. clear Hbody Hlen.
  induction Hdigits as [ | c l (n & ->) _ IH]; [reflexivity | ].
  destruct (base64_digit_alnum n) as [_ Hpad].
  cbn [List.filter]. rewrite Hpad, orb_false_r.
  destruct (Ascii.eqb (base64_digit n) "+" || Ascii.eqb (base64_digit n) "/");
    cbn [negb length]; lia.
Qed.

(** C7, as stated, fails: from 32 zero bytes the verifier has 43
    characters, not 128; from 32 bytes [0xff] it has a single
    character, fewer than 43. *)
Lemma codeVerifier_length_counterexample :
  let sha256 := fun _ : string => [] in
  length (repeat x00 32) = 32%nat /\
  String.length (codeVerifier (generatePKCE sha256 (repeat x00 32))) = 43%nat /\
  String.length (codeVerifier (generatePKCE sha256 (repeat x00 32))) <> 128%nat /\
  codeVerifier (generatePKCE sha256 (repeat xff 32)) = "8" /\
  ~ (43 <= String.length (codeVerifier (generatePKCE sha256 (repeat xff 32))))%nat.
Proof.
  intros sha256.
  assert (String.length (codeVerifier (generatePKCE sha256 (repeat x00 32))) = 43%nat)
    as H43 by (vm_compute; reflexivity).
  assert (codeVerifier (generatePKCE sha256 (repeat xff 32)) = "8")
    as H1 by (vm_compute; reflexivity).
  split; [reflexivity | split; [exact H43 | split; [ | split; [exact H1 | ]]]].
  - rewrite H43. discriminate.
  - rewrite H1. simpl. lia.
Qed.

(** C7 (amended): for every draw of 32 random bytes the code verifier
    consists only of characters of [[A-Za-z0-9]] and is at most 43
    characters long, hence within the cap of 128 that [substring]
    applies; it is the base64 text of the 32 bytes with every [+], [/]
    and [=] removed, so its length is 43 less the number of [+] and [/]
    in that text, and it is not padded to 128 characters. *)
Theorem generatePKCE_codeVerifier (sha256 : string -> list Byte.byte)
    (random : list Byte.byte) :
  length random = 32%nat ->
  let verifier := codeVerifier (generatePKCE sha256 random) in
  Forall (fun c => is_alnum c = true) (list_ascii_of_string verifier) /\
  (String.length verifier <= 43)%nat /\
  (String.length verifier <= 128)%nat /\
  verifier
    = string_of_list_ascii
        (List.filter
           (fun c => negb (Ascii.eqb c "+" || Ascii.eqb c "/" || Ascii.eqb c "="))
           (base64 random)) /\
  (String.length verifier
   + length (List.filter (fun c => Ascii.eqb c "+" || Ascii.eqb c "/") (base64 random))
   = 43)%nat.
Proof.
  intros Hlen verifier. subst verifier. unfold generatePKCE. simpl codeVerifier.
  split; [apply codeVerifier_alnum | split; [ | split; [ | split]]].
  - apply codeVerifier_at_most_43, Hlen.
  - apply codeVerifier_at_most_128.
  - apply codeVerifier_is_stripped_base64, Hlen.
  - apply codeVerifier_length, Hlen.
Qed.

Lemma generatePKCE_codeVerifier_witness :
  let verifier := codeVerifier (generatePKCE (fun _ => []) (repeat x2a 32)) in
  length (repeat x2a 32) = 32%nat /\
  Forall (fun c => is_alnum c = true) (list_ascii_of_string verifier) /\
  (String.length verifier <= 43)%nat /\
  (String.length verifier
   + length (List.filter (fun c => Ascii.eqb c "+" || Ascii.eqb c "/")
               (base64 (repeat x2a 32)))
   = 43)%nat.
Proof.
  intros verifier.
  destruct (generatePKCE_codeVerifier (fun _ => []) (repeat x2a 32) eq_refl)
    as (Halnum & H43 & _ & _ & Hlen).
  split; [reflexivity | split; [assumption | split; assumption]].
Defined.

End CodeVerifier.

(** ** The state store *)

Section StateStore.
Variable sha256 : string -> list Byte.byte.

Lemma exchange_and_store_stateStore (provider : EtsyApiClient.Provider)
    (shops : OAuthServer.ShopsApi) (now : Z) (c v : string) (w : World) :
  stateStore (snd (OAuthServer.exchange_and_store provider shops now c v w))
    = stateStore w.
Proof.
  unfold OAuthServer.exchange_and_store.
  destruct (EtsyApiClient.getAccessTokenFromCode provider c v (etsyApi w))
    as [[tokens|e] api]; [ | reflexivity ].
  destruct (TokenStorage.saveTokens _ now (tokenStorage w)) as [[u|e] storage];
    reflexivity.
Qed.

(** A well-formed callback whose state is in the store deletes the
    entry, then runs the [try] block on the store without it. *)
Lemma route_callback_hit (provider : EtsyApiClient.Provider)
    (shops : OAuthServer.ShopsApi) (now : Z) (query : OAuthServer.CallbackQuery)
    (c s : string) (d : StateData) (w : World) :
  well_formed_callback query c s ->
  stateStore w !! s = Some d ->
  OAuthServer.route_callback provider shops now query w =
    OAuthServer.exchange_and_store provider shops now c (codeVerifier d)
      (set_stateStore (delete s (stateStore w)) w).
Proof.
  intros (Herr & Hcode & Hstate & Hc & Hs) Hd.
  unfold OAuthServer.route_callback, OAuthServer.consume.
  rewrite Herr, Hcode, Hstate, Hd.
  apply String.eqb_neq in Hc, Hs. rewrite Hc, Hs. reflexivity.
Qed.

(** A well-formed callback whose state is not in the store is
    rejected and changes nothing. *)
Lemma route_callback_miss (provider : EtsyApiClient.Provider)
    (shops : OAuthServer.ShopsApi) (now : Z) (query : OAuthServer.CallbackQuery)
    (c s : string) (w : World) :
  well_formed_callback query c s ->
  stateStore w !! s = None ->
  OAuthServer.route_callback provider shops now query w
    = (OAuthServer.InvalidOrExpiredState, w).
Proof.
  intros (Herr & Hcode & Hstate & Hc & Hs) Hd.
  unfold OAuthServer.route_callback, OAuthServer.consume.
  rewrite Herr, Hcode, Hstate, Hd.
  apply String.eqb_neq in Hc, Hs. rewrite Hc, Hs. reflexivity.
Qed.

(** The callback never adds an entry. *)
Lemma route_callback_keeps_absent (provider : EtsyApiClient.Provider)
    (shops : OAuthServer.ShopsApi) (now : Z) (query : OAuthServer.CallbackQuery)
    (s : string) (w : World) :
  stateStore w !! s = None ->
  stateStore (snd (OAuthServer.route_callback provider shops now query w)) !! s = None.
Proof.
  intros Hs. unfold OAuthServer.route_callback.
  destruct (OAuthServer.q_truthy (OAuthServer.error query)); [exact Hs | ].
  destruct (OAuthServer.code query) as [ | c | ]; try exact Hs.
  destruct (OAuthServer.state query) as [ | s' | ]; try exact Hs.
  destruct (String.eqb c "" || String.eqb s' ""); [exact Hs | ].
  unfold OAuthServer.consume.
  destruct (stateStore w !! s') as [d|]; [ | exact Hs ].
  rewrite exchange_and_store_stateStore. simpl.
  apply lookup_delete_None. right. exact Hs.
Qed.

Lemma getValidAccessToken_stateStore (provider : EtsyApiClient.Provider)
    (clock : EtsyMCPServer.Clock) (w : World) :
  stateStore (snd (EtsyMCPServer.getValidAccessToken provider clock w)) = stateStore w.
Proof.
  unfold EtsyMCPServer.getValidAccessToken, EtsyMCPServer.refresh,
    EtsyMCPServer.refresh_failed.
  repeat match goal with
         | |- context [let '(_, _) := ?x in _] => destruct x
         | |- context [match ?x with _ => _ end] => destruct x
         end; reflexivity.
Qed.

(** Only [GET /auth] adds entries, and only under the state it draws. *)
Lemma step_keeps_absent (ev : Event) (s : string) (w : World) :
  never_reissued s [ev] ->
  stateStore w !! s = None ->
  stateStore (step sha256 ev w) !! s = None.
Proof.
  intros Hev Hs. apply Forall_inv in Hev.
  destruct ev; simpl; try exact Hs.
  - rewrite lookup_insert_ne; [exact Hs | exact Hev].
  - apply route_callback_keeps_absent, Hs.
  - apply map_lookup_filter_None. left. exact Hs.
  - rewrite getValidAccessToken_stateStore. exact Hs.
Qed.

Lemma run_keeps_absent (evs : list Event) (s : string) (w : World) :
  never_reissued s evs ->
  stateStore w !! s = None ->
  stateStore (run sha256 evs w) !! s = None.
Proof.
  revert w. induction evs as [ | ev evs IH]; intros w Hevs Hs; simpl.
  - exact Hs.
  - apply IH.
    + apply Forall_inv_tail in Hevs. exact Hevs.
    + apply step_keeps_absent; [ | exact Hs ].
      constructor; [apply Forall_inv in Hevs; exact Hevs | constructor].
Qed.

End StateStore.

Section SingleUse.
Variable sha256 : string -> list Byte.byte.

(** C4: once a callback has looked a state value up successfully and
    deleted it, every later lookup of that value misses, whatever
    happens in between (further callbacks, sweeps, token operations,
    and [GET /auth] requests that draw other state values): [consume]
    returns nothing, and the handler answers a well-formed callback
    carrying it with "Invalid or expired state parameter", leaving the
    process state as it was. *)
Theorem consumed_state_is_single_use (provider : EtsyApiClient.Provider)
    (shops : OAuthServer.ShopsApi) (now : Z) (query : OAuthServer.CallbackQuery)
    (c s : string) (d : StateData) (w : World) (evs : list Event) :
  well_formed_callback query c s ->
  stateStore w !! s = Some d ->
  never_reissued s evs ->
  let consumed := snd (OAuthServer.route_callback provider shops now query w) in
  let later := run sha256 evs consumed in
  stateStore consumed !! s = None /\
  OAuthServer.consume s (stateStore later) = (None, stateStore later) /\
  forall provider' shops' now' query' c',
    well_formed_callback query' c' s ->
    OAuthServer.route_callback provider' shops' now' query' later
      = (OAuthServer.InvalidOrExpiredState, later).
Proof.
  intros Hq Hd Hevs consumed later.
  assert (stateStore consumed !! s = None) as Hgone.
  { subst consumed. rewrite (route_callback_hit _ _ _ _ c s d w Hq Hd).
    rewrite exchange_and_store_stateStore. simpl. apply lookup_delete_eq. }
  assert (stateStore later !! s = None) as Hlater.
  { subst later. apply run_keeps_absent; assumption. }
  split; [exact Hgone | split].
  - unfold OAuthServer.consume. rewrite Hlater. reflexivity.
  - intros provider' shops' now' query' c' Hq'.
    apply (route_callback_miss _ _ _ _ c' s); assumption.
Qed.

End SingleUse.

Lemma consumed_state_is_single_use_witness :
  let d := {| codeVerifier := "v"; createdAt := 0 |} in
  let w := world_of {[ "s1" := d ]} (store_holding (sample_tokens None)) in
  let query := callback_query "abc" "s1" in
  let consumed := snd (OAuthServer.route_callback granting_provider no_shops 10 query w) in
  let later := run (fun _ => []) [TimerTick 20; GetCallback failing_provider no_shops 30 query]
                 consumed in
  well_formed_callback query "abc" "s1" /\
  never_reissued "s1" [TimerTick 20; GetCallback failing_provider no_shops 30 query] /\
  OAuthServer.route_callback granting_provider no_shops 40 query later
    = (OAuthServer.InvalidOrExpiredState, later).
Proof.
  intros d w query consumed later.
  assert (well_formed_callback query "abc" "s1") as Hq
    by (repeat split; discriminate).
  assert (never_reissued "s1" [TimerTick 20; GetCallback failing_provider no_shops 30 query])
    as Hevs by (repeat constructor).
  split; [exact Hq | split; [exact Hevs | ]].
  destruct (consumed_state_is_single_use (fun _ => []) granting_provider no_shops 10 query
              "abc" "s1" d w _ Hq (lookup_singleton_eq _ _) Hevs)
    as (_ & _ & Hreject).
  apply (Hreject granting_provider no_shops 40 query "abc" Hq).
Defined.

(** ** The callback handler and the token exchange *)

(** C10: in a callback that reaches the exchange, the state entry is
    deleted first: the [try] block runs on the store without it.  When
    the provider rejects the exchange, one request has been posted, the
    reply is "Token exchange failed", the entry is gone, and the same
    callback sent again is answered with "Invalid or expired state
    parameter" without changing the process state, so without posting a
    second request. *)
Theorem failed_exchange_leaves_state_consumed (provider : EtsyApiClient.Provider)
    (shops : OAuthServer.ShopsApi) (now : Z) (query : OAuthServer.CallbackQuery)
    (c s : string) (d : StateData) (w : World) :
  well_formed_callback query c s ->
  stateStore w !! s = Some d ->
  provider (AuthorizationCodeGrant c (codeVerifier d)) = None ->
  let first := OAuthServer.route_callback provider shops now query w in
  first = OAuthServer.exchange_and_store provider shops now c (codeVerifier d)
            (set_stateStore (delete s (stateStore w)) w) /\
  fst first = OAuthServer.TokenExchangeFailed /\
  EtsyApiClient.posted (etsyApi (snd first))
    = (EtsyApiClient.posted (etsyApi w) ++ [AuthorizationCodeGrant c (codeVerifier d)])%list /\
  stateStore (snd first) !! s = None /\
  forall provider' shops' now',
    OAuthServer.route_callback provider' shops' now' query (snd first)
      = (OAuthServer.InvalidOrExpiredState, snd first).
Proof.
  intros Hq Hd Hfail first.
  assert (first = OAuthServer.exchange_and_store provider shops now c (codeVerifier d)
                    (set_stateStore (delete s (stateStore w)) w)) as Hfirst
    by (apply route_callback_hit; assumption).
  assert (stateStore (snd first) !! s = None) as Hgone.
  { rewrite Hfirst, exchange_and_store_stateStore. simpl. apply lookup_delete_eq. }
  split; [exact Hfirst | ].
  split; [ | split; [ | split; [exact Hgone | ]]].
  - rewrite Hfirst. unfold OAuthServer.exchange_and_store,
      EtsyApiClient.getAccessTokenFromCode. simpl. rewrite Hfail. reflexivity.
  - rewrite Hfirst. unfold OAuthServer.exchange_and_store,
      EtsyApiClient.getAccessTokenFromCode. simpl. rewrite Hfail. reflexivity.
  - intros provider' shops' now'.
    apply (route_callback_miss _ _ _ _ c s); assumption.
Qed.

Lemma failed_exchange_leaves_state_consumed_witness :
  let d := {| codeVerifier := "v"; createdAt := 0 |} in
  let w := world_of {[ "s1" := d ]} (store_holding (sample_tokens None)) in
  let query := callback_query "abc" "s1" in
  let first := OAuthServer.route_callback failing_provider no_shops 10 query w in
  well_formed_callback query "abc" "s1" /\
  fst first = OAuthServer.TokenExchangeFailed /\
  EtsyApiClient.posted (etsyApi (snd first)) = [AuthorizationCodeGrant "abc" "v"] /\
  OAuthServer.route_callback granting_provider no_shops 20 query (snd first)
    = (OAuthServer.InvalidOrExpiredState, snd first).
Proof.
  intros d w query first.
  assert (well_formed_callback query "abc" "s1") as Hq
    by (repeat split; discriminate).
  destruct (failed_exchange_leaves_state_consumed failing_provider no_shops 10 query
              "abc" "s1" d w Hq (lookup_singleton_eq _ _) eq_refl)
    as (_ & Hreply & Hposted & _ & Hreplay).
  split; [exact Hq | split; [exact Hreply | split; [exact Hposted | apply Hreplay]]].
Defined.

(** The two callback scenarios of the specification: a fresh
    authorization persists the granted tokens with the user id parsed
    from the access token; an unknown state is rejected, posts nothing
    and persists nothing. *)
Example scenario_fresh_authorization :
  let provider : EtsyApiClient.Provider := fun _ =>
    Some {| EtsyApiClient.access_token := "111.xyz";
            EtsyApiClient.refresh_token := "r1";
            EtsyApiClient.expires_in := 3600;
            EtsyApiClient.token_type := "Bearer";
            EtsyApiClient.scope := "";
            EtsyApiClient.user_id := None |} in
  let w := world_of {[ "s1" := {| codeVerifier := "v"; createdAt := 0 |} ]}
             (enabled_store (sample_disk None None None)) in
  let done := OAuthServer.route_callback provider no_shops 1000 (callback_query "abc" "s1") w in
  fst done = OAuthServer.AuthenticationSuccessful (Some 111) None /\
  TokenStorage.tokens_json (TokenStorage.disk (tokenStorage (snd done))) =
    Some (TokenStorage.Json
            {| TokenStorage.access_token := "111.xyz";
               TokenStorage.refresh_token := Some "r1";
               TokenStorage.expires_at := Some 3601000;
               TokenStorage.user_id := Some 111;
               TokenStorage.shop_id := None;
               TokenStorage.shop_name := None |}).
Proof. split; vm_compute; reflexivity. Qed.

Example scenario_unknown_state :
  let w := world_of {[ "s1" := {| codeVerifier := "v"; createdAt := 0 |} ]}
             (enabled_store (sample_disk None None None)) in
  OAuthServer.route_callback granting_provider no_shops 1000
    (callback_query "abc" "unknown") w
  = (OAuthServer.InvalidOrExpiredState, w).
Proof. vm_compute. reflexivity. Qed.

(** ** Expiry of pending states *)

(** C5, as stated, fails: an entry created at time 0 survives the sweep
    ticks at 60 s, 120 s, ..., 300 s, so at query time 0 + TTL it is
    still in the store, and a callback carrying it at that time is
    accepted. *)
Lemma pending_state_at_ttl_counterexample :
  let sha256 := fun _ : string => [] in
  let random16 := repeat x01 16 in
  let s := OAuthServer.hex random16 in
  let inserted :=
    step sha256 (GetAuth random16 (repeat x00 32) 0)
      (world_of ∅ (store_holding (sample_tokens None))) in
  let at_ttl := run sha256 ticks_of_five_minutes inserted in
  0 + OAuthServer.stateTTL <= 300000 /\
  createdAt <$> (stateStore at_ttl !! s) = Some 0 /\
  stateStore at_ttl !! s <> None /\
  fst (OAuthServer.route_callback granting_provider no_shops 300000
         (callback_query "abc" s) at_ttl)
    = OAuthServer.AuthenticationSuccessful (Some 111) None.
Proof.
  split; [ | split; [ | split]].
  - vm_compute. discriminate.
  - vm_compute. reflexivity.
  - vm_compute. discriminate.
  - vm_compute. reflexivity.
Qed.

Section Sweep.
Variable sha256 : string -> list Byte.byte.

Lemma is_stale_true (now : Z) (d : StateData) :
  OAuthServer.is_stale now d = true <-> createdAt d + OAuthServer.stateTTL < now.
Proof. unfold OAuthServer.is_stale. rewrite Z.ltb_lt. lia. Qed.

(** The callback only removes entries. *)
Lemma route_callback_keeps_entries (provider : EtsyApiClient.Provider)
    (shops : OAuthServer.ShopsApi) (now : Z) (query : OAuthServer.CallbackQuery)
    (s : string) (d : StateData) (w : World) :
  stateStore (snd (OAuthServer.route_callback provider shops now query w)) !! s = Some d ->
  stateStore w !! s = Some d.
Proof.
  unfold OAuthServer.route_callback.
  destruct (OAuthServer.q_truthy (OAuthServer.error query)); [trivial | ].
  destruct (OAuthServer.code query) as [ | c | ]; trivial.
  destruct (OAuthServer.state query) as [ | s' | ]; trivial.
  destruct (String.eqb c "" || String.eqb s' ""); [trivial | ].
  unfold OAuthServer.consume.
  destruct (stateStore w !! s') as [d'|]; [ | trivial ].
  rewrite exchange_and_store_stateStore. simpl.
  intros Hd. apply lookup_delete_Some in Hd. apply Hd.
Qed.

Lemma step_keeps_created_at (ev : Event) (s : string) (T : Z) (w : World) :
  never_reissued s [ev] ->
  created_at s T w -> created_at s T (step sha256 ev w).
Proof.
  intros Hev Hw d. apply Forall_inv in Hev. unfold created_at in Hw.
  destruct ev; simpl; try apply Hw.
  - rewrite lookup_insert_ne by exact Hev. apply Hw.
  - intros Hd. apply route_callback_keeps_entries in Hd. apply Hw, Hd.
  - intros Hd. apply map_lookup_filter_Some in Hd. apply Hw, Hd.
  - rewrite getValidAccessToken_stateStore. apply Hw.
Qed.

Lemma run_keeps_created_at (evs : list Event) (s : string) (T : Z) (w : World) :
  never_reissued s evs ->
  created_at s T w -> created_at s T (run sha256 evs w).
Proof.
  revert w. induction evs as [ | ev evs IH]; intros w Hevs Hw; simpl.
  - exact Hw.
  - apply IH.
    + apply Forall_inv_tail in Hevs. exact Hevs.
    + apply step_keeps_created_at; [ | exact Hw ].
      constructor; [apply Forall_inv in Hevs; exact Hevs | constructor].
Qed.

Lemma run_app (evs1 evs2 : list Event) (w : World) :
  run sha256 (evs1 ++ evs2) w = run sha256 evs2 (run sha256 evs1 w).
Proof.
  revert w. induction evs1 as [ | ev evs1 IH]; intros w; simpl; [reflexivity | apply IH].
Qed.

(** A tick later than [T + TTL] removes an entry created at [T]. *)
Lemma tick_removes_stale (s : string) (T now : Z) (w : World) :
  created_at s T w ->
  T + OAuthServer.stateTTL < now ->
  stateStore (step sha256 (TimerTick now) w) !! s = None.
Proof.
  intros Hw Hlate. simpl. apply map_lookup_filter_None.
  destruct (stateStore w !! s) as [d|] eqn:Hd; [right | left; reflexivity].
  intros d' Hd'. injection Hd' as <-. simpl.
  assert (OAuthServer.is_stale now d = true) as ->
    by (apply is_stale_true; rewrite (Hw d Hd); exact Hlate).
  discriminate.
Qed.

(** C5 (amended): a pending state inserted by [GET /auth] at time T is
    absent from the store after a sweep tick that runs at a time
    strictly later than T + TTL, whether or not a callback consumed it
    in between, and stays absent whatever happens next, as long as the
    same state value is not drawn again; a sweep tick at or before
    T + TTL leaves an unconsumed entry in place. *)
Theorem stale_state_is_swept (random16 random32 : list Byte.byte) (T now : Z)
    (before after : list Event) (w : World) :
  never_reissued (OAuthServer.hex random16) before ->
  never_reissued (OAuthServer.hex random16) after ->
  (T + OAuthServer.stateTTL < now ->
   stateStore
     (run sha256 (GetAuth random16 random32 T :: before ++ TimerTick now :: after) w)
     !! OAuthServer.hex random16 = None) /\
  (now <= T + OAuthServer.stateTTL ->
   createdAt <$>
     (stateStore (run sha256 [GetAuth random16 random32 T; TimerTick now] w)
        !! OAuthServer.hex random16) = Some T).
Proof.
  intros Hbefore Hafter. split.
  - intros Hlate. cbn [run]. rewrite run_app. cbn [run].
    apply run_keeps_absent; [exact Hafter | ].
    apply (tick_removes_stale _ T); [ | exact Hlate ].
    apply run_keeps_created_at; [exact Hbefore | ].
    intros d. simpl. rewrite lookup_insert_eq. intros Hd. injection Hd as <-. reflexivity.
  - intros Hearly. cbn [run step].
    unfold OAuthServer.route_auth, OAuthServer.cleanupExpiredStates.
    cbn [snd stateStore set_stateStore].
    set (d := {| codeVerifier := _; createdAt := T |}).
    assert (filter (fun entry : string * StateData =>
                      OAuthServer.is_stale now entry.2 = false)
              (<[OAuthServer.hex random16 := d]> (stateStore w))
              !! OAuthServer.hex random16 = Some d) as ->; [ | reflexivity ].
    apply map_lookup_filter_Some. split; [apply lookup_insert_eq | ].
    cbn [snd]. destruct (OAuthServer.is_stale now d) eqn:Hstale; [ | reflexivity ].
    apply is_stale_true in Hstale. subst d. cbn [createdAt] in Hstale. lia.
Qed.

End Sweep.

Lemma stale_state_is_swept_witness :
  let random16 := repeat x01 16 in
  let s := OAuthServer.hex random16 in
  let w := world_of ∅ (store_holding (sample_tokens None)) in
  let before := [TimerTick 60000; GetTokens 61000] in
  let after := [GetTokens 300002] in
  never_reissued s before /\
  never_reissued s after /\
  0 + OAuthServer.stateTTL < 300001 /\
  stateStore
    (run (fun _ => []) (GetAuth random16 (repeat x00 32) 0 :: before ++ TimerTick 300001 :: after) w)
    !! s = None /\
  createdAt <$>
    (stateStore (run (fun _ => []) [GetAuth random16 (repeat x00 32) 0; TimerTick 300000] w) !! s)
    = Some 0.
Proof.
  intros random16 s w before after.
  assert (never_reissued s before) as Hbefore by (repeat constructor).
  assert (never_reissued s after) as Hafter by (repeat constructor).
  assert (0 + OAuthServer.stateTTL < 300001) as Hlate by (vm_compute; reflexivity).
  assert (300000 <= 0 + OAuthServer.stateTTL) as Hearly by (vm_compute; discriminate).
  split; [exact Hbefore | split; [exact Hafter | split; [exact Hlate | split]]].
  - apply (proj1 (stale_state_is_swept (fun _ => []) random16 (repeat x00 32) 0 300001
                    before after w Hbefore Hafter) Hlate).
  - apply (proj2 (stale_state_is_swept (fun _ => []) random16 (repeat x00 32) 0 300000
                    before after w Hbefore Hafter) Hearly).
Defined.

(** ** The token lifecycle: [getValidAccessToken] *)

Section TokenLifecycle.
Import EtsyMCPServer.

Lemma getValidAccessToken_refresh_due (provider : EtsyApiClient.Provider)
    (clock : Clock) (w : World) (r : TokenStorage.TokenData) (rt : string) :
  refresh_due (at_getTokens clock) (tokenStorage w) r rt ->
  getValidAccessToken provider clock w = refresh provider clock r (tokenStorage w) w.
Proof.
  intros (Hr & Hneed & Hrt & Hne). unfold getValidAccessToken.
  rewrite (getTokens_readable _ r _ Hr).
  assert (truthy_str
            (TokenStorage.access_token <$>
               (if TokenStorage.is_expired r (at_getTokens clock) then None else Some r))
          = false) as ->.
  { destruct Hneed as [-> | Hempty]; [reflexivity | ].
    destruct (TokenStorage.is_expired r (at_getTokens clock)); [reflexivity | ].
    simpl. rewrite Hempty. reflexivity. }
  rewrite (loadPotentiallyExpiredTokens_readable _ r Hr).
  assert (truthy_str (TokenStorage.refresh_token r) = true) as ->
    by (apply truthy_str_true; eauto).
  reflexivity.
Qed.

(** A stored token that is not expired and not empty is returned, and
    the process state is unchanged. *)
Lemma getValidAccessToken_fresh (provider : EtsyApiClient.Provider)
    (clock : Clock) (w : World) (r : TokenStorage.TokenData) :
  readable (tokenStorage w) r ->
  TokenStorage.is_expired r (at_getTokens clock) = false ->
  TokenStorage.access_token r <> "" ->
  getValidAccessToken provider clock w
    = (Returned (Some (TokenStorage.access_token r)), w).
Proof.
  intros Hr Hfresh Hne. unfold getValidAccessToken.
  rewrite (getTokens_readable _ r _ Hr), Hfresh. simpl.
  apply String.eqb_neq in Hne. rewrite Hne. simpl.
  rewrite set_tokenStorage_same. reflexivity.
Qed.

Lemma refresh_posts_once (provider : EtsyApiClient.Provider) (clock : Clock)
    (old : TokenStorage.TokenData) (rt : string) (storage : TokenStorage.store)
    (w : World) :
  TokenStorage.refresh_token old = Some rt ->
  EtsyApiClient.posted (etsyApi (snd (refresh provider clock old storage w)))
    = (EtsyApiClient.posted (etsyApi w) ++ [RefreshTokenGrant rt])%list.
Proof.
  intros Hrt. unfold refresh, refresh_failed, EtsyApiClient.refreshToken.
  rewrite Hrt. simpl default.
  destruct (provider (RefreshTokenGrant rt)) as [response|].
  - destruct (TokenStorage.saveTokens _ (at_saveTokens clock) storage)
      as [[u|e] storage']; [reflexivity | ].
    destruct (TokenStorage.clearTokens storage') as [[u|e'] storage'']; reflexivity.
  - destruct (TokenStorage.clearTokens storage) as [[u|e'] storage'']; reflexivity.
Qed.

Lemma unhandled_error_Some (code : string) :
  unhandled_error (Some code) <-> is_EROFS_or_EACCES (FsError code) = false.
Proof.
  unfold unhandled_error. rewrite <- not_true_iff_false, <- permission_code_handled.
  split.
  - intros (code' & Heq & Hno). injection Heq as <-. exact Hno.
  - intros Hno. exists code. split; [reflexivity | exact Hno].
Qed.

Lemma unhandled_error_None : ~ unhandled_error None.
Proof. intros (code & Heq & _). discriminate. Qed.

(** [clearTokens] on an enabled store whose file exists. *)
Lemma clearTokens_existing (s : TokenStorage.store) (c : TokenStorage.FileContent) :
  TokenStorage.fileStorageEnabled s = true ->
  TokenStorage.tokens_json (TokenStorage.disk s) = Some c ->
  TokenStorage.clearTokens s =
    match TokenStorage.unlink_error (TokenStorage.disk s) with
    | None =>
        (Returned tt,
         TokenStorage.with_disk s
           {| TokenStorage.tokens_json := None;
              TokenStorage.read_error := TokenStorage.read_error (TokenStorage.disk s);
              TokenStorage.write_error := TokenStorage.write_error (TokenStorage.disk s);
              TokenStorage.unlink_error := None |})
    | Some code =>
        if is_EROFS_or_EACCES (FsError code) then (Returned tt, TokenStorage.disable s)
        else (Thrown (FsError code), s)
    end.
Proof.
  intros Hen Hfile.
  unfold TokenStorage.clearTokens, TokenStorage.existsSync, TokenStorage.unlinkSync.
  rewrite Hen, Hfile. simpl.
  destruct (TokenStorage.unlink_error (TokenStorage.disk s)); reflexivity.
Qed.

(** The [catch] clause throws exactly when the unlink raises an
    unhandled error. *)
Lemma refresh_failed_throws (s : TokenStorage.store) (c : TokenStorage.FileContent)
    (w : World) :
  TokenStorage.fileStorageEnabled s = true ->
  TokenStorage.tokens_json (TokenStorage.disk s) = Some c ->
  (throws (fst (refresh_failed s w)) <->
   unhandled_error (TokenStorage.unlink_error (TokenStorage.disk s))) /\
  (~ unhandled_error (TokenStorage.unlink_error (TokenStorage.disk s)) ->
   fst (refresh_failed s w) = Returned None).
Proof.
  intros Hen Hfile. unfold refresh_failed.
  rewrite (clearTokens_existing s c Hen Hfile).
  destruct (TokenStorage.unlink_error (TokenStorage.disk s)) as [code|].
  - rewrite unhandled_error_Some.
    destruct (is_EROFS_or_EACCES (FsError code)); simpl.
    + split; [split; [contradiction | discriminate] | reflexivity].
    + split; [split; [reflexivity | exact (fun _ => I)] | ].
      intros Hno. exfalso. apply Hno. reflexivity.
  - simpl. split; [ | reflexivity ].
    split; [contradiction | intros H; exact (unhandled_error_None H)].
Qed.

(** After the [catch] clause, unless it throws, both readers return
    null; when the unlink succeeded the file is gone. *)
Lemma refresh_failed_clears (s : TokenStorage.store) (c : TokenStorage.FileContent)
    (w : World) :
  TokenStorage.fileStorageEnabled s = true ->
  TokenStorage.tokens_json (TokenStorage.disk s) = Some c ->
  ~ unhandled_error (TokenStorage.unlink_error (TokenStorage.disk s)) ->
  let after := tokenStorage (snd (refresh_failed s w)) in
  (forall now, fst (TokenStorage.getTokens now after) = None) /\
  fst (TokenStorage.loadPotentiallyExpiredTokens after) = None /\
  (TokenStorage.unlink_error (TokenStorage.disk s) = None ->
   TokenStorage.tokens_json (TokenStorage.disk after) = None).
Proof.
  intros Hen Hfile Hno after. subst after. unfold refresh_failed.
  rewrite (clearTokens_existing s c Hen Hfile).
  destruct (TokenStorage.unlink_error (TokenStorage.disk s)) as [code|] eqn:Hun.
  - destruct (is_EROFS_or_EACCES (FsError code)) eqn:Hcode.
    + cbn [snd tokenStorage set_tokenStorage].
      split; [ | split; [ | discriminate ] ].
      * intros now. rewrite disabled_getTokens; reflexivity.
      * rewrite disabled_loadPotentiallyExpiredTokens; reflexivity.
    + exfalso. apply Hno, unhandled_error_Some, Hcode.
  - simpl. unfold TokenStorage.getTokens, TokenStorage.loadPotentiallyExpiredTokens.
    simpl. rewrite Hen. simpl. repeat split.
Qed.

(** When the unlink raises EROFS or EACCES the [catch] clause only
    clears the flag: the file stays on the disk. *)
Lemma refresh_failed_disables (s : TokenStorage.store) (c : TokenStorage.FileContent)
    (w : World) (code : string) :
  TokenStorage.fileStorageEnabled s = true ->
  TokenStorage.tokens_json (TokenStorage.disk s) = Some c ->
  TokenStorage.unlink_error (TokenStorage.disk s) = Some code ->
  permission_code code ->
  tokenStorage (snd (refresh_failed s w)) = TokenStorage.disable s.
Proof.
  intros Hen Hfile Hun Hcode. unfold refresh_failed.
  rewrite (clearTokens_existing s c Hen Hfile), Hun.
  apply permission_code_handled in Hcode. rewrite Hcode. reflexivity.
Qed.

(** When the unlink raises any other error the [catch] clause throws
    it, and the store, the stale record included, is as before. *)
Lemma refresh_failed_keeps (s : TokenStorage.store) (r : TokenStorage.TokenData)
    (w : World) :
  readable s r ->
  unhandled_error (TokenStorage.unlink_error (TokenStorage.disk s)) ->
  let after := tokenStorage (snd (refresh_failed s w)) in
  (exists code,
     TokenStorage.unlink_error (TokenStorage.disk s) = Some code /\
     fst (refresh_failed s w) = Thrown (FsError code)) /\
  after = s /\
  fst (TokenStorage.loadPotentiallyExpiredTokens after) = Some r.
Proof.
  intros Hr (code & Hun & Hno) after. subst after.
  pose proof Hr as (Hen & Hfile & _).
  assert (is_EROFS_or_EACCES (FsError code) = false) as Hcode
    by (apply unhandled_error_Some; exists code; auto).
  unfold refresh_failed.
  rewrite (clearTokens_existing s _ Hen Hfile), Hun, Hcode.
  cbn [fst snd tokenStorage set_tokenStorage].
  split; [exists code; split; reflexivity | split; [reflexivity | ]].
  rewrite (loadPotentiallyExpiredTokens_readable _ r Hr). reflexivity.
Qed.


Lemma refresh_failed_no_token (s : TokenStorage.store) (w : World) (t : string) :
  fst (refresh_failed s w) <> Returned (Some t).
Proof.
  unfold refresh_failed.
  destruct (TokenStorage.clearTokens s) as [[u|e] s']; discriminate.
Qed.

(** The [try] block when the provider grants the refresh. *)
Lemma refresh_granted (provider : EtsyApiClient.Provider) (clock : Clock)
    (w : World) (r : TokenStorage.TokenData) (rt : string)
    (response : EtsyApiClient.OAuthTokenResponse) :
  refresh_due (at_getTokens clock) (tokenStorage w) r rt ->
  provider (RefreshTokenGrant rt) = Some response ->
  getValidAccessToken provider clock w =
    let api :=
      EtsyApiClient.setAccessToken (EtsyApiClient.access_token response)
        (EtsyApiClient.post (RefreshTokenGrant rt) (etsyApi w)) in
    match TokenStorage.saveTokens (refreshed_tokens r response (at_refreshed clock))
            (at_saveTokens clock) (tokenStorage w) with
    | (Returned _, storage') =>
        (Returned (Some (EtsyApiClient.access_token response)),
         set_etsyApi
           (EtsyApiClient.setAccessToken (EtsyApiClient.access_token response) api)
           (set_tokenStorage storage' w))
    | (Thrown _, storage') => refresh_failed storage' (set_etsyApi api w)
    end.
Proof.
  intros Hdue Hgrant.
  rewrite (getValidAccessToken_refresh_due provider clock w r rt Hdue).
  destruct Hdue as (_ & _ & Hrt & _).
  unfold refresh, EtsyApiClient.refreshToken. rewrite Hrt. simpl default.
  rewrite Hgrant. reflexivity.
Qed.

Lemma saveTokens_unhandled_error (tokens : TokenStorage.TokenUpdate) (now : Z)
    (s : TokenStorage.store) :
  TokenStorage.fileStorageEnabled s = true ->
  unhandled_error (TokenStorage.write_error (TokenStorage.disk s)) ->
  exists code,
    TokenStorage.write_error (TokenStorage.disk s) = Some code /\
    TokenStorage.saveTokens tokens now s = (Thrown (FsError code), s).
Proof.
  intros Hen (code & Hw & Hno). exists code. split; [exact Hw | ].
  assert (is_EROFS_or_EACCES (FsError code) = false) as Hcode.
  { apply unhandled_error_Some. exists code. auto. }
  unfold TokenStorage.saveTokens, TokenStorage.writeFileSync.
  rewrite Hen, Hw. simpl negb. cbv iota. rewrite Hcode. reflexivity.
Qed.

(** A granted refresh whose save raises an unhandled error ends in the
    [catch] clause, with the new access token already set on the
    client object. *)
Lemma refresh_save_failed (provider : EtsyApiClient.Provider) (clock : Clock)
    (w : World) (r : TokenStorage.TokenData) (rt : string)
    (response : EtsyApiClient.OAuthTokenResponse) :
  refresh_due (at_getTokens clock) (tokenStorage w) r rt ->
  provider (RefreshTokenGrant rt) = Some response ->
  unhandled_error (TokenStorage.write_error (TokenStorage.disk (tokenStorage w))) ->
  getValidAccessToken provider clock w =
    refresh_failed (tokenStorage w)
      (set_etsyApi
         (EtsyApiClient.setAccessToken (EtsyApiClient.access_token response)
            (EtsyApiClient.post (RefreshTokenGrant rt) (etsyApi w))) w).
Proof.
  intros Hdue Hgrant Hw.
  rewrite (refresh_granted provider clock w r rt response Hdue Hgrant). cbv zeta.
  destruct (saveTokens_unhandled_error
              (refreshed_tokens r response (at_refreshed clock)) (at_saveTokens clock)
              (tokenStorage w) (proj1 (proj1 Hdue)) Hw) as (code & _ & ->).
  reflexivity.
Qed.

(** A granted refresh whose save raises no unhandled error returns the
    access token of the response. *)
Lemma refresh_saved_or_disabled (provider : EtsyApiClient.Provider) (clock : Clock)
    (w : World) (r : TokenStorage.TokenData) (rt : string)
    (response : EtsyApiClient.OAuthTokenResponse) :
  refresh_due (at_getTokens clock) (tokenStorage w) r rt ->
  provider (RefreshTokenGrant rt) = Some response ->
  ~ unhandled_error (TokenStorage.write_error (TokenStorage.disk (tokenStorage w))) ->
  fst (getValidAccessToken provider clock w)
    = Returned (Some (EtsyApiClient.access_token response)).
Proof.
  intros Hdue Hgrant Hw.
  rewrite (refresh_granted provider clock w r rt response Hdue Hgrant). cbv zeta.
  pose proof (proj1 (proj1 Hdue)) as Hen.
  destruct (TokenStorage.write_error (TokenStorage.disk (tokenStorage w)))
    as [code|] eqn:Hwrite.
  - destruct (is_EROFS_or_EACCES (FsError code)) eqn:Hcode.
    + apply permission_code_handled in Hcode.
      rewrite (saveTokens_permission_error _ _ _ code Hen Hwrite Hcode). reflexivity.
    + exfalso. apply Hw, unhandled_error_Some, Hcode.
  - rewrite (saveTokens_writes _ _ _ Hen Hwrite). reflexivity.
Qed.




End TokenLifecycle.

Section RefreshFailure.
Import EtsyMCPServer.

(** C2, as stated, fails.  With an expired record, a rejected refresh
    and a token file that cannot be unlinked (EPERM), the call throws
    instead of returning null and the record is still returned by
    [loadPotentiallyExpiredTokens]; with a read-only disk (EROFS on the
    unlink) the call returns null and the readers return null, but the
    record is not cleared: it stays in the token file. *)
Lemma failed_refresh_keeps_tokens_counterexample :
  let r := sample_tokens (Some 1000) in
  let clock := sample_clock 5000 in
  let immutable :=
    world_of ∅ (enabled_store
                  (sample_disk (Some (TokenStorage.Json r)) None (Some "EPERM"))) in
  let read_only :=
    world_of ∅ (enabled_store
                  (sample_disk (Some (TokenStorage.Json r)) None (Some "EROFS"))) in
  (refresh_due (at_getTokens clock) (tokenStorage immutable) r "r0" /\
   refresh_due (at_getTokens clock) (tokenStorage read_only) r "r0" /\
   failing_provider (RefreshTokenGrant "r0") = None) /\
  (fst (getValidAccessToken failing_provider clock immutable) = Thrown (FsError "EPERM") /\
   fst (getValidAccessToken failing_provider clock immutable) <> Returned None /\
   fst (TokenStorage.loadPotentiallyExpiredTokens
          (tokenStorage (snd (getValidAccessToken failing_provider clock immutable))))
   = Some r) /\
  (fst (getValidAccessToken failing_provider clock read_only) = Returned None /\
   TokenStorage.tokens_json
     (TokenStorage.disk
        (tokenStorage (snd (getValidAccessToken failing_provider clock read_only))))
   = Some (TokenStorage.Json r)).
Proof.
  intros r clock immutable read_only.
  assert (forall s, readable s r -> refresh_due (at_getTokens clock) s r "r0") as Hdue.
  { intros s Hs. split; [exact Hs | split; [left; reflexivity | ]].
    split; [reflexivity | discriminate]. }
  split; [ | split].
  - split; [apply Hdue; repeat split; reflexivity | ].
    split; [apply Hdue; repeat split; reflexivity | reflexivity].
  - split; [vm_compute; reflexivity | split; [vm_compute; discriminate | ]].
    vm_compute; reflexivity.
  - split; vm_compute; reflexivity.
Qed.

(** C2 (amended): when the stored record yields no usable access token
    but carries a refresh token, and the provider rejects the refresh,
    [getValidAccessToken] calls [clearTokens].  Unless the unlink raises
    an error other than EROFS/EACCES, the call returns null and from
    then on [getTokens] and [loadPotentiallyExpiredTokens] both return
    null: the token file is removed when the unlink succeeds, and on
    EROFS/EACCES the store is disabled while the file stays on the
    disk.  When the unlink raises any other error, the call throws that
    error and the store is as before, so
    [loadPotentiallyExpiredTokens] still returns the record. *)
Theorem failed_refresh_clears_tokens (provider : EtsyApiClient.Provider)
    (clock : Clock) (w : World) (r : TokenStorage.TokenData) (rt : string) :
  refresh_due (at_getTokens clock) (tokenStorage w) r rt ->
  provider (RefreshTokenGrant rt) = None ->
  let result := getValidAccessToken provider clock w in
  let after := tokenStorage (snd result) in
  let unlink := TokenStorage.unlink_error (TokenStorage.disk (tokenStorage w)) in
  (~ unhandled_error unlink ->
   fst result = Returned None /\
   (forall now, fst (TokenStorage.getTokens now after) = None) /\
   fst (TokenStorage.loadPotentiallyExpiredTokens after) = None /\
   (unlink = None -> TokenStorage.tokens_json (TokenStorage.disk after) = None) /\
   (forall code, unlink = Some code -> after = TokenStorage.disable (tokenStorage w))) /\
  (unhandled_error unlink ->
   (exists code, unlink = Some code /\ fst result = Thrown (FsError code)) /\
   after = tokenStorage w /\
   fst (TokenStorage.loadPotentiallyExpiredTokens after) = Some r).
Proof.
  intros Hdue Hfail result after unlink. subst unlink after result.
  rewrite (getValidAccessToken_refresh_due provider clock w r rt Hdue).
  destruct Hdue as (Hr & _ & Hrt & _). pose proof Hr as (Hen & Hfile & _).
  unfold refresh, EtsyApiClient.refreshToken. rewrite Hrt. simpl default.
  rewrite Hfail.
  split.
  - intros Hno.
    split; [apply (proj2 (refresh_failed_throws _ _ _ Hen Hfile)), Hno | ].
    destruct (refresh_failed_clears (tokenStorage w) _
                (set_etsyApi
                   (EtsyApiClient.post (RefreshTokenGrant rt) (etsyApi w)) w)
                Hen Hfile Hno) as (Hget & Hload & Hgone).
    repeat (split; [assumption | ]).
    intros code Hun.
    apply (refresh_failed_disables _ _ _ code Hen Hfile Hun).
    apply permission_code_handled.
    destruct (is_EROFS_or_EACCES (FsError code)) eqn:Hcode; [reflexivity | ].
    exfalso. apply Hno. rewrite Hun. apply unhandled_error_Some, Hcode.
  - intros Hun. apply (refresh_failed_keeps (tokenStorage w) r _ Hr Hun).
Qed.

Lemma failed_refresh_clears_tokens_witness :
  let r := sample_tokens (Some 1000) in
  let w := world_of ∅ (store_holding r) in
  let result := getValidAccessToken failing_provider (sample_clock 5000) w in
  refresh_due 5000 (tokenStorage w) r "r0" /\
  fst result = Returned None /\
  fst (TokenStorage.getTokens 5003 (tokenStorage (snd result))) = None /\
  fst (TokenStorage.loadPotentiallyExpiredTokens (tokenStorage (snd result))) = None /\
  TokenStorage.tokens_json (TokenStorage.disk (tokenStorage (snd result))) = None.
Proof.
  intros r w result.
  assert (refresh_due 5000 (tokenStorage w) r "r0") as Hdue.
  { split; [repeat split; reflexivity | split; [left; reflexivity | ] ].
    split; [reflexivity | discriminate]. }
  destruct (failed_refresh_clears_tokens failing_provider (sample_clock 5000) w r "r0"
              Hdue eq_refl) as [Hcleared _].
  destruct (Hcleared unhandled_error_None) as (Hret & Hget & Hload & Hgone & _).
  split; [exact Hdue | split; [exact Hret | split; [apply Hget | split]]].
  - exact Hload.
  - apply Hgone. reflexivity.
Defined.

End RefreshFailure.

Section NeverThrows.
Import EtsyMCPServer.

(** C6, as stated, fails: with an expired record, a rejected refresh
    and a token file that cannot be unlinked (EPERM), the error of
    [clearTokens] leaves [getValidAccessToken] as an exception.  And
    null is not the only value that stands for a missing token: when
    the provider grants the refresh with an empty [access_token], the
    empty string is returned. *)
Lemma getValidAccessToken_throws_counterexample :
  let r := sample_tokens (Some 1000) in
  let s := enabled_store (sample_disk (Some (TokenStorage.Json r)) None (Some "EPERM")) in
  fst (getValidAccessToken failing_provider (sample_clock 5000) (world_of ∅ s))
    = Thrown (FsError "EPERM") /\
  throws (fst (getValidAccessToken failing_provider (sample_clock 5000) (world_of ∅ s))) /\
  fst (getValidAccessToken granting_empty_token (sample_clock 5000)
         (world_of ∅ (store_holding r)))
    = Returned (Some "").
Proof. split; [reflexivity | split; [exact I | reflexivity]]. Qed.

(** Either a refresh is due, or the call returns without one. *)
Lemma getValidAccessToken_cases (provider : EtsyApiClient.Provider) (clock : Clock)
    (w : World) :
  (exists r rt, refresh_due (at_getTokens clock) (tokenStorage w) r rt) \/
  (exists v, fst (getValidAccessToken provider clock w) = Returned v).
Proof.
  destruct (TokenStorage.fileStorageEnabled (tokenStorage w)) eqn:Hen;
    [ | right; rewrite getValidAccessToken_disabled by exact Hen; eauto ].
  unfold getValidAccessToken, TokenStorage.getTokens,
    TokenStorage.loadPotentiallyExpiredTokens, TokenStorage.read_catch.
  rewrite Hen. simpl negb. cbv iota.
  destruct (TokenStorage.read_record (TokenStorage.disk (tokenStorage w)))
    as [[r|]|e] eqn:Hread.
  - assert (readable (tokenStorage w) r) as Hr.
    { unfold TokenStorage.read_record, TokenStorage.existsSync,
        TokenStorage.readFileSync in Hread.
      destruct (TokenStorage.tokens_json (TokenStorage.disk (tokenStorage w)))
        as [[r'|]|] eqn:Hfile; simpl in Hread; try discriminate;
        destruct (TokenStorage.read_error (TokenStorage.disk (tokenStorage w)))
          eqn:Herr; simpl in Hread; try discriminate.
      injection Hread as ->. repeat split; assumption. }
    destruct (TokenStorage.is_expired r (at_getTokens clock)) eqn:Hexp.
    + simpl. rewrite Hen, Hread. simpl.
      destruct (truthy_str (TokenStorage.refresh_token r)) eqn:Hrt.
      * left. apply truthy_str_true in Hrt as (rt & Hrt & Hne).
        exists r, rt. repeat split; try apply Hr; auto.
      * right. eauto.
    + simpl. destruct (String.eqb (TokenStorage.access_token r) "") eqn:Hat.
      * simpl. rewrite Hen, Hread. simpl.
        destruct (truthy_str (TokenStorage.refresh_token r)) eqn:Hrt.
        -- left. apply truthy_str_true in Hrt as (rt & Hrt & Hne).
           apply String.eqb_eq in Hat.
           exists r, rt. repeat split; try apply Hr; auto.
        -- right. eauto.
      * right. simpl. eauto.
  - right. simpl. rewrite Hen, Hread. simpl. eauto.
  - right. simpl.
    destruct (is_EROFS_or_EACCES e); simpl; [eauto | ].
    rewrite Hen, Hread. simpl. destruct (is_EROFS_or_EACCES e); simpl; eauto.
Qed.

(** The three ways a call can go: a usable token is stored, a refresh
    is due, or null is returned at once. *)
Lemma getValidAccessToken_trichotomy (provider : EtsyApiClient.Provider)
    (clock : Clock) (w : World) :
  (exists t, usable_stored_token (at_getTokens clock) (tokenStorage w) t) \/
  (exists r rt, refresh_due (at_getTokens clock) (tokenStorage w) r rt) \/
  fst (getValidAccessToken provider clock w) = Returned None.
Proof.
  destruct (TokenStorage.fileStorageEnabled (tokenStorage w)) eqn:Hen;
    [ | right; right; rewrite getValidAccessToken_disabled by exact Hen; reflexivity ].
  unfold getValidAccessToken, TokenStorage.getTokens,
    TokenStorage.loadPotentiallyExpiredTokens, TokenStorage.read_catch.
  rewrite Hen. simpl negb. cbv iota.
  destruct (TokenStorage.read_record (TokenStorage.disk (tokenStorage w)))
    as [[r|]|e] eqn:Hread.
  - assert (readable (tokenStorage w) r) as Hr.
    { unfold TokenStorage.read_record, TokenStorage.existsSync,
        TokenStorage.readFileSync in Hread.
      destruct (TokenStorage.tokens_json (TokenStorage.disk (tokenStorage w)))
        as [[r'|]|] eqn:Hfile; simpl in Hread; try discriminate;
        destruct (TokenStorage.read_error (TokenStorage.disk (tokenStorage w)))
          eqn:Herr; simpl in Hread; try discriminate.
      injection Hread as ->. repeat split; assumption. }
    destruct (TokenStorage.is_expired r (at_getTokens clock)) eqn:Hexp.
    + simpl. rewrite Hen, Hread. simpl.
      destruct (truthy_str (TokenStorage.refresh_token r)) eqn:Hrt.
      * right. left. apply truthy_str_true in Hrt as (rt & Hrt & Hne).
        exists r, rt. repeat split; try apply Hr; auto.
      * right. right. reflexivity.
    + simpl. destruct (String.eqb (TokenStorage.access_token r) "") eqn:Hat.
      * simpl. rewrite Hen, Hread. simpl.
        destruct (truthy_str (TokenStorage.refresh_token r)) eqn:Hrt.
        -- right. left. apply truthy_str_true in Hrt as (rt & Hrt & Hne).
           apply String.eqb_eq in Hat.
           exists r, rt. repeat split; try apply Hr; auto.
        -- right. right. reflexivity.
      * left. apply String.eqb_neq in Hat.
        exists (TokenStorage.access_token r), r.
        split; [exact Hr | split; [exact Hexp | split; [reflexivity | exact Hat]]].
  - right. right. simpl. rewrite Hen, Hread. reflexivity.
  - right. right. simpl.
    destruct (is_EROFS_or_EACCES e); simpl; [reflexivity | ].
    rewrite Hen, Hread. simpl. destruct (is_EROFS_or_EACCES e); reflexivity.
Qed.

(** When the [try] block throws: the exchange is rejected, or the
    save raises an unhandled error. *)
Lemma refresh_throws (provider : EtsyApiClient.Provider) (clock : Clock)
    (r : TokenStorage.TokenData) (rt : string) (w : World) :
  readable (tokenStorage w) r ->
  TokenStorage.refresh_token r = Some rt ->
  throws (fst (refresh provider clock r (tokenStorage w) w)) <->
  (provider (RefreshTokenGrant rt) = None \/
   unhandled_error (TokenStorage.write_error (TokenStorage.disk (tokenStorage w)))) /\
  unhandled_error (TokenStorage.unlink_error (TokenStorage.disk (tokenStorage w))).
Proof.
  intros (Hen & Hfile & _) Hrt.
  unfold refresh, EtsyApiClient.refreshToken. rewrite Hrt. simpl default.
  destruct (provider (RefreshTokenGrant rt)) as [response|].
  - unfold TokenStorage.saveTokens, TokenStorage.writeFileSync. rewrite Hen.
    simpl negb. cbv iota.
    destruct (TokenStorage.write_error (TokenStorage.disk (tokenStorage w)))
      as [code|] eqn:Hw.
    + rewrite (unhandled_error_Some code).
      destruct (is_EROFS_or_EACCES (FsError code)).
      * simpl. split; [contradiction | intros [[? | ?] _]; discriminate].
      * rewrite (proj1 (refresh_failed_throws _ _ _ Hen Hfile)).
        split; [intros H; split; [right; reflexivity | exact H] | intros [_ H]; exact H].
    + simpl. split; [contradiction | ].
      intros [[? | H] _]; [discriminate | exact (unhandled_error_None H)].
  - rewrite (proj1 (refresh_failed_throws _ _ _ Hen Hfile)).
    split; [intros H; split; [left; reflexivity | exact H] | intros [_ H]; exact H].
Qed.

(** When the call throws. *)
Lemma getValidAccessToken_throws_when (provider : EtsyApiClient.Provider)
    (clock : Clock) (w : World) :
  throws (fst (getValidAccessToken provider clock w)) <->
  exists r rt,
    refresh_due (at_getTokens clock) (tokenStorage w) r rt /\
    (provider (RefreshTokenGrant rt) = None \/
     unhandled_error (TokenStorage.write_error (TokenStorage.disk (tokenStorage w)))) /\
    unhandled_error (TokenStorage.unlink_error (TokenStorage.disk (tokenStorage w))).
Proof.
  split.
  - intros Hthrow.
    destruct (getValidAccessToken_cases provider clock w)
      as [(r & rt & Hdue) | (v & Hv)].
    + exists r, rt. split; [exact Hdue | ].
      rewrite (getValidAccessToken_refresh_due provider clock w r rt Hdue) in Hthrow.
      apply (refresh_throws provider clock r rt w); [apply Hdue | apply Hdue | exact Hthrow].
    + rewrite Hv in Hthrow. contradiction.
  - intros (r & rt & Hdue & Hfail).
    rewrite (getValidAccessToken_refresh_due provider clock w r rt Hdue).
    apply (refresh_throws provider clock r rt w); [apply Hdue | apply Hdue | exact Hfail].
Qed.

(** When the call returns a string, and which. *)
Lemma getValidAccessToken_token_when (provider : EtsyApiClient.Provider)
    (clock : Clock) (w : World) (t : string) :
  fst (getValidAccessToken provider clock w) = Returned (Some t) <->
  usable_stored_token (at_getTokens clock) (tokenStorage w) t \/
  refresh_yields provider (at_getTokens clock) (tokenStorage w) t.
Proof.
  split.
  - intros Hret.
    destruct (getValidAccessToken_trichotomy provider clock w)
      as [(t' & r & Hr & Hfresh & Ht' & Hne) | [(r & rt & Hdue) | Hnull]].
    + left. subst t'.
      rewrite (getValidAccessToken_fresh provider clock w r Hr Hfresh Hne) in Hret.
      injection Hret as <-. exists r. auto.
    + right. exists r, rt.
      destruct (provider (RefreshTokenGrant rt)) as [response|] eqn:Hgrant.
      * exists response. split; [exact Hdue | split; [reflexivity | ]].
        assert (~ unhandled_error
                    (TokenStorage.write_error (TokenStorage.disk (tokenStorage w))))
          as Hw.
        { intros Hw.
          rewrite (refresh_save_failed provider clock w r rt response Hdue Hgrant Hw)
            in Hret.
          exact (refresh_failed_no_token _ _ _ Hret). }
        split; [exact Hw | ].
        rewrite (refresh_saved_or_disabled provider clock w r rt response Hdue Hgrant Hw)
          in Hret.
        injection Hret as ->. reflexivity.
      * exfalso.
        rewrite (getValidAccessToken_refresh_due provider clock w r rt Hdue) in Hret.
        destruct Hdue as (_ & _ & Hrt & _).
        unfold refresh, EtsyApiClient.refreshToken in Hret.
        rewrite Hrt in Hret. simpl default in Hret. rewrite Hgrant in Hret.
        exact (refresh_failed_no_token _ _ _ Hret).
    + rewrite Hnull in Hret. discriminate.
  - intros [(r & Hr & Hfresh & <- & Hne) | (r & rt & response & Hdue & Hgrant & Hw & <-)].
    + rewrite (getValidAccessToken_fresh provider clock w r Hr Hfresh Hne). reflexivity.
    + apply (refresh_saved_or_disabled provider clock w r rt response Hdue Hgrant Hw).
Qed.

(** C6 (amended): [getValidAccessToken] throws in exactly one
    situation: a refresh is due, the refresh attempt fails (the
    provider rejects the exchange, or saving the refreshed record
    raises an error other than EROFS/EACCES), and the unlink of
    [clearTokens] then raises an error other than EROFS/EACCES.  It
    returns a string in exactly two situations: the stored record is
    readable, not expired and has a non-empty access token, which is
    returned; or a refresh is due, the provider grants it and saving
    raises no error other than EROFS/EACCES, and then the
    [access_token] of the response is returned as it is, the empty
    string included.  In every other case it returns null. *)
Theorem getValidAccessToken_throws_iff (provider : EtsyApiClient.Provider)
    (clock : Clock) (w : World) :
  let result := fst (getValidAccessToken provider clock w) in
  let refresh_breaks :=
    exists r rt,
      refresh_due (at_getTokens clock) (tokenStorage w) r rt /\
      (provider (RefreshTokenGrant rt) = None \/
       unhandled_error (TokenStorage.write_error (TokenStorage.disk (tokenStorage w)))) /\
      unhandled_error (TokenStorage.unlink_error (TokenStorage.disk (tokenStorage w))) in
  (throws result <-> refresh_breaks) /\
  (forall t,
     result = Returned (Some t) <->
     usable_stored_token (at_getTokens clock) (tokenStorage w) t \/
     refresh_yields provider (at_getTokens clock) (tokenStorage w) t) /\
  (result = Returned None <->
   ~ refresh_breaks /\
   forall t,
     ~ usable_stored_token (at_getTokens clock) (tokenStorage w) t /\
     ~ refresh_yields provider (at_getTokens clock) (tokenStorage w) t).
Proof.
  intros result refresh_breaks.
  pose proof (getValidAccessToken_throws_when provider clock w) as Hthrows.
  pose proof (getValidAccessToken_token_when provider clock w) as Htoken.
  fold result in Hthrows, Htoken. fold refresh_breaks in Hthrows.
  split; [exact Hthrows | split; [exact Htoken | ]].
  split.
  - intros Hnull. split.
    + intros Hbreaks. apply Hthrows in Hbreaks. rewrite Hnull in Hbreaks. exact Hbreaks.
    + intros t.
      split; intros Ht;
        (assert (result = Returned (Some t)) as Hsome by (apply Htoken; auto));
        rewrite Hnull in Hsome; discriminate.
  - intros [Hno_break Hno_token].
    destruct result as [[t|]|e].
    + exfalso. destruct (proj1 (Htoken t) eq_refl) as [Ht | Ht];
        [apply (proj1 (Hno_token t)) | apply (proj2 (Hno_token t))]; exact Ht.
    + reflexivity.
    + exfalso. apply Hno_break, Hthrows. exact I.
Qed.

End NeverThrows.

(** * Further properties of the code *)

(** ** TokenStorage: round trips and recovery *)

Section TokenStorageRoundTrip.
Import TokenStorage.

Lemma saved_store_readable (tokens : TokenUpdate) (now : Z) (s : store) :
  fileStorageEnabled s = true ->
  write_error (disk s) = None ->
  read_error (disk s) = None ->
  readable (snd (saveTokens tokens now s)) (tokensToSave tokens now).
Proof.
  intros Hen Hw Hr. rewrite (saveTokens_writes tokens now s Hen Hw).
  repeat split; assumption.
Qed.

(** Round trip: after a save on a working disk,
    [loadPotentiallyExpiredTokens] gives back the five supplied fields,
    and [getTokens] gives the same record at every clock reading up to
    the computed expiry and null after it. *)
Theorem save_then_read (tokens : TokenUpdate) (now : Z) (s : store) :
  fileStorageEnabled s = true ->
  write_error (disk s) = None ->
  read_error (disk s) = None ->
  let s' := snd (saveTokens tokens now s) in
  exists saved,
    loadPotentiallyExpiredTokens s' = (Some saved, s') /\
    access_token saved = access_token (data tokens) /\
    refresh_token saved = refresh_token (data tokens) /\
    user_id saved = user_id (data tokens) /\
    shop_id saved = shop_id (data tokens) /\
    shop_name saved = shop_name (data tokens) /\
    expires_at saved = Some (newExpiresAt tokens now) /\
    (forall now', now' <= newExpiresAt tokens now ->
                  getTokens now' s' = (Some saved, s')) /\
    (forall now', newExpiresAt tokens now < now' -> newExpiresAt tokens now <> 0 ->
                  getTokens now' s' = (None, s')).
Proof.
  intros Hen Hw Hr s'.
  pose proof (saved_store_readable tokens now s Hen Hw Hr) as Hsaved.
  fold s' in Hsaved.
  exists (tokensToSave tokens now).
  split; [apply loadPotentiallyExpiredTokens_readable, Hsaved | ].
  do 6 (split; [reflexivity | ]).
  split.
  - intros now' Hle. rewrite (getTokens_readable s' _ now' Hsaved).
    destruct (is_expired (tokensToSave tokens now) now') eqn:Hexp; [ | reflexivity ].
    apply is_expired_true in Hexp as (e & He & _ & Hlt).
    injection He as <-. lia.
  - intros now' Hlt Hne. rewrite (getTokens_readable s' _ now' Hsaved).
    assert (is_expired (tokensToSave tokens now) now' = true) as ->; [ | reflexivity ].
    apply is_expired_true. exists (newExpiresAt tokens now). auto.
Qed.

Lemma save_then_read_witness :
  let s := store_holding (sample_tokens (Some 5)) in
  let s' := snd (saveTokens (bare_update "111.new") 1000 s) in
  fileStorageEnabled s = true /\
  exists saved,
    loadPotentiallyExpiredTokens s' = (Some saved, s') /\
    access_token saved = "111.new" /\
    getTokens 2000 s' = (Some saved, s').
Proof.
  intros s s'. split; [reflexivity | ].
  destruct (save_then_read (bare_update "111.new") 1000 s eq_refl eq_refl eq_refl)
    as (saved & Hload & Hat & _ & _ & _ & _ & _ & Hget & _).
  exists saved. split; [exact Hload | split; [exact Hat | ]].
  apply Hget. vm_compute. discriminate.
Defined.

(** Records written by [saveTokens] always carry a usable expiry: with
    a positive clock and a lifetime that is not negative, the persisted
    [expires_at] is positive, so the expiry test of [getTokens] is never
    switched off by a zero. *)
Theorem saved_expiry_is_positive (tokens : TokenUpdate) (now : Z) :
  0 < now ->
  (forall lifetime, expires_in tokens = Some lifetime -> 0 <= lifetime) ->
  (forall previous, expires_at (data tokens) = Some previous -> 0 <= previous) ->
  0 < newExpiresAt tokens now /\
  forall now', is_expired (tokensToSave tokens now) now'
               = (newExpiresAt tokens now <? now').
Proof.
  intros Hnow Hin Hat.
  assert (0 < newExpiresAt tokens now) as Hpos.
  { destruct (newExpiresAt_cases tokens now)
      as [(l & Hl & Hne & ->) | [(_ & p & Hp & Hne & ->) | (_ & _ & ->)]].
    - specialize (Hin l Hl). lia.
    - specialize (Hat p Hp). lia.
    - lia. }
  split; [exact Hpos | ].
  intros now'. unfold is_expired. simpl.
  destruct (newExpiresAt tokens now =? 0) eqn:Hz; [apply Z.eqb_eq in Hz; lia | reflexivity].
Qed.

Lemma saved_expiry_is_positive_witness :
  0 < newExpiresAt (bare_update "111.new") 1000 /\
  is_expired (tokensToSave (bare_update "111.new") 1000) 5000000 = true.
Proof.
  assert (0 < 1000) as Hnow by lia.
  destruct (saved_expiry_is_positive (bare_update "111.new") 1000 Hnow) as [Hpos Hexp].
  - intros lifetime Hl. discriminate Hl.
  - intros previous Hp. discriminate Hp.
  - split; [exact Hpos | ]. rewrite Hexp. reflexivity.
Defined.

(** [clearTokens] either returns normally, and then both readers return
    null and clearing again returns normally without any change; or it
    throws, and then the unlink raised an error other than EROFS/EACCES
    and nothing was changed. *)
Theorem clearTokens_outcomes (s : store) :
  match clearTokens s with
  | (Returned _, s') =>
      (forall now, getTokens now s' = (None, s')) /\
      loadPotentiallyExpiredTokens s' = (None, s') /\
      clearTokens s' = (Returned tt, s')
  | (Thrown e, s') =>
      s' = s /\ fileStorageEnabled s = true /\ existsSync (disk s) = true /\
      unhandled_error (unlink_error (disk s)) /\
      exists code, e = FsError code /\ unlink_error (disk s) = Some code
  end.
Proof.
  unfold clearTokens, unlinkSync.
  destruct (fileStorageEnabled s) eqn:Hen; simpl.
  - destruct (existsSync (disk s)) eqn:Hex.
    + destruct (unlink_error (disk s)) as [code|] eqn:Hun.
      * destruct (is_EROFS_or_EACCES (FsError code)) eqn:Hcode.
        -- split; [intros now; apply disabled_getTokens; reflexivity | ].
           split; [apply disabled_loadPotentiallyExpiredTokens; reflexivity | ].
           apply disabled_clearTokens. reflexivity.
        -- repeat split; [apply unhandled_error_Some, Hcode | eauto].
      * unfold getTokens, loadPotentiallyExpiredTokens, clearTokens. simpl.
        rewrite Hen. simpl. repeat split.
    + unfold existsSync in Hex.
      destruct (tokens_json (disk s)) eqn:Hfile; [discriminate | ].
      unfold getTokens, loadPotentiallyExpiredTokens, clearTokens, read_record, existsSync.
      rewrite Hen, Hfile. simpl. repeat split.
  - split; [intros now; apply disabled_getTokens, Hen | ].
    split; [apply disabled_loadPotentiallyExpiredTokens, Hen | ].
    apply disabled_clearTokens, Hen.
Qed.

(** A reader never writes: [getTokens] and
    [loadPotentiallyExpiredTokens] leave the disk as it is, and the only
    change they can make is to clear [fileStorageEnabled], which they do
    exactly when the file exists and reading it raises EROFS or EACCES. *)
Theorem readers_only_clear_the_flag (now : Z) (s : store) :
  disk (snd (getTokens now s)) = disk s /\
  disk (snd (loadPotentiallyExpiredTokens s)) = disk s /\
  snd (getTokens now s) = snd (loadPotentiallyExpiredTokens s) /\
  (fileStorageEnabled (snd (getTokens now s)) <> fileStorageEnabled s <->
   fileStorageEnabled s = true /\ existsSync (disk s) = true /\
   exists code, read_error (disk s) = Some code /\ permission_code code).
Proof.
  unfold getTokens, loadPotentiallyExpiredTokens, read_catch, read_record, readFileSync,
    existsSync.
  destruct (fileStorageEnabled s) eqn:Hen; simpl.
  - destruct (tokens_json (disk s)) as [c|] eqn:Hfile; simpl.
    + destruct (read_error (disk s)) as [code|] eqn:Herr; simpl.
      * destruct (String.eqb code "EROFS" || String.eqb code "EACCES") eqn:Hcode; simpl.
        -- repeat split; try discriminate.
           exists code. split; [reflexivity | ].
           apply permission_code_handled. exact Hcode.
        -- repeat split; try congruence.
           intros (_ & _ & code' & Heq & Hperm). injection Heq as <-.
           apply permission_code_handled in Hperm. simpl in Hperm. congruence.
      * destruct c as [r|]; simpl.
        -- destruct (is_expired r now); simpl; repeat split; try congruence;
             intros (_ & _ & code & Heq & _); discriminate.
        -- repeat split; try congruence.
           intros (_ & _ & code & Heq & _); discriminate.
    + repeat split; try congruence. intros (_ & Hex & _). discriminate.
  - repeat split; try congruence. intros (Habs & _). discriminate.
Qed.

End TokenStorageRoundTrip.

Section ReadFailures.
Variable sha256 : string -> list Byte.byte.

(** One EROFS or EACCES while reading the token file switches
    persistence off for good: the reader returns null, and whatever
    happens afterwards (the disk being repaired included) every save
    returns normally without writing, and both readers return null. *)
Theorem read_permission_error_disables_store (now : Z) (s : TokenStorage.store)
    (code : string) :
  TokenStorage.fileStorageEnabled s = true ->
  TokenStorage.existsSync (TokenStorage.disk s) = true ->
  TokenStorage.read_error (TokenStorage.disk s) = Some code ->
  permission_code code ->
  fst (TokenStorage.getTokens now s) = None /\
  fst (TokenStorage.loadPotentiallyExpiredTokens s) = None /\
  forall (evs : list Event) (w : World),
    (tokenStorage w = snd (TokenStorage.getTokens now s) \/
     tokenStorage w = snd (TokenStorage.loadPotentiallyExpiredTokens s)) ->
    let later := tokenStorage (run sha256 evs w) in
    (forall tokens now', TokenStorage.saveTokens tokens now' later = (Returned tt, later)) /\
    (forall now', TokenStorage.getTokens now' later = (None, later)) /\
    TokenStorage.loadPotentiallyExpiredTokens later = (None, later).
Proof.
  intros Hen Hex Herr Hcode. apply permission_code_handled in Hcode.
  assert (TokenStorage.read_record (TokenStorage.disk s) = Thrown (FsError code)) as Hread.
  { unfold TokenStorage.read_record, TokenStorage.readFileSync.
    rewrite Hex, Herr. reflexivity. }
  assert (TokenStorage.getTokens now s = (None, TokenStorage.disable s)) as Hget.
  { unfold TokenStorage.getTokens, TokenStorage.read_catch.
    rewrite Hen, Hread, Hcode. reflexivity. }
  assert (TokenStorage.loadPotentiallyExpiredTokens s = (None, TokenStorage.disable s))
    as Hload.
  { unfold TokenStorage.loadPotentiallyExpiredTokens, TokenStorage.read_catch.
    rewrite Hen, Hread, Hcode. reflexivity. }
  rewrite Hget, Hload. split; [reflexivity | split; [reflexivity | ]].
  intros evs w Hw later.
  assert (TokenStorage.fileStorageEnabled later = false) as Hoff.
  { apply run_keeps_disabled. destruct Hw as [-> | ->]; reflexivity. }
  split; [ | split ].
  - intros tokens now'. apply disabled_saveTokens, Hoff.
  - intros now'. apply disabled_getTokens, Hoff.
  - apply disabled_loadPotentiallyExpiredTokens, Hoff.
Qed.

End ReadFailures.

Lemma read_permission_error_disables_store_witness :
  let broken :=
    {| TokenStorage.tokens_json := Some (TokenStorage.Json (sample_tokens None));
       TokenStorage.read_error := Some "EACCES";
       TokenStorage.write_error := None;
       TokenStorage.unlink_error := None |} in
  let s := enabled_store broken in
  let healthy := sample_disk (Some (TokenStorage.Json (sample_tokens None))) None None in
  let w := world_of ∅ (snd (TokenStorage.getTokens 1000 s)) in
  let later := tokenStorage (run (fun _ => []) [DiskChanged healthy] w) in
  permission_code "EACCES" /\
  fst (TokenStorage.getTokens 1000 s) = None /\
  TokenStorage.saveTokens (bare_update "a") 2000 later = (Returned tt, later) /\
  TokenStorage.loadPotentiallyExpiredTokens later = (None, later).
Proof.
  intros broken s healthy w later.
  assert (permission_code "EACCES") as Hcode by (right; reflexivity).
  destruct (read_permission_error_disables_store (fun _ => []) 1000 s "EACCES"
              eq_refl eq_refl eq_refl Hcode) as (Hget & _ & Hlater).
  destruct (Hlater [DiskChanged healthy] w (or_introl eq_refl)) as (Hsave & _ & Hload).
  split; [exact Hcode | split; [exact Hget | split; [apply Hsave | exact Hload]]].
Defined.

Section CorruptFile.
Import TokenStorage.

(** An unreadable token file (invalid JSON) is treated like a missing
    one and does not disable the store: both readers return null and
    change nothing, and the next successful save replaces the file, after
    which the saved record is read back. *)
Theorem unparsable_file_recovers (tokens : TokenUpdate) (now : Z) (s : store) :
  fileStorageEnabled s = true ->
  tokens_json (disk s) = Some Unparsable ->
  read_error (disk s) = None ->
  write_error (disk s) = None ->
  (forall now', getTokens now' s = (None, s)) /\
  loadPotentiallyExpiredTokens s = (None, s) /\
  fst (saveTokens tokens now s) = Returned tt /\
  fst (loadPotentiallyExpiredTokens (snd (saveTokens tokens now s)))
    = Some (tokensToSave tokens now).
Proof.
  intros Hen Hfile Hr Hw.
  assert (read_record (disk s) = Thrown OtherError) as Hread.
  { unfold read_record, existsSync, readFileSync. rewrite Hfile, Hr. reflexivity. }
  split; [ | split; [ | split ]].
  - intros now'. unfold getTokens. rewrite Hen, Hread. reflexivity.
  - unfold loadPotentiallyExpiredTokens. rewrite Hen, Hread. reflexivity.
  - rewrite (saveTokens_writes tokens now s Hen Hw). reflexivity.
  - rewrite (loadPotentiallyExpiredTokens_readable _ (tokensToSave tokens now));
      [reflexivity | ].
    apply saved_store_readable; assumption.
Qed.

Lemma unparsable_file_recovers_witness :
  let s := enabled_store (sample_disk (Some Unparsable) None None) in
  tokens_json (disk s) = Some Unparsable /\
  getTokens 1000 s = (None, s) /\
  fst (loadPotentiallyExpiredTokens (snd (saveTokens (bare_update "a") 1000 s)))
    = Some (tokensToSave (bare_update "a") 1000).
Proof.
  intros s.
  destruct (unparsable_file_recovers (bare_update "a") 1000 s eq_refl eq_refl eq_refl eq_refl)
    as (Hget & _ & _ & Hback).
  split; [reflexivity | split; [apply Hget | exact Hback]].
Defined.

End CorruptFile.

(** ** [getValidAccessToken]: the paths around the refresh *)

Section TokenPaths.
Import EtsyMCPServer.
Variable sha256 : string -> list Byte.byte.

(** A stored token that is not expired and not empty is returned as it
    is: nothing is posted, nothing is written, the process state is
    unchanged.  A record without [expires_at] (or with 0) never expires. *)
Theorem valid_token_is_returned_untouched (provider : EtsyApiClient.Provider)
    (clock : Clock) (w : World) (r : TokenStorage.TokenData) :
  readable (tokenStorage w) r ->
  truthy_num (TokenStorage.expires_at r) = false \/
    (exists e, TokenStorage.expires_at r = Some e /\ at_getTokens clock <= e) ->
  TokenStorage.access_token r <> "" ->
  getValidAccessToken provider clock w
    = (Returned (Some (TokenStorage.access_token r)), w).
Proof.
  intros Hr Hfresh Hne. apply getValidAccessToken_fresh; [exact Hr | | exact Hne].
  unfold TokenStorage.is_expired.
  destruct Hfresh as [-> | (e & -> & Hle)]; [reflexivity | ].
  simpl. apply andb_false_iff. right. apply Z.ltb_ge. exact Hle.
Qed.

Lemma valid_token_is_returned_untouched_witness :
  let w := world_of ∅ (store_holding (sample_tokens (Some 9000))) in
  readable (tokenStorage w) (sample_tokens (Some 9000)) /\
  getValidAccessToken failing_provider (sample_clock 5000) w
    = (Returned (Some "111.old"), w).
Proof.
  intros w.
  assert (readable (tokenStorage w) (sample_tokens (Some 9000))) as Hr
    by (repeat split; reflexivity).
  split; [exact Hr | ].
  apply (valid_token_is_returned_untouched failing_provider (sample_clock 5000) w
           (sample_tokens (Some 9000)) Hr).
  - right. exists 9000. split; [reflexivity | simpl; lia].
  - discriminate.
Defined.

(** Without a refresh token there is no exchange and no clean-up: when
    the token file is missing, or holds a record with no usable access
    token and no refresh token, the call returns null and the process
    state, the stale record included, is left as it is. *)
Theorem no_refresh_token_no_exchange (provider : EtsyApiClient.Provider)
    (clock : Clock) (w : World) :
  TokenStorage.fileStorageEnabled (tokenStorage w) = true ->
  (TokenStorage.tokens_json (TokenStorage.disk (tokenStorage w)) = None \/
   exists r,
     readable (tokenStorage w) r /\
     (TokenStorage.is_expired r (at_getTokens clock) = true \/
      TokenStorage.access_token r = "") /\
     truthy_str (TokenStorage.refresh_token r) = false) ->
  getValidAccessToken provider clock w = (Returned None, w).
Proof.
  intros Hen [Hnone | (r & Hr & Hneed & Hrt)]; unfold getValidAccessToken.
  - unfold TokenStorage.getTokens, TokenStorage.loadPotentiallyExpiredTokens,
      TokenStorage.read_record, TokenStorage.existsSync.
    rewrite Hen, Hnone. simpl. rewrite Hen, Hnone. simpl.
    rewrite set_tokenStorage_same. reflexivity.
  - rewrite (getTokens_readable _ r _ Hr).
    assert (truthy_str
              (TokenStorage.access_token <$>
                 (if TokenStorage.is_expired r (at_getTokens clock) then None else Some r))
            = false) as ->.
    { destruct Hneed as [-> | Hempty]; [reflexivity | ].
      destruct (TokenStorage.is_expired r (at_getTokens clock)); [reflexivity | ].
      simpl. rewrite Hempty. reflexivity. }
    rewrite (loadPotentiallyExpiredTokens_readable _ r Hr), Hrt.
    rewrite set_tokenStorage_same. reflexivity.
Qed.

Lemma no_refresh_token_no_exchange_witness :
  let r := {| TokenStorage.access_token := "111.old";
              TokenStorage.refresh_token := None;
              TokenStorage.expires_at := Some 1000;
              TokenStorage.user_id := None;
              TokenStorage.shop_id := None;
              TokenStorage.shop_name := None |} in
  let w := world_of ∅ (store_holding r) in
  readable (tokenStorage w) r /\
  getValidAccessToken granting_provider (sample_clock 5000) w = (Returned None, w).
Proof.
  intros r w.
  assert (readable (tokenStorage w) r) as Hr by (repeat split; reflexivity).
  split; [exact Hr | ].
  apply (no_refresh_token_no_exchange granting_provider (sample_clock 5000) w eq_refl).
  right. exists r. split; [exact Hr | split; [left; reflexivity | reflexivity]].
Defined.

(** A granted refresh that cannot be saved because the disk is
    read-only (EROFS/EACCES) still returns the new access token, but
    the store is disabled from then on: the token file keeps the old
    record, and every later call returns null without contacting the
    provider. *)
Theorem refresh_on_read_only_disk (provider : EtsyApiClient.Provider)
    (clock : Clock) (w : World) (r : TokenStorage.TokenData) (rt code : string)
    (response : EtsyApiClient.OAuthTokenResponse) :
  refresh_due (at_getTokens clock) (tokenStorage w) r rt ->
  provider (RefreshTokenGrant rt) = Some response ->
  TokenStorage.write_error (TokenStorage.disk (tokenStorage w)) = Some code ->
  permission_code code ->
  let result := getValidAccessToken provider clock w in
  fst result = Returned (Some (EtsyApiClient.access_token response)) /\
  TokenStorage.disk (tokenStorage (snd result)) = TokenStorage.disk (tokenStorage w) /\
  forall evs provider' clock',
    getValidAccessToken provider' clock' (run sha256 evs (snd result))
      = (Returned None, run sha256 evs (snd result)).
Proof.
  intros Hdue Hgrant Hw Hcode result. subst result.
  rewrite (refresh_granted provider clock w r rt response Hdue Hgrant).
  cbv zeta.
  rewrite (saveTokens_permission_error _ _ _ code (proj1 (proj1 Hdue)) Hw Hcode).
  split; [reflexivity | split; [reflexivity | ]].
  intros evs provider' clock'.
  apply getValidAccessToken_disabled, run_keeps_disabled. reflexivity.
Qed.


(** Refresh, then reuse: after a granted refresh saved on a working
    disk, a later call made no later than the new expiry returns the new
    access token from the file, without a second exchange and without
    changing the process state. *)
Theorem refreshed_token_is_reused (provider provider' : EtsyApiClient.Provider)
    (clock clock' : Clock) (w : World) (r : TokenStorage.TokenData) (rt : string)
    (response : EtsyApiClient.OAuthTokenResponse) :
  refresh_due (at_getTokens clock) (tokenStorage w) r rt ->
  provider (RefreshTokenGrant rt) = Some response ->
  TokenStorage.write_error (TokenStorage.disk (tokenStorage w)) = None ->
  EtsyApiClient.access_token response <> "" ->
  0 < at_refreshed clock ->
  0 <= EtsyApiClient.expires_in response ->
  at_getTokens clock' <= at_refreshed clock + EtsyApiClient.expires_in response * 1000 ->
  let w' := snd (getValidAccessToken provider clock w) in
  getValidAccessToken provider' clock' w'
    = (Returned (Some (EtsyApiClient.access_token response)), w').
Proof.
  intros Hdue Hgrant Hw Hne Hpos Hlife Hearly w'. subst w'.
  rewrite (refresh_granted provider clock w r rt response Hdue Hgrant). cbv zeta.
  destruct Hdue as ((Hen & Hfile & Hread) & _).
  rewrite (saveTokens_writes _ _ _ Hen Hw). cbn [snd].
  set (saved := TokenStorage.tokensToSave
                  (refreshed_tokens r response (at_refreshed clock)) (at_saveTokens clock)).
  apply (getValidAccessToken_fresh provider' clock' _ saved).
  - repeat split; assumption.
  - unfold TokenStorage.is_expired. subst saved.
    unfold TokenStorage.tokensToSave, TokenStorage.newExpiresAt, refreshed_tokens.
    simpl.
    destruct (at_refreshed clock + EtsyApiClient.expires_in response * 1000 =? 0) eqn:Hz;
      [apply Z.eqb_eq in Hz; lia | ].
    simpl. rewrite Hz. simpl. apply Z.ltb_ge. exact Hearly.
  - exact Hne.
Qed.

End TokenPaths.

Lemma refresh_on_read_only_disk_witness :
  let r := sample_tokens (Some 1000) in
  let s := enabled_store
             (sample_disk (Some (TokenStorage.Json r)) (Some "EROFS") None) in
  let w := world_of ∅ s in
  let result := EtsyMCPServer.getValidAccessToken granting_provider (sample_clock 5000) w in
  refresh_due 5000 (tokenStorage w) r "r0" /\
  permission_code "EROFS" /\
  fst result = Returned (Some "111.new") /\
  EtsyMCPServer.getValidAccessToken granting_provider (sample_clock 6000) (snd result)
    = (Returned None, snd result).
Proof.
  intros r s w result.
  assert (refresh_due 5000 (tokenStorage w) r "r0") as Hdue.
  { split; [repeat split; reflexivity | split; [left; reflexivity | ] ].
    split; [reflexivity | discriminate]. }
  assert (permission_code "EROFS") as Hcode by (left; reflexivity).
  destruct (refresh_on_read_only_disk (fun _ => []) granting_provider (sample_clock 5000)
              w r "r0" "EROFS" granted Hdue eq_refl eq_refl Hcode)
    as (Hret & _ & Hlater).
  split; [exact Hdue | split; [exact Hcode | split; [exact Hret | ]]].
  apply (Hlater [] granting_provider (sample_clock 6000)).
Defined.


Lemma refreshed_token_is_reused_witness :
  let r := sample_tokens (Some 1000) in
  let w := world_of ∅ (store_holding r) in
  let w' := snd (EtsyMCPServer.getValidAccessToken granting_provider (sample_clock 5000) w) in
  refresh_due 5000 (tokenStorage w) r "r0" /\
  EtsyMCPServer.getValidAccessToken failing_provider (sample_clock 6000) w'
    = (Returned (Some "111.new"), w').
Proof.
  intros r w w'.
  assert (refresh_due 5000 (tokenStorage w) r "r0") as Hdue.
  { split; [repeat split; reflexivity | split; [left; reflexivity | ] ].
    split; [reflexivity | discriminate]. }
  split; [exact Hdue | ].
  apply (refreshed_token_is_reused granting_provider failing_provider (sample_clock 5000)
           (sample_clock 6000) w r "r0" granted Hdue eq_refl eq_refl);
    [discriminate | simpl; lia | simpl; lia | simpl; lia].
Defined.

(** ** The callback handler: effects and outcomes *)

Section CallbackOutcomes.
Import OAuthServer.

Lemma saveTokens_throws_iff (tokens : TokenStorage.TokenUpdate) (now : Z)
    (s : TokenStorage.store) :
  throws (fst (TokenStorage.saveTokens tokens now s)) <->
  TokenStorage.fileStorageEnabled s = true /\
  unhandled_error (TokenStorage.write_error (TokenStorage.disk s)).
Proof.
  unfold TokenStorage.saveTokens, TokenStorage.writeFileSync.
  destruct (TokenStorage.fileStorageEnabled s); simpl.
  - destruct (TokenStorage.write_error (TokenStorage.disk s)) as [code|].
    + rewrite unhandled_error_Some.
      destruct (is_EROFS_or_EACCES (FsError code)); simpl.
      * split; [contradiction | intros [_ H]; discriminate].
      * split; [auto | intros _; exact I].
    + simpl. split; [contradiction | intros [_ H]; exact (unhandled_error_None H)].
  - split; [contradiction | intros [H _]; discriminate].
Qed.

Lemma exchange_and_store_posts (provider : EtsyApiClient.Provider) (shops : ShopsApi)
    (now : Z) (c v : string) (w : World) :
  EtsyApiClient.posted (etsyApi (snd (exchange_and_store provider shops now c v w)))
    = (EtsyApiClient.posted (etsyApi w) ++ [AuthorizationCodeGrant c v])%list.
Proof.
  unfold exchange_and_store, EtsyApiClient.getAccessTokenFromCode.
  destruct (provider (AuthorizationCodeGrant c v)) as [response|]; [ | reflexivity ].
  destruct (TokenStorage.saveTokens _ now (tokenStorage w)) as [[u|e] storage];
    reflexivity.
Qed.

(** The [try] block succeeds exactly when the provider grants and the
    save does not throw. *)
Lemma exchange_and_store_reply (provider : EtsyApiClient.Provider) (shops : ShopsApi)
    (now : Z) (c v : string) (w : World) :
  ((exists userId shop,
      fst (exchange_and_store provider shops now c v w)
        = AuthenticationSuccessful userId shop) /\
   (exists response, provider (AuthorizationCodeGrant c v) = Some response) /\
   ~ (TokenStorage.fileStorageEnabled (tokenStorage w) = true /\
      unhandled_error (TokenStorage.write_error (TokenStorage.disk (tokenStorage w)))))
  \/
  (fst (exchange_and_store provider shops now c v w) = TokenExchangeFailed /\
   (provider (AuthorizationCodeGrant c v) = None \/
    (TokenStorage.fileStorageEnabled (tokenStorage w) = true /\
     unhandled_error (TokenStorage.write_error (TokenStorage.disk (tokenStorage w)))))).
Proof.
  unfold exchange_and_store, EtsyApiClient.getAccessTokenFromCode.
  destruct (provider (AuthorizationCodeGrant c v)) as [response|];
    [ | right; split; [reflexivity | left; reflexivity] ].
  match goal with
  | |- context [TokenStorage.saveTokens ?u now (tokenStorage w)] =>
      pose proof (saveTokens_throws_iff u now (tokenStorage w)) as Hthrow;
      destruct (TokenStorage.saveTokens u now (tokenStorage w)) as [[u'|e] storage]
  end; simpl in Hthrow.
  - left. split; [eauto | split; [eauto | ]]. intros H. apply Hthrow in H. exact H.
  - right. split; [reflexivity | right]. apply Hthrow. exact I.
Qed.

(** The two kinds of callback. *)
Lemma route_callback_cases (provider : EtsyApiClient.Provider)
    (shops : ShopsApi) (now : Z) (query : CallbackQuery) (w : World) :
  (((exists e d, fst (route_callback provider shops now query w) = OAuthError e d) \/
    fst (route_callback provider shops now query w) = MissingCodeOrState \/
    fst (route_callback provider shops now query w) = InvalidOrExpiredState) /\
   snd (route_callback provider shops now query w) = w)
  \/
  (exists c s d, well_formed_callback query c s /\ stateStore w !! s = Some d).
Proof.
  unfold route_callback.
  destruct (q_truthy (error query)) eqn:Herr; [left; split; [left; eauto | reflexivity] | ].
  destruct (code query) as [ | c | ] eqn:Hcode;
    try (left; split; [right; left; reflexivity | reflexivity]).
  destruct (state query) as [ | s | ] eqn:Hstate;
    try (left; split; [right; left; reflexivity | reflexivity]).
  destruct (String.eqb c "" || String.eqb s "") eqn:Hempty;
    [left; split; [right; left; reflexivity | reflexivity] | ].
  apply orb_false_iff in Hempty as [Hc Hs]. apply String.eqb_neq in Hc, Hs.
  unfold consume.
  destruct (stateStore w !! s) as [d|] eqn:Hd;
    [ | left; split; [right; right; reflexivity | reflexivity] ].
  right. exists c, s, d. split; [repeat split; assumption | exact Hd].
Qed.

(** Every callback is one of two kinds.  Either it is rejected before
    the exchange (an [error] parameter, a missing or non-string [code]
    or [state], an unknown state) and then nothing at all is changed: no
    request is posted, no token is saved, no state is consumed.  Or its
    state is in the store, and then that entry is removed and exactly
    one exchange request is posted, carrying the code of the query and
    the verifier stored under the state. *)
Theorem callback_rejects_or_exchanges_once (provider : EtsyApiClient.Provider)
    (shops : ShopsApi) (now : Z) (query : CallbackQuery) (w : World) :
  let reply := fst (route_callback provider shops now query w) in
  let w' := snd (route_callback provider shops now query w) in
  (((exists e d, reply = OAuthError e d) \/ reply = MissingCodeOrState \/
    reply = InvalidOrExpiredState) /\ w' = w)
  \/
  (((exists userId shop, reply = AuthenticationSuccessful userId shop) \/
    reply = TokenExchangeFailed) /\
   exists c s d,
     well_formed_callback query c s /\
     stateStore w !! s = Some d /\
     stateStore w' = delete s (stateStore w) /\
     EtsyApiClient.posted (etsyApi w')
       = (EtsyApiClient.posted (etsyApi w)
            ++ [AuthorizationCodeGrant c (codeVerifier d)])%list).
Proof.
  intros reply w'. subst reply w'.
  destruct (route_callback_cases provider shops now query w)
    as [Hrej | (c & s & d & Hq & Hd)]; [left; exact Hrej | right].
  rewrite (route_callback_hit _ _ _ _ c s d w Hq Hd).
  split.
  - destruct (exchange_and_store_reply provider shops now c (codeVerifier d)
                (set_stateStore (delete s (stateStore w)) w))
      as [(Hok & _) | (Hfail & _)]; [left; exact Hok | right; exact Hfail].
  - exists c, s, d. split; [exact Hq | split; [exact Hd | split]].
    + rewrite exchange_and_store_stateStore. reflexivity.
    + rewrite exchange_and_store_posts. reflexivity.
Qed.

(** When the authentication succeeds: exactly when the callback is well
    formed, its state is in the store, the provider grants the exchange
    and the save does not throw.  Neither the outcome of the shop lookup
    nor a disabled store makes the flow fail. *)
Theorem callback_succeeds_iff (provider : EtsyApiClient.Provider)
    (shops : ShopsApi) (now : Z) (query : CallbackQuery) (w : World) :
  (exists userId shop,
     fst (route_callback provider shops now query w)
       = AuthenticationSuccessful userId shop) <->
  exists c s d response,
    well_formed_callback query c s /\
    stateStore w !! s = Some d /\
    provider (AuthorizationCodeGrant c (codeVerifier d)) = Some response /\
    ~ (TokenStorage.fileStorageEnabled (tokenStorage w) = true /\
       unhandled_error (TokenStorage.write_error (TokenStorage.disk (tokenStorage w)))).
Proof.
  split.
  - intros (userId & shop & Hreply).
    destruct (route_callback_cases provider shops now query w)
      as [(Hrej & _) | (c & s & d & Hq & Hd)].
    + exfalso. rewrite Hreply in Hrej.
      destruct Hrej as [(e & d & H) | [H | H]]; discriminate.
    + exists c, s, d. rewrite (route_callback_hit _ _ _ _ c s d w Hq Hd) in Hreply.
      destruct (exchange_and_store_reply provider shops now c (codeVerifier d)
                  (set_stateStore (delete s (stateStore w)) w))
        as [(_ & (response & Hgrant) & Hsave) | (Hfail & _)].
      * exists response. auto.
      * rewrite Hfail in Hreply. discriminate.
  - intros (c & s & d & response & Hq & Hd & Hgrant & Hsave).
    rewrite (route_callback_hit _ _ _ _ c s d w Hq Hd).
    destruct (exchange_and_store_reply provider shops now c (codeVerifier d)
                (set_stateStore (delete s (stateStore w)) w))
      as [(Hok & _) | (_ & [Hnone | Hthrow])].
    + exact Hok.
    + rewrite Hgrant in Hnone. discriminate.
    + exfalso. apply Hsave. exact Hthrow.
Qed.

End CallbackOutcomes.

Section CallbackPersists.
Import OAuthServer.
Variable sha256 : string -> list Byte.byte.


(** A callback received while the store is disabled still answers
    "Authentication Successful" and gives the client object the new
    access token, but nothing is persisted: the next call of
    [getValidAccessToken] returns null. *)
Theorem callback_with_disabled_store (provider : EtsyApiClient.Provider)
    (shops : ShopsApi) (now : Z) (query : CallbackQuery) (c s : string)
    (d : StateData) (response : EtsyApiClient.OAuthTokenResponse) (w : World) :
  well_formed_callback query c s ->
  stateStore w !! s = Some d ->
  provider (AuthorizationCodeGrant c (codeVerifier d)) = Some response ->
  TokenStorage.fileStorageEnabled (tokenStorage w) = false ->
  let reply := fst (route_callback provider shops now query w) in
  let w' := snd (route_callback provider shops now query w) in
  (exists userId shop, reply = AuthenticationSuccessful userId shop) /\
  tokenStorage w' = tokenStorage w /\
  EtsyApiClient.accessToken (etsyApi w') = Some (EtsyApiClient.access_token response) /\
  forall provider' clock',
    EtsyMCPServer.getValidAccessToken provider' clock' w' = (Returned None, w').
Proof.
  intros Hq Hd Hgrant Hoff reply w'. subst reply w'.
  rewrite (route_callback_hit _ _ _ _ c s d w Hq Hd).
  unfold exchange_and_store, EtsyApiClient.getAccessTokenFromCode.
  rewrite Hgrant. cbn [tokenStorage set_stateStore etsyApi].
  rewrite (disabled_saveTokens _ _ _ Hoff).
  split; [eauto | split; [reflexivity | split; [reflexivity | ]]].
  intros provider' clock'. apply getValidAccessToken_disabled. exact Hoff.
Qed.

Lemma hex_cons (b : Byte.byte) (rest : list Byte.byte) :
  hex (b :: rest)
  = String (hex_digit (N.shiftr (Byte.to_N b) 4))
      (String (hex_digit (Byte.to_N b)) (hex rest)).
Proof. reflexivity. Qed.

Lemma step_keeps_entry (ev : Event) (s : string) (d : StateData) (w : World) :
  leaves_entry s (createdAt d) ev ->
  stateStore w !! s = Some d ->
  stateStore (step sha256 ev w) !! s = Some d.
Proof.
  intros Hev Hd. destruct ev; simpl in *; try exact Hd.
  - rewrite lookup_insert_ne; [exact Hd | exact Hev].
  - unfold route_callback.
    destruct (q_truthy (error query)); [exact Hd | ].
    destruct (code query) as [ | c | ]; try exact Hd.
    destruct (state query) as [ | s' | ]; try exact Hd.
    destruct (String.eqb c "" || String.eqb s' ""); [exact Hd | ].
    unfold consume.
    destruct (stateStore w !! s') as [d'|]; [ | exact Hd ].
    rewrite exchange_and_store_stateStore. simpl.
    rewrite lookup_delete_ne; [exact Hd | congruence].
  - apply map_lookup_filter_Some. split; [exact Hd | ].
    simpl. unfold is_stale. apply Z.ltb_ge. lia.
  - rewrite getValidAccessToken_stateStore. exact Hd.
Qed.

Lemma run_keeps_entry (evs : list Event) (s : string) (d : StateData) (w : World) :
  Forall (leaves_entry s (createdAt d)) evs ->
  stateStore w !! s = Some d ->
  stateStore (run sha256 evs w) !! s = Some d.
Proof.
  revert w. induction evs as [ | ev evs IH]; intros w Hevs Hd; simpl.
  - exact Hd.
  - apply IH; [apply Forall_inv_tail in Hevs; exact Hevs | ].
    apply step_keeps_entry; [apply Forall_inv in Hevs; exact Hevs | exact Hd].
Qed.

(** The verifier is bound to the state: after [GET /auth] has drawn a
    state and a verifier, and whatever happens in between short of
    consuming, re-drawing or sweeping that state, a callback carrying the
    state posts one exchange request whose [code_verifier] is the
    verifier generated by that same [/auth] request, whose challenge
    (the S256 transform of that verifier) went into the redirect; the
    state is then gone. *)
Theorem callback_sends_the_verifier_of_its_state (random16 random32 : list Byte.byte)
    (T : Z) (between : list Event) (provider : EtsyApiClient.Provider)
    (shops : ShopsApi) (now : Z) (c : string) (w : World) :
  random16 <> [] ->
  c <> "" ->
  Forall (leaves_entry (hex random16) T) between ->
  let redirect := fst (route_auth sha256 random16 random32 T w) in
  let issued := snd (route_auth sha256 random16 random32 T w) in
  let waiting := run sha256 between issued in
  let done :=
    snd (route_callback provider shops now (callback_query c (url_state redirect)) waiting) in
  url_state redirect = hex random16 /\
  url_code_challenge redirect
    = string_of_list_ascii
        (EtsyApiClient.base64url_nopad
           (EtsyApiClient.base64 (sha256 (EtsyApiClient.codeVerifier_of random32)))) /\
  EtsyApiClient.posted (etsyApi done)
    = (EtsyApiClient.posted (etsyApi waiting)
         ++ [AuthorizationCodeGrant c (EtsyApiClient.codeVerifier_of random32)])%list /\
  stateStore done !! hex random16 = None.
Proof.
  intros Hrandom Hc Hbetween redirect issued waiting done.
  set (d := {| codeVerifier := EtsyApiClient.codeVerifier_of random32; createdAt := T |}).
  assert (stateStore waiting !! hex random16 = Some d) as Hd.
  { subst waiting issued. apply run_keeps_entry; [exact Hbetween | ].
    unfold route_auth. simpl. apply lookup_insert_eq. }
  assert (well_formed_callback (callback_query c (hex random16)) c (hex random16)) as Hq.
  { repeat split; [exact Hc | ].
    destruct random16 as [ | b rest]; [contradiction | ].
    rewrite hex_cons. discriminate. }
  split; [reflexivity | split; [reflexivity | ]].
  subst done redirect. cbn [route_auth fst url_state].
  rewrite (route_callback_hit _ _ _ _ c (hex random16) d waiting Hq Hd).
  split.
  - rewrite exchange_and_store_posts. reflexivity.
  - rewrite exchange_and_store_stateStore. simpl. apply lookup_delete_eq.
Qed.

End CallbackPersists.


Lemma callback_with_disabled_store_witness :
  let d := {| codeVerifier := "v"; createdAt := 0 |} in
  let off := {| TokenStorage.fileStorageEnabled := false;
                TokenStorage.disk := sample_disk None None None |} in
  let w := world_of {[ "s1" := d ]} off in
  let query := callback_query "abc" "s1" in
  let w' := snd (OAuthServer.route_callback granting_provider no_shops 1000 query w) in
  well_formed_callback query "abc" "s1" /\
  fst (OAuthServer.route_callback granting_provider no_shops 1000 query w)
    = OAuthServer.AuthenticationSuccessful (Some 111) None /\
  EtsyMCPServer.getValidAccessToken granting_provider (sample_clock 2000) w'
    = (Returned None, w').
Proof.
  intros d off w query w'.
  assert (well_formed_callback query "abc" "s1") as Hq by (repeat split; discriminate).
  destruct (callback_with_disabled_store granting_provider no_shops 1000 query
              "abc" "s1" d granted w Hq (lookup_singleton_eq _ _) eq_refl eq_refl)
    as (_ & _ & _ & Hnull).
  split; [exact Hq | split; [vm_compute; reflexivity | apply Hnull]].
Defined.

Lemma callback_sends_the_verifier_of_its_state_witness :
  let sha256 := fun _ : string => [] in
  let w := world_of ∅ (enabled_store (sample_disk None None None)) in
  let between := [TimerTick 60000; GetTokens 61000] in
  let waiting := run sha256 between (snd (OAuthServer.route_auth sha256 [x01] [x00] 0 w)) in
  let done :=
    snd (OAuthServer.route_callback failing_provider no_shops 62000
           (callback_query "abc" "01") waiting) in
  Forall (leaves_entry (OAuthServer.hex [x01]) 0) between /\
  EtsyApiClient.posted (etsyApi done) = [AuthorizationCodeGrant "abc" "AA"].
Proof.
  intros sha256 w between waiting done.
  assert (Forall (leaves_entry (OAuthServer.hex [x01]) 0) between) as Hbetween.
  { repeat constructor. vm_compute. discriminate. }
  assert ([x01] <> []) as Hrandom by discriminate.
  assert ("abc" <> "") as Hc by discriminate.
  destruct (callback_sends_the_verifier_of_its_state sha256 [x01] [x00] 0 between
              failing_provider no_shops 62000 "abc" w Hrandom Hc Hbetween)
    as (_ & _ & Hposted & _).
  split; [exact Hbetween | exact Hposted].
Defined.

(** ** Encodings: the state and the code challenge *)

Section Encodings.
Import EtsyApiClient.

Lemma hex_byte (b : Byte.byte) (rest : list ascii) :
  unhex_chars (OAuthServer.hex_digit (N.shiftr (Byte.to_N b) 4)
                 :: OAuthServer.hex_digit (Byte.to_N b) :: rest)
    = match unhex_chars rest with
      | Some bytes => Some (b :: bytes)
      | None => None
      end /\
  is_lower_hex (OAuthServer.hex_digit (N.shiftr (Byte.to_N b) 4)) = true /\
  is_lower_hex (OAuthServer.hex_digit (Byte.to_N b)) = true.
Proof.
  destruct b; (split; [cbn; destruct (unhex_chars rest); reflexivity | split; reflexivity]).
Qed.

Lemma hex_chars (bytes : list Byte.byte) :
  list_ascii_of_string (OAuthServer.hex bytes)
  = flat_map (fun b => [OAuthServer.hex_digit (N.shiftr (Byte.to_N b) 4);
                        OAuthServer.hex_digit (Byte.to_N b)]) bytes.
Proof. unfold OAuthServer.hex. apply list_ascii_of_string_of_list_ascii. Qed.

(** The state text is lossless and well formed: [n] random bytes give
    [2 n] characters of [[0-9a-f]], the bytes can be read back from the
    text, and so two draws give the same state only if they are the same
    bytes. *)
Theorem hex_is_lossless (bytes : list Byte.byte) :
  String.length (OAuthServer.hex bytes) = (2 * length bytes)%nat /\
  Forall (fun c => is_lower_hex c = true) (list_ascii_of_string (OAuthServer.hex bytes)) /\
  unhex (OAuthServer.hex bytes) = Some bytes /\
  forall other, OAuthServer.hex other = OAuthServer.hex bytes -> other = bytes.
Proof.
  assert (forall l, unhex (OAuthServer.hex l) = Some l) as Hback.
  { intros l. unfold unhex. rewrite hex_chars.
    induction l as [ | b l IH]; [reflexivity | ].
    cbn [flat_map app]. rewrite (proj1 (hex_byte b _)), IH. reflexivity. }
  split; [ | split; [ | split; [apply Hback | ] ] ].
  - rewrite <- (string_of_list_ascii_of_string (OAuthServer.hex bytes)),
      length_string_of_list_ascii, hex_chars.
    induction bytes as [ | b l IH]; [reflexivity | ].
    cbn [flat_map app length]. rewrite IH. lia.
  - rewrite hex_chars. induction bytes as [ | b l IH]; [constructor | ].
    cbn [flat_map app]. destruct (hex_byte b []) as (_ & Hhi & Hlo).
    constructor; [exact Hhi | constructor; [exact Hlo | exact IH]].
  - intros other Heq. pose proof (Hback other) as Hother.
    rewrite Heq, Hback in Hother. injection Hother as ->. reflexivity.
Qed.

Lemma base64_digit_url (n : N) :
  base64_digit n <> "="%char /\
  is_base64url
    ((fun c => if Ascii.eqb c "/" then "_"%char else c)
       ((fun c => if Ascii.eqb c "+" then "-"%char else c) (base64_digit n))) = true.
Proof.
  unfold base64_digit.
  assert (N.to_nat (N.land n 63) < 64)%nat as Hlt.
  { assert (N.land n 63 < 64)%N; [ | lia ].
    change 63%N with (N.ones 6). rewrite N.land_ones. apply N.mod_lt. discriminate. }
  remember (N.to_nat (N.land n 63)) as k eqn:Hk. clear Hk.
  do 64 (destruct k as [ | k]; [split; [discriminate | reflexivity] | ]).
  lia.
Qed.

(** [Buffer.toString('base64')] pads to whole groups: [n] bytes give
    [4 * ceil(n / 3)] characters, each a digit of the base64 alphabet or
    the padding [=]. *)
Theorem base64_length (bytes : list Byte.byte) :
  length (base64 bytes) = (4 * ((length bytes + 2) / 3))%nat /\
  Forall (fun c => c = "="%char \/ In c base64_alphabet) (base64 bytes).
Proof.
  assert (forall n, In (base64_digit n) base64_alphabet) as Hdigit.
  { intros n. unfold base64_digit. apply nth_In.
    assert (N.land n 63 < 64)%N as Hlt.
    { change 63%N with (N.ones 6). rewrite N.land_ones. apply N.mod_lt. discriminate. }
    change (length base64_alphabet) with 64%nat. lia. }
  assert (forall k (l : list Byte.byte), (length l < k)%nat ->
            length (base64 l) = (4 * ((length l + 2) / 3))%nat /\
            Forall (fun c => c = "="%char \/ In c base64_alphabet) (base64 l)) as Hall.
  { induction k as [ | k IH]; intros l Hk; [lia | ].
    destruct l as [ | a [ | b [ | c rest]]].
    - split; [reflexivity | constructor].
    - split; [reflexivity | cbn [base64] ].
      repeat (constructor; [first [left; reflexivity | right; apply Hdigit] | ]).
      constructor.
    - split; [reflexivity | cbn [base64] ].
      repeat (constructor; [first [left; reflexivity | right; apply Hdigit] | ]).
      constructor.
    - cbn [base64 length] in *. destruct (IH rest ltac:(lia)) as [Hl Hf].
      split.
      + rewrite Hl.
        replace (S (S (S (length rest))) + 2)%nat with (length rest + 2 + 1 * 3)%nat by lia.
        rewrite Nat.div_add by discriminate. lia.
      + repeat (constructor; [right; apply Hdigit | ]). exact Hf. }
  apply (Hall (S (length bytes))). lia.
Qed.

(** The code challenge is a well-formed S256 challenge: when the digest
    has the 32 bytes of SHA-256, the challenge has exactly 43 characters,
    all of the base64url alphabet [[A-Za-z0-9_-]]: the single [=] of the
    padding is removed and no other character is lost. *)
Theorem codeChallenge_is_base64url (sha256 : string -> list Byte.byte)
    (random : list Byte.byte) :
  length (sha256 (codeVerifier_of random)) = 32%nat ->
  let challenge := codeChallenge (generatePKCE sha256 random) in
  String.length challenge = 43%nat /\
  Forall (fun c => is_base64url c = true) (list_ascii_of_string challenge).
Proof.
  intros Hlen challenge. subst challenge. unfold generatePKCE. cbn [codeChallenge].
  destruct (base64_32_bytes_digits _ Hlen) as (body & -> & Hbody & Hdigits).
  rewrite length_string_of_list_ascii, list_ascii_of_string_of_list_ascii.
  unfold base64url_nopad. rewrite !map_app, List.filter_app.
  assert (List.filter (fun c => negb (Ascii.eqb c "="))
            (map (fun c => if Ascii.eqb c "/" then "_"%char else c)
               (map (fun c => if Ascii.eqb c "+" then "-"%char else c) ["="%char]))
          = []) as -> by reflexivity.
  rewrite List.app_nil_r.
  assert (Forall (fun c => negb (Ascii.eqb c "=") = true /\ is_base64url c = true)
            (map (fun c => if Ascii.eqb c "/" then "_"%char else c)
               (map (fun c => if Ascii.eqb c "+" then "-"%char else c) body))) as Hok.
  { rewrite !Forall_map. eapply Forall_impl; [exact Hdigits | ].
    intros c (n & ->). destruct (base64_digit_url n) as [Hne Hurl].
    split; [ | exact Hurl ].
    cbn beta. apply negb_true_iff, Ascii.eqb_neq.
    destruct (Ascii.eqb (base64_digit n) "+") eqn:Hplus; cbn beta iota.
    - discriminate.
    - destruct (Ascii.eqb (base64_digit n) "/"); [discriminate | exact Hne]. }
  set (mapped := map _ (map _ body)) in *.
  assert (List.filter (fun c => negb (Ascii.eqb c "=")) mapped = mapped) as ->.
  { clear -Hok. induction mapped as [ | c l IH]; [reflexivity | ].
    apply Forall_cons in Hok as [[Hc _] Hl]. simpl. rewrite Hc, (IH Hl). reflexivity. }
  split.
  - subst mapped. rewrite !length_map. exact Hbody.
  - eapply Forall_impl; [exact Hok | ]. intros c [_ Hc]. exact Hc.
Qed.

Lemma codeChallenge_is_base64url_witness :
  let sha256 := fun _ : string => repeat xfb 32 in
  let challenge := codeChallenge (generatePKCE sha256 [x00]) in
  length (sha256 (codeVerifier_of [x00])) = 32%nat /\
  String.length challenge = 43%nat /\
  Forall (fun c => is_base64url c = true) (list_ascii_of_string challenge).
Proof.
  intros sha256 challenge. split; [reflexivity | ].
  apply (codeChallenge_is_base64url sha256 [x00]). reflexivity.
Defined.

End Encodings.

(** ** The tool handlers *)

Section ToolRequests.
Import Tools.
Variable apiKey : string.
Variable provider : EtsyApiClient.Provider.

Lemma shop_tool_sent (authMessage : string) (endpoint : string -> string)
    (customMessage : option string) (market : EtsyApiRequests.Marketplace)
    (clock : EtsyMCPServer.Clock) (now : Z) (shop_id : option Z) (w : World) :
  let run := shop_tool apiKey provider authMessage endpoint customMessage market
               clock now shop_id w in
  (sent run = [] /\ exists message, result run = IsError message) \/
  (exists token shopId,
     grants_token provider clock w token /\
     sent run = [EtsyApiRequests.request apiKey (endpoint (EtsyApiRequests.toString shopId))
                   EtsyApiRequests.GET None (Some token)] /\
     shopId <> 0).
Proof.
  intros run. subst run. unfold shop_tool, grants_token.
  destruct (EtsyMCPServer.getValidAccessToken provider clock w) as [[accessToken|e] w1];
    [ | left; split; [reflexivity | unfold handleError; eauto] ].
  destruct (truthy_str accessToken) eqn:Htoken; simpl negb; cbv iota;
    [ | left; split; [reflexivity | unfold handleError; eauto] ].
  apply truthy_str_true in Htoken as (token & -> & Hne).
  destruct (shopIdToUse shop_id now w1) as [[shopId|] w2] eqn:Hshop;
    [ | left; split; [reflexivity | unfold handleError; eauto] ].
  assert (shopId <> 0) as Hid.
  { unfold shopIdToUse in Hshop.
    destruct (truthy_num shop_id) eqn:Harg.
    - injection Hshop as -> _. apply truthy_num_true in Harg as (z & Hz & Hnz).
      injection Hz as <-. exact Hnz.
    - destruct (TokenStorage.getTokens now (tokenStorage w1)) as [stored storage].
      destruct (truthy_num (stored ≫= TokenStorage.shop_id)) eqn:Hstored;
        [ | discriminate ].
      injection Hshop as Hs _. rewrite Hs in Hstored.
      apply truthy_num_true in Hstored as (z & Hz & Hnz). injection Hz as <-. exact Hnz. }
  right. exists token, shopId. split; [split; [reflexivity | exact Hne] | ].
  split; [ | exact Hid ].
  destruct (market _); reflexivity.
Qed.

(** No marketplace request without a token and a shop: each of
    [get_listings], [get_shop_details] and [list_shop_shipping_profiles]
    sends at most one request; it sends one only when
    [getValidAccessToken] returned a non-empty token and a non-zero shop
    id was found, and that request is a [GET] without body to an
    endpoint of that shop, carrying [x-api-key] and
    [Authorization: Bearer <that token>]; otherwise it sends nothing and
    returns an error result. *)
Theorem shop_tools_send_only_with_token (tool : EtsyApiRequests.Marketplace ->
      EtsyMCPServer.Clock -> Z -> option Z -> World -> Run)
    (market : EtsyApiRequests.Marketplace) (clock : EtsyMCPServer.Clock) (now : Z)
    (shop_id : option Z) (w : World) :
  In tool [get_listings apiKey provider; get_shop_details apiKey provider;
           list_shop_shipping_profiles apiKey provider] ->
  let run := tool market clock now shop_id w in
  (sent run = [] /\ exists message, result run = IsError message) \/
  (exists token shopId rq,
     grants_token provider clock w token /\
     shopId <> 0 /\
     sent run = [rq] /\
     EtsyApiRequests.method rq = EtsyApiRequests.GET /\
     EtsyApiRequests.data rq = None /\
     EtsyApiRequests.headers rq
       = [("x-api-key", apiKey); ("Content-Type", "application/json");
          ("Authorization", "Bearer " ++ token)] /\
     In (EtsyApiRequests.url rq)
        (map (fun endpoint =>
                EtsyApiRequests.baseURL ++ endpoint (EtsyApiRequests.toString shopId))
           [EtsyApiRequests.listings_endpoint; EtsyApiRequests.shop_endpoint;
            EtsyApiRequests.shipping_profiles_endpoint])).
Proof.
  intros Htool run.
  assert (exists authMessage endpoint customMessage,
            tool = shop_tool apiKey provider authMessage endpoint customMessage /\
            In endpoint [EtsyApiRequests.listings_endpoint; EtsyApiRequests.shop_endpoint;
                         EtsyApiRequests.shipping_profiles_endpoint])
    as (authMessage & endpoint & customMessage & -> & Hendpoint).
  { destruct Htool as [<- | [<- | [<- | []]]]; do 3 eexists;
      (split; [reflexivity | simpl; tauto]). }
  subst run.
  destruct (shop_tool_sent authMessage endpoint customMessage market clock now shop_id w)
    as [Hnone | (token & shopId & Hgrant & Hsent & Hid)]; [left; exact Hnone | right].
  exists token, shopId. eexists. split; [exact Hgrant | split; [exact Hid | ]].
  split; [exact Hsent | ].
  split; [reflexivity | split; [reflexivity | split]].
  - unfold EtsyApiRequests.request, EtsyApiRequests.getHeaders. simpl.
    destruct Hgrant as [_ Hne]. apply String.eqb_neq in Hne. rewrite Hne. reflexivity.
  - cbn [EtsyApiRequests.request EtsyApiRequests.url].
    apply (in_map (fun e => EtsyApiRequests.baseURL ++ e (EtsyApiRequests.toString shopId))).
    exact Hendpoint.
Qed.

End ToolRequests.

Lemma shop_tools_send_only_with_token_witness :
  let w := world_of ∅ (store_holding (sample_tokens (Some 9000))) in
  let run := Tools.get_listings "key" failing_provider echo_market (sample_clock 5000)
               5003 None w in
  In (Tools.get_listings "key" failing_provider)
     [Tools.get_listings "key" failing_provider;
      Tools.get_shop_details "key" failing_provider;
      Tools.list_shop_shipping_profiles "key" failing_provider] /\
  Tools.result run
    = Tools.Result (Tools.Json "https://api.etsy.com/v3/application/shops/42/listings/active") /\
  length (Tools.sent run) = 1%nat.
Proof.
  intros w run.
  assert (In (Tools.get_listings "key" failing_provider)
            [Tools.get_listings "key" failing_provider;
             Tools.get_shop_details "key" failing_provider;
             Tools.list_shop_shipping_profiles "key" failing_provider]) as Hin
    by (left; reflexivity).
  split; [exact Hin | split; [vm_compute; reflexivity | ]].
  destruct (shop_tools_send_only_with_token "key" failing_provider _ echo_market
              (sample_clock 5000) 5003 None w Hin)
    as [[Hnone _] | (token & shopId & rq & _ & _ & Hsent & _)].
  - vm_compute in Hnone. discriminate Hnone.
  - fold run in Hsent. rewrite Hsent. reflexivity.
Defined.

Section DefaultShop.
Import Tools.
Variable apiKey : string.
Variable provider : EtsyApiClient.Provider.

(** How a tool picks the shop, once it has a token: a non-zero
    [shop_id] argument is used as it is and the token file is not read
    for it; a missing or zero argument is replaced by the [shop_id] of
    the stored record when that record is still valid at the later clock
    reading and its [shop_id] is non-zero; otherwise the tool returns
    "Shop ID is required" and sends nothing. *)
Theorem shop_id_argument_or_default (authMessage : string) (endpoint : string -> string)
    (customMessage : option string) (market : EtsyApiRequests.Marketplace)
    (clock : EtsyMCPServer.Clock) (now : Z) (shop_id : option Z) (w : World)
    (token : string) :
  grants_token provider clock w token ->
  let w1 := snd (EtsyMCPServer.getValidAccessToken provider clock w) in
  let run := shop_tool apiKey provider authMessage endpoint customMessage market
               clock now shop_id w in
  let request_for shopId :=
    EtsyApiRequests.request apiKey (endpoint (EtsyApiRequests.toString shopId))
      EtsyApiRequests.GET None (Some token) in
  (forall shopId, shop_id = Some shopId -> shopId <> 0 ->
     sent run = [request_for shopId] /\ world run = w1) /\
  (shop_id = None \/ shop_id = Some 0 ->
   (forall stored shopId,
      fst (TokenStorage.getTokens now (tokenStorage w1)) = Some stored ->
      TokenStorage.shop_id stored = Some shopId -> shopId <> 0 ->
      sent run = [request_for shopId]) /\
   (truthy_num (fst (TokenStorage.getTokens now (tokenStorage w1)) ≫= TokenStorage.shop_id)
      = false ->
    sent run = [] /\ result run = IsError (Message shop_id_required))).
Proof.
  intros [Hret Hne] w1 run request_for. subst w1 run request_for.
  unfold shop_tool.
  destruct (EtsyMCPServer.getValidAccessToken provider clock w) as [out w1].
  cbn [fst snd] in *. subst out.
  apply String.eqb_neq in Hne. cbn [truthy_str]. rewrite Hne. cbn [negb].
  split.
  - intros shopId -> Hid. unfold shopIdToUse. cbn [truthy_num].
    apply Z.eqb_neq in Hid. rewrite Hid. cbn [negb].
    destruct (market _); split; reflexivity.
  - intros Harg.
    assert (truthy_num shop_id = false) as Hfalsy
      by (destruct Harg as [-> | ->]; reflexivity).
    unfold shopIdToUse. rewrite Hfalsy.
    destruct (TokenStorage.getTokens now (tokenStorage w1)) as [stored storage].
    cbn [fst]. split.
    + intros r shopId -> Hshop Hid. cbn [mbind option_bind]. rewrite Hshop.
      cbn [truthy_num]. apply Z.eqb_neq in Hid. rewrite Hid. cbn [negb].
      destruct (market _); reflexivity.
    + intros ->. split; reflexivity.
Qed.

Lemma set_default_shop_saves (shops : OAuthServer.ShopsApi)
    (clock : EtsyMCPServer.Clock) (now_get now_save : Z) (w : World)
    (r : TokenStorage.TokenData) (userId : Z) (response : OAuthServer.UserShopsResponse)
    (shop : OAuthServer.Shop) :
  readable (tokenStorage w) r ->
  TokenStorage.is_expired r (EtsyMCPServer.at_getTokens clock) = false ->
  TokenStorage.is_expired r now_get = false ->
  TokenStorage.access_token r <> "" ->
  TokenStorage.user_id r = Some userId -> userId <> 0 ->
  shops userId (TokenStorage.access_token r) = Some response ->
  select_shop response = Returned (Some shop) ->
  set_default_shop apiKey provider shops clock now_get now_save w =
    let rq :=
      EtsyApiRequests.request apiKey (EtsyApiRequests.user_shops_endpoint userId)
        EtsyApiRequests.GET None (Some (TokenStorage.access_token r)) in
    match TokenStorage.saveTokens (with_shop r shop) now_save (tokenStorage w) with
    | (Returned _, storage') =>
        {| result := Result (DefaultShopSet (OAuthServer.shop_name shop)
                               (OAuthServer.shop_id shop));
           world := set_tokenStorage storage' w; sent := [rq] |}
    | (Thrown e, storage') =>
        {| result := handleError (MessageOf e) failed_to_set;
           world := set_tokenStorage storage' w; sent := [rq] |}
    end.
Proof.
  intros Hr Hfresh Hfresh' Hne Huser Hid Hshops Hselect.
  unfold set_default_shop.
  rewrite (getValidAccessToken_fresh provider clock w r Hr Hfresh Hne).
  cbn [truthy_str]. apply String.eqb_neq in Hne. rewrite Hne. cbn [negb].
  rewrite (getTokens_readable _ r now_get Hr), Hfresh'.
  rewrite Huser. cbn [truthy_num]. apply Z.eqb_neq in Hid. rewrite Hid. cbn [negb].
  cbv zeta. unfold default. cbn [from_option id]. unfold id.
  rewrite Hshops, Hselect. reflexivity.
Qed.

(** [set_default_shop] changes the shop and nothing else: with a valid
    stored token, a shop found, and a working disk it sends one request
    (the shops of the stored user id, with the stored token), reports the
    shop, and rewrites the record with the same access token, refresh
    token and user id and the new shop; the expiry is kept when it was
    set (a record without one gets one hour from the save). *)
Theorem set_default_shop_keeps_tokens (shops : OAuthServer.ShopsApi)
    (clock : EtsyMCPServer.Clock) (now_get now_save : Z) (w : World)
    (r : TokenStorage.TokenData) (userId : Z) (response : OAuthServer.UserShopsResponse)
    (shop : OAuthServer.Shop) :
  readable (tokenStorage w) r ->
  TokenStorage.is_expired r (EtsyMCPServer.at_getTokens clock) = false ->
  TokenStorage.is_expired r now_get = false ->
  TokenStorage.access_token r <> "" ->
  TokenStorage.user_id r = Some userId -> userId <> 0 ->
  shops userId (TokenStorage.access_token r) = Some response ->
  select_shop response = Returned (Some shop) ->
  TokenStorage.write_error (TokenStorage.disk (tokenStorage w)) = None ->
  let run := set_default_shop apiKey provider shops clock now_get now_save w in
  result run = Result (DefaultShopSet (OAuthServer.shop_name shop)
                         (OAuthServer.shop_id shop)) /\
  sent run = [EtsyApiRequests.request apiKey (EtsyApiRequests.user_shops_endpoint userId)
                EtsyApiRequests.GET None (Some (TokenStorage.access_token r))] /\
  etsyApi (world run) = etsyApi w /\
  stateStore (world run) = stateStore w /\
  exists saved,
    readable (tokenStorage (world run)) saved /\
    TokenStorage.access_token saved = TokenStorage.access_token r /\
    TokenStorage.refresh_token saved = TokenStorage.refresh_token r /\
    TokenStorage.user_id saved = TokenStorage.user_id r /\
    TokenStorage.shop_id saved = OAuthServer.shop_id shop /\
    TokenStorage.shop_name saved = OAuthServer.shop_name shop /\
    TokenStorage.expires_at saved
      = (if truthy_num (TokenStorage.expires_at r) then TokenStorage.expires_at r
         else Some (now_save + 3600000)).
Proof.
  intros Hr Hfresh Hfresh' Hne Huser Hid Hshops Hselect Hw run. subst run.
  rewrite (set_default_shop_saves shops clock now_get now_save w r userId response shop
             Hr Hfresh Hfresh' Hne Huser Hid Hshops Hselect).
  cbv zeta. destruct Hr as (Hen & Hfile & Hread).
  rewrite (saveTokens_writes _ _ _ Hen Hw).
  do 4 (split; [reflexivity | ]).
  eexists. split; [repeat split; [exact Hen | exact Hread] | ].
  do 5 (split; [reflexivity | ]).
  unfold TokenStorage.tokensToSave, TokenStorage.newExpiresAt, with_shop. simpl.
  destruct (TokenStorage.expires_at r) as [e|]; simpl; [ | reflexivity ].
  destruct (e =? 0); reflexivity.
Qed.

Lemma not_expired_before (r : TokenStorage.TokenData) (e now : Z) :
  TokenStorage.expires_at r = Some e -> now <= e ->
  TokenStorage.is_expired r now = false.
Proof.
  intros He Hle. unfold TokenStorage.is_expired. rewrite He. simpl.
  apply andb_false_iff. right. apply Z.ltb_ge. exact Hle.
Qed.

(** Set, then use: after a successful [set_default_shop], and until the
    stored token expires, [get_default_shop] reports the shop that was
    set (with "N/A" for a missing name), and a tool called without a
    [shop_id] sends its request to that shop with the stored token. *)
Theorem default_shop_is_used_after_set (shops : OAuthServer.ShopsApi)
    (clock clock' : EtsyMCPServer.Clock) (now_get now_save now' now'' : Z) (w : World)
    (r : TokenStorage.TokenData) (e userId shopId : Z)
    (response : OAuthServer.UserShopsResponse) (shop : OAuthServer.Shop)
    (authMessage : string) (endpoint : string -> string) (customMessage : option string)
    (market : EtsyApiRequests.Marketplace) :
  readable (tokenStorage w) r ->
  TokenStorage.expires_at r = Some e -> e <> 0 ->
  EtsyMCPServer.at_getTokens clock <= e -> now_get <= e ->
  now' <= e -> EtsyMCPServer.at_getTokens clock' <= e -> now'' <= e ->
  TokenStorage.access_token r <> "" ->
  TokenStorage.user_id r = Some userId -> userId <> 0 ->
  shops userId (TokenStorage.access_token r) = Some response ->
  select_shop response = Returned (Some shop) ->
  OAuthServer.shop_id shop = Some shopId -> shopId <> 0 ->
  TokenStorage.write_error (TokenStorage.disk (tokenStorage w)) = None ->
  let w' := world (set_default_shop apiKey provider shops clock now_get now_save w) in
  result (get_default_shop now' w')
    = Result (CurrentDefaultShop
                (if truthy_str (OAuthServer.shop_name shop)
                 then default "" (OAuthServer.shop_name shop) else "N/A") shopId) /\
  sent (shop_tool apiKey provider authMessage endpoint customMessage market
          clock' now'' None w')
    = [EtsyApiRequests.request apiKey (endpoint (EtsyApiRequests.toString shopId))
         EtsyApiRequests.GET None (Some (TokenStorage.access_token r))].
Proof.
  intros Hr He He0 Hc Hg Hn' Hc' Hn'' Hne Huser Hid Hshops Hselect Hshop Hsid Hw w'.
  subst w'.
  rewrite (set_default_shop_saves shops clock now_get now_save w r userId response shop
             Hr (not_expired_before r e _ He Hc) (not_expired_before r e _ He Hg)
             Hne Huser Hid Hshops Hselect).
  cbv zeta. destruct Hr as (Hen & Hfile & Hread).
  rewrite (saveTokens_writes _ _ _ Hen Hw). cbn [world].
  set (saved := TokenStorage.tokensToSave (with_shop r shop) now_save).
  set (w' := set_tokenStorage _ w).
  assert (readable (tokenStorage w') saved) as Hsaved
    by (repeat split; [exact Hen | exact Hread]).
  assert (TokenStorage.expires_at saved = Some e) as Hexp.
  { subst saved. unfold TokenStorage.tokensToSave, TokenStorage.newExpiresAt, with_shop.
    simpl. rewrite He. simpl. apply Z.eqb_neq in He0. rewrite He0. reflexivity. }
  assert (TokenStorage.shop_id saved = Some shopId) as Hsaved_shop by exact Hshop.
  apply Z.eqb_neq in Hsid.
  split.
  - unfold get_default_shop.
    rewrite (getTokens_readable _ saved now' Hsaved),
      (not_expired_before saved e now' Hexp Hn').
    rewrite Hsaved_shop. cbn [truthy_num]. rewrite Hsid. reflexivity.
  - unfold shop_tool.
    rewrite (getValidAccessToken_fresh provider clock' w' saved Hsaved
               (not_expired_before saved e _ Hexp Hc') Hne).
    cbn [truthy_str TokenStorage.access_token saved TokenStorage.tokensToSave with_shop
         TokenStorage.data].
    apply String.eqb_neq in Hne. rewrite Hne. cbn [negb].
    unfold shopIdToUse. cbn [truthy_num].
    rewrite (getTokens_readable _ saved now'' Hsaved),
      (not_expired_before saved e now'' Hexp Hn'').
    cbn [mbind option_bind]. rewrite Hsaved_shop. cbn [truthy_num]. rewrite Hsid.
    cbn [negb]. destruct (market _); reflexivity.
Qed.

(** [set_default_shop] on a read-only disk reports success, but the
    shop is not stored: the save fails with EROFS/EACCES, which is
    swallowed, the token file keeps the old record, the store is
    disabled, and [get_default_shop] then answers that no default shop is
    set. *)
Theorem set_default_shop_on_read_only_disk (shops : OAuthServer.ShopsApi)
    (clock : EtsyMCPServer.Clock) (now_get now_save : Z) (w : World)
    (r : TokenStorage.TokenData) (userId : Z) (code : string)
    (response : OAuthServer.UserShopsResponse) (shop : OAuthServer.Shop) :
  readable (tokenStorage w) r ->
  TokenStorage.is_expired r (EtsyMCPServer.at_getTokens clock) = false ->
  TokenStorage.is_expired r now_get = false ->
  TokenStorage.access_token r <> "" ->
  TokenStorage.user_id r = Some userId -> userId <> 0 ->
  shops userId (TokenStorage.access_token r) = Some response ->
  select_shop response = Returned (Some shop) ->
  TokenStorage.write_error (TokenStorage.disk (tokenStorage w)) = Some code ->
  permission_code code ->
  let run := set_default_shop apiKey provider shops clock now_get now_save w in
  result run = Result (DefaultShopSet (OAuthServer.shop_name shop)
                         (OAuthServer.shop_id shop)) /\
  TokenStorage.disk (tokenStorage (world run)) = TokenStorage.disk (tokenStorage w) /\
  forall now', result (get_default_shop now' (world run)) = Result NoDefaultShop.
Proof.
  intros Hr Hfresh Hfresh' Hne Huser Hid Hshops Hselect Hw Hcode run. subst run.
  rewrite (set_default_shop_saves shops clock now_get now_save w r userId response shop
             Hr Hfresh Hfresh' Hne Huser Hid Hshops Hselect).
  cbv zeta.
  rewrite (saveTokens_permission_error _ _ _ code (proj1 Hr) Hw Hcode).
  split; [reflexivity | split; [reflexivity | ]].
  intros now'. unfold get_default_shop. cbn [world tokenStorage set_tokenStorage].
  rewrite disabled_getTokens by reflexivity. reflexivity.
Qed.

End DefaultShop.

Lemma shop_id_argument_or_default_witness :
  let w := world_of ∅ (store_holding (sample_tokens (Some 9000))) in
  let run shop_id :=
    Tools.get_shop_details "key" failing_provider echo_market (sample_clock 5000) 5003
      shop_id w in
  grants_token failing_provider (sample_clock 5000) w "111.old" /\
  Tools.sent (run (Some 7))
    = [EtsyApiRequests.request "key" "/application/shops/7" EtsyApiRequests.GET None
         (Some "111.old")] /\
  Tools.sent (run (Some 0))
    = [EtsyApiRequests.request "key" "/application/shops/42" EtsyApiRequests.GET None
         (Some "111.old")].
Proof.
  intros w run.
  assert (grants_token failing_provider (sample_clock 5000) w "111.old") as Hgrant
    by (split; [reflexivity | discriminate]).
  destruct (shop_id_argument_or_default "key" failing_provider
              "Authentication required. Please run the authenticate tool."
              EtsyApiRequests.shop_endpoint None echo_market (sample_clock 5000) 5003
              (Some 7) w "111.old" Hgrant) as [Hgiven _].
  destruct (shop_id_argument_or_default "key" failing_provider
              "Authentication required. Please run the authenticate tool."
              EtsyApiRequests.shop_endpoint None echo_market (sample_clock 5000) 5003
              (Some 0) w "111.old" Hgrant) as [_ Hdefault].
  split; [exact Hgrant | split].
  - apply (Hgiven 7 eq_refl). lia.
  - apply (proj1 (Hdefault (or_intror eq_refl)) (sample_tokens (Some 9000)) 42);
      [reflexivity | reflexivity | lia].
Defined.

Lemma set_default_shop_keeps_tokens_witness :
  let r := sample_tokens (Some 9000) in
  let w := world_of ∅ (store_holding r) in
  let run := Tools.set_default_shop "key" failing_provider one_shop (sample_clock 5000)
               5003 5004 w in
  readable (tokenStorage w) r /\
  Tools.result run = Tools.Result (Tools.DefaultShopSet (Some "Seventy") (Some 77)) /\
  exists saved,
    readable (tokenStorage (Tools.world run)) saved /\
    TokenStorage.access_token saved = "111.old" /\
    TokenStorage.shop_id saved = Some 77 /\
    TokenStorage.expires_at saved = Some 9000.
Proof.
  intros r w run.
  assert (readable (tokenStorage w) r) as Hr by (repeat split; reflexivity).
  assert ("111.old" <> "") as Hne by discriminate.
  assert (111 <> 0) as Hid by lia.
  destruct (set_default_shop_keeps_tokens "key" failing_provider one_shop
              (sample_clock 5000) 5003 5004 w r 111 _ _ Hr eq_refl eq_refl Hne eq_refl Hid
              eq_refl eq_refl eq_refl)
    as (Hres & _ & _ & _ & saved & Hsaved & Hat & _ & _ & Hshop & _ & Hexp).
  split; [exact Hr | split; [exact Hres | ]].
  exists saved. split; [exact Hsaved | split; [exact Hat | split; [exact Hshop | exact Hexp]]].
Defined.

Lemma default_shop_is_used_after_set_witness :
  let r := sample_tokens (Some 9000) in
  let w := world_of ∅ (store_holding r) in
  let w' := Tools.world (Tools.set_default_shop "key" failing_provider one_shop
                           (sample_clock 5000) 5003 5004 w) in
  readable (tokenStorage w) r /\
  Tools.result (Tools.get_default_shop 6000 w')
    = Tools.Result (Tools.CurrentDefaultShop "Seventy" 77) /\
  Tools.sent (Tools.get_listings "key" failing_provider echo_market (sample_clock 6000)
                6003 None w')
    = [EtsyApiRequests.request "key" "/application/shops/77/listings/active"
         EtsyApiRequests.GET None (Some "111.old")].
Proof.
  intros r w w'.
  assert (readable (tokenStorage w) r) as Hr by (repeat split; reflexivity).
  assert ("111.old" <> "") as Hne by discriminate.
  split; [exact Hr | ].
  set (shop := {| OAuthServer.shop_id := Some 77; OAuthServer.shop_name := Some "Seventy" |}).
  destruct (default_shop_is_used_after_set "key" failing_provider one_shop
              (sample_clock 5000) (sample_clock 6000) 5003 5004 6000 6003 w r 9000 111 77
              (OAuthServer.ShopObject shop) shop
              "Authentication required. Please run the authenticate tool."
              EtsyApiRequests.listings_endpoint None echo_market Hr eq_refl)
    as [Hget Hsent]; try reflexivity; try (simpl; lia); try exact Hne.
  split; [exact Hget | exact Hsent].
Defined.

Lemma set_default_shop_on_read_only_disk_witness :
  let r := sample_tokens (Some 9000) in
  let w := world_of ∅ (enabled_store
                         (sample_disk (Some (TokenStorage.Json r)) (Some "EROFS") None)) in
  let run := Tools.set_default_shop "key" failing_provider one_shop (sample_clock 5000)
               5003 5004 w in
  readable (tokenStorage w) r /\
  permission_code "EROFS" /\
  Tools.result run = Tools.Result (Tools.DefaultShopSet (Some "Seventy") (Some 77)) /\
  Tools.result (Tools.get_default_shop 5005 (Tools.world run))
    = Tools.Result Tools.NoDefaultShop.
Proof.
  intros r w run.
  assert (readable (tokenStorage w) r) as Hr by (repeat split; reflexivity).
  assert (permission_code "EROFS") as Hcode by (left; reflexivity).
  assert ("111.old" <> "") as Hne by discriminate.
  assert (111 <> 0) as Hid by lia.
  destruct (set_default_shop_on_read_only_disk "key" failing_provider one_shop
              (sample_clock 5000) 5003 5004 w r 111 "EROFS" _ _ Hr eq_refl eq_refl Hne
              eq_refl Hid eq_refl eq_refl eq_refl Hcode) as (Hres & _ & Hget).
  split; [exact Hr | split; [exact Hcode | split; [exact Hres | apply Hget]]].
Defined.

(** ** The user id parsed from the access token *)

Section UserId.
Import EtsyApiClient.

Lemma list_ascii_of_string_app (a b : string) :
  list_ascii_of_string (a ++ b) = (list_ascii_of_string a ++ list_ascii_of_string b)%list.
Proof. induction a as [ | c a IH]; simpl; [reflexivity | rewrite IH; reflexivity]. Qed.

Lemma pretty_N_char_digit (x : N) :
  (x < 10)%N ->
  is_digit (pretty_N_char x) = true /\
  Z.of_N (N_of_ascii (pretty_N_char x)) - 48 = Z.of_N x /\
  pretty_N_char x <> "."%char /\
  is_space (pretty_N_char x) = false /\
  pretty_N_char x <> "-"%char /\ pretty_N_char x <> "+"%char.
Proof.
  intros Hlt.
  assert (N.to_nat x < 10)%nat as Hk by lia.
  rewrite <- (N2Nat.id x). remember (N.to_nat x) as k eqn:E. clear E Hlt.
  do 10 (destruct k as [ | k]; [repeat split; discriminate | ]). lia.
Qed.

(** The digits that [pretty] prints are read back by [digits]. *)
Lemma digits_pretty_N_go (x : N) :
  forall (s : string) (acc : option Z),
    default 0 acc = 0 -> (0 < x)%N ->
    digits acc (list_ascii_of_string (pretty_N_go x s))
      = digits (Some (Z.of_N x)) (list_ascii_of_string s) /\
    (exists c rest, list_ascii_of_string (pretty_N_go x s) = c :: rest /\
                    is_digit c = true /\ is_space c = false /\
                    c <> "-"%char /\ c <> "+"%char) /\
    (forall l r, list_ascii_of_string s = (l ++ r)%list -> ~ In "."%char l ->
       exists l', list_ascii_of_string (pretty_N_go x s) = (l' ++ r)%list /\
                  ~ In "."%char l').
Proof.
  induction (N.lt_wf_0 x) as [x _ IH]. intros s acc Hacc Hpos.
  rewrite pretty_N_go_step by exact Hpos.
  assert (x `mod` 10 < 10)%N as Hmod by (apply N.mod_lt; discriminate).
  destruct (pretty_N_char_digit _ Hmod) as (Hdig & Hval & Hdot & Hsp & Hminus & Hplus).
  destruct (N.eq_dec (N.div x 10) 0%N) as [Hz | Hgt];
    [ | apply N.neq_0_lt_0 in Hgt ].
  - rewrite Hz, pretty_N_go_0. cbn [list_ascii_of_string digits]. rewrite Hdig.
    split; [ | split ].
    + f_equal. f_equal.
      pose proof (N.div_mod x 10 ltac:(discriminate)) as Hdm. lia.
    + eauto 10.
    + intros l r Hs Hl. exists (pretty_N_char (x `mod` 10) :: l).
      split; [rewrite Hs; reflexivity | ].
      intros [Heq | Hin]; [exact (Hdot Heq) | exact (Hl Hin)].
  - destruct (IH (x `div` 10)%N ltac:(apply N.div_lt; lia)
                (String (pretty_N_char (x `mod` 10)) s) acc Hacc Hgt)
      as (Hparse & Hhead & Hsplit).
    split; [ | split ].
    + rewrite Hparse. cbn [list_ascii_of_string digits]. rewrite Hdig.
      f_equal. f_equal. cbn [default from_option id]. unfold id.
      pose proof (N.div_mod x 10 ltac:(discriminate)) as Hdm. lia.
    + exact Hhead.
    + intros l r Hs Hl.
      apply (Hsplit (pretty_N_char (x `mod` 10) :: l) r).
      * cbn [list_ascii_of_string]. rewrite Hs. reflexivity.
      * intros [Heq | Hin]; [exact (Hdot Heq) | exact (Hl Hin)].
Qed.

Lemma before_dot_app (l r : list ascii) :
  ~ In "."%char l -> before_dot (l ++ "."%char :: r) = l.
Proof.
  induction l as [ | c l IH]; intros Hl.
  - reflexivity.
  - cbn [app before_dot]. destruct (Ascii.eqb c ".") eqn:Hc.
    + apply Ascii.eqb_eq in Hc. exfalso. apply Hl. left. exact Hc.
    + rewrite IH; [reflexivity | ]. intros Hin. apply Hl. right. exact Hin.
Qed.

(** The user id is the number in front of the first dot: for every
    positive integer [n] below 2^53, the range in which a JavaScript
    number holds every integer exactly and in which [parseInt] and
    [toString] are the decimal reading and printing, and for every
    remainder, the access token [<n>.<remainder>] yields the user id
    [n]. *)
Theorem userIdFromToken_of_numbered_token (n : Z) (remainder : string) :
  0 < n -> n < 2 ^ 53 ->
  userIdFromToken (EtsyApiRequests.toString n ++ "." ++ remainder) = Some n.
Proof.
  intros Hpos _. destruct n as [ | p | p]; try lia.
  unfold EtsyApiRequests.toString, pretty, pretty_Z, pretty, pretty_positive, pretty,
    pretty_N.
  destruct (decide (N.pos p = 0%N)) as [Habs | _]; [discriminate | ].
  destruct (digits_pretty_N_go (N.pos p) "" None eq_refl ltac:(lia))
    as (Hparse & (c & rest & Hhead & Hdig & Hsp & Hminus & Hplus) & Hsplit).
  destruct (Hsplit [] [] eq_refl ltac:(intros [])) as (l' & Hl' & Hnodot).
  rewrite List.app_nil_r in Hl'.
  unfold userIdFromToken.
  assert (String.eqb (pretty_N_go (N.pos p) "" ++ "." ++ remainder) "" = false) as ->.
  { apply String.eqb_neq. intros Habs.
    apply (f_equal list_ascii_of_string) in Habs.
    rewrite list_ascii_of_string_app, Hhead in Habs. discriminate. }
  rewrite list_ascii_of_string_app.
  change (list_ascii_of_string ("." ++ remainder))
    with ("."%char :: list_ascii_of_string remainder).
  rewrite Hl', (before_dot_app l' _ Hnodot).
  unfold parseInt10. rewrite list_ascii_of_string_of_list_ascii.
  rewrite Hl' in Hparse, Hhead. subst l'.
  cbn [skip_spaces]. rewrite Hsp.
  change (digits (Some (Z.of_N (N.pos p))) (list_ascii_of_string "")) with (Some (Z.pos p))
    in Hparse.
  destruct c as [b0 b1 b2 b3 b4 b5 b6 b7].
  destruct b0, b1, b2, b3, b4, b5, b6, b7; try exact Hparse; exfalso;
    first [apply Hminus; reflexivity | apply Hplus; reflexivity].
Qed.

Lemma userIdFromToken_of_numbered_token_witness :
  0 < 987654321 /\ 987654321 < 2 ^ 53 /\
  userIdFromToken (EtsyApiRequests.toString 987654321 ++ ".secret.part") = Some 987654321.
Proof.
  assert (0 < 987654321) as Hpos by lia.
  assert (987654321 < 2 ^ 53) as Hsafe by reflexivity.
  split; [exact Hpos | split; [exact Hsafe | ]].
  apply (userIdFromToken_of_numbered_token 987654321 "secret.part" Hpos Hsafe).
Defined.

End UserId.

(** ** The disabled store is inert *)

Section Inert.
Variable sha256 : string -> list Byte.byte.

Lemma step_disabled_inert (ev : Event) (w : World) :
  TokenStorage.fileStorageEnabled (tokenStorage w) = false ->
  no_outside_change [ev] ->
  tokenStorage (step sha256 ev w) = tokenStorage w.
Proof.
  intros Hoff Hev. apply Forall_inv in Hev. destruct ev; simpl.
  - reflexivity.
  - apply route_callback_disabled, Hoff.
  - reflexivity.
  - rewrite getValidAccessToken_disabled by exact Hoff. reflexivity.
  - rewrite disabled_saveTokens by exact Hoff. reflexivity.
  - rewrite disabled_getTokens by exact Hoff. reflexivity.
  - rewrite disabled_loadPotentiallyExpiredTokens by exact Hoff. reflexivity.
  - rewrite disabled_clearTokens by exact Hoff. reflexivity.
  - contradiction.
Qed.

Lemma run_disabled_inert (evs : list Event) (w : World) :
  TokenStorage.fileStorageEnabled (tokenStorage w) = false ->
  no_outside_change evs ->
  tokenStorage (run sha256 evs w) = tokenStorage w.
Proof.
  revert w. induction evs as [ | ev evs IH]; intros w Hoff Hevs; simpl; [reflexivity | ].
  assert (tokenStorage (step sha256 ev w) = tokenStorage w) as Hstep.
  { apply step_disabled_inert; [exact Hoff | ].
    constructor; [apply Forall_inv in Hevs; exact Hevs | constructor]. }
  rewrite IH; [exact Hstep | rewrite Hstep; exact Hoff | ].
  apply Forall_inv_tail in Hevs. exact Hevs.
Qed.

(** A disabled store never touches the disk: whatever the process does
    (callbacks, including successful exchanges, token requests, saves,
    clears), the token file and the flag stay exactly as they were, and
    only a change from outside the process alters the disk. *)
Theorem disabled_store_is_inert (evs : list Event) (w : World) :
  TokenStorage.fileStorageEnabled (tokenStorage w) = false ->
  no_outside_change evs ->
  tokenStorage (run sha256 evs w) = tokenStorage w /\
  fst (TokenStorage.clearTokens (tokenStorage (run sha256 evs w))) = Returned tt /\
  forall provider clock,
    fst (EtsyMCPServer.getValidAccessToken provider clock (run sha256 evs w))
      = Returned None.
Proof.
  intros Hoff Hevs.
  pose proof (run_disabled_inert evs w Hoff Hevs) as Hsame.
  split; [exact Hsame | split].
  - rewrite disabled_clearTokens; [reflexivity | rewrite Hsame; exact Hoff].
  - intros provider clock.
    rewrite getValidAccessToken_disabled; [reflexivity | rewrite Hsame; exact Hoff].
Qed.

(** Start-up on a read-only file system: when the storage directory is
    missing and cannot be created because of EROFS or EACCES, the
    constructor does not throw but builds a disabled store, which the
    process then never writes to; with any other [mkdir] error the
    constructor throws. *)
Theorem store_constructed_without_directory (mkdir_error : option string)
    (d : TokenStorage.FileSystem) :
  match TokenStorageSetup.construct false mkdir_error d with
  | Returned s =>
      TokenStorage.disk s = d /\
      (TokenStorage.fileStorageEnabled s = true <-> mkdir_error = None) /\
      (TokenStorage.fileStorageEnabled s = false ->
       (exists code, mkdir_error = Some code /\ permission_code code) /\
       forall evs w, tokenStorage w = s -> no_outside_change evs ->
         tokenStorage (run sha256 evs w) = s)
  | Thrown e =>
      unhandled_error mkdir_error /\ exists code, e = FsError code /\ mkdir_error = Some code
  end.
Proof.
  unfold TokenStorageSetup.construct.
  destruct mkdir_error as [code|].
  - destruct (is_EROFS_or_EACCES (FsError code)) eqn:Hcode.
    + split; [reflexivity | split; [split; discriminate | ]].
      intros _. split; [exists code; split; [reflexivity | ];
                        apply permission_code_handled; exact Hcode | ].
      intros evs w Hw Hevs. rewrite <- Hw. apply run_disabled_inert; [ | exact Hevs].
      rewrite Hw. reflexivity.
    + split; [apply unhandled_error_Some; exact Hcode | eauto].
  - split; [reflexivity | split; [split; reflexivity | discriminate]].
Qed.

End Inert.

Lemma disabled_store_is_inert_witness :
  let off := {| TokenStorage.fileStorageEnabled := false;
                TokenStorage.disk := sample_disk None None None |} in
  let w := world_of {[ "s1" := {| codeVerifier := "v"; createdAt := 0 |} ]} off in
  let evs := [GetCallback granting_provider no_shops 1000 (callback_query "abc" "s1");
              SaveTokens (bare_update "a") 2000; ClearTokens] in
  no_outside_change evs /\
  tokenStorage (run (fun _ => []) evs w) = off.
Proof.
  intros off w evs.
  assert (no_outside_change evs) as Hevs by (repeat constructor).
  split; [exact Hevs | ].
  apply (proj1 (disabled_store_is_inert (fun _ => []) evs w eq_refl Hevs)).
Defined.

(** ** What [getValidAccessToken] and the sweep never do *)

Section Quiet.
Import EtsyMCPServer.

Lemma getValidAccessToken_quiet (provider : EtsyApiClient.Provider) (clock : Clock)
    (w : World) :
  (exists r rt, refresh_due (at_getTokens clock) (tokenStorage w) r rt) \/
  (etsyApi (snd (getValidAccessToken provider clock w)) = etsyApi w /\
   TokenStorage.disk (tokenStorage (snd (getValidAccessToken provider clock w)))
     = TokenStorage.disk (tokenStorage w)).
Proof.
  destruct (TokenStorage.fileStorageEnabled (tokenStorage w)) eqn:Hen;
    [ | right; rewrite getValidAccessToken_disabled by exact Hen; split; reflexivity ].
  unfold getValidAccessToken, TokenStorage.getTokens,
    TokenStorage.loadPotentiallyExpiredTokens, TokenStorage.read_catch.
  rewrite Hen. simpl negb. cbv iota.
  destruct (TokenStorage.read_record (TokenStorage.disk (tokenStorage w)))
    as [[r|]|e] eqn:Hread.
  - assert (readable (tokenStorage w) r) as Hr.
    { unfold TokenStorage.read_record, TokenStorage.existsSync,
        TokenStorage.readFileSync in Hread.
      destruct (TokenStorage.tokens_json (TokenStorage.disk (tokenStorage w)))
        as [[r'|]|] eqn:Hfile; simpl in Hread; try discriminate;
        destruct (TokenStorage.read_error (TokenStorage.disk (tokenStorage w)))
          eqn:Herr; simpl in Hread; try discriminate.
      injection Hread as ->. repeat split; assumption. }
    destruct (TokenStorage.is_expired r (at_getTokens clock)) eqn:Hexp.
    + simpl. rewrite Hen, Hread. simpl.
      destruct (truthy_str (TokenStorage.refresh_token r)) eqn:Hrt.
      * left. apply truthy_str_true in Hrt as (rt & Hrt & Hne).
        exists r, rt. repeat split; try apply Hr; auto.
      * right. split; reflexivity.
    + simpl. destruct (String.eqb (TokenStorage.access_token r) "") eqn:Hat.
      * simpl. rewrite Hen, Hread. simpl.
        destruct (truthy_str (TokenStorage.refresh_token r)) eqn:Hrt.
        -- left. apply truthy_str_true in Hrt as (rt & Hrt & Hne).
           apply String.eqb_eq in Hat.
           exists r, rt. repeat split; try apply Hr; auto.
        -- right. split; reflexivity.
      * right. simpl. split; reflexivity.
  - right. simpl. rewrite Hen, Hread. simpl. split; reflexivity.
  - right. simpl.
    destruct (is_EROFS_or_EACCES e); simpl; [split; reflexivity | ].
    rewrite Hen, Hread. simpl. destruct (is_EROFS_or_EACCES e); simpl; split; reflexivity.
Qed.

(** [getValidAccessToken] contacts the provider at most once, and only
    to refresh: either a refresh is due, and then exactly one request is
    posted, the refresh grant for the stored refresh token; or nothing
    is posted, the client object is not touched and the token file is
    neither written nor removed. *)
Theorem getValidAccessToken_posts_at_most_one_refresh (provider : EtsyApiClient.Provider)
    (clock : Clock) (w : World) :
  let w' := snd (getValidAccessToken provider clock w) in
  (exists r rt,
     refresh_due (at_getTokens clock) (tokenStorage w) r rt /\
     EtsyApiClient.posted (etsyApi w')
       = (EtsyApiClient.posted (etsyApi w) ++ [RefreshTokenGrant rt])%list) \/
  (etsyApi w' = etsyApi w /\
   TokenStorage.disk (tokenStorage w') = TokenStorage.disk (tokenStorage w)).
Proof.
  intros w'. subst w'.
  destruct (getValidAccessToken_quiet provider clock w) as [(r & rt & Hdue) | Hquiet];
    [left | right; exact Hquiet].
  exists r, rt. split; [exact Hdue | ].
  rewrite (getValidAccessToken_refresh_due provider clock w r rt Hdue).
  apply refresh_posts_once. apply Hdue.
Qed.

End Quiet.

Section SweepExact.

(** The sweep removes exactly the stale entries: an entry is in the
    store after a tick at [now] precisely when it was there before and
    its age [now - createdAt] is at most the TTL, with the same data; and
    a later tick makes an earlier one redundant. *)
Theorem cleanupExpiredStates_exact (now : Z) (store : gmap string StateData) :
  (forall s d,
     OAuthServer.cleanupExpiredStates now store !! s = Some d <->
     store !! s = Some d /\ now - createdAt d <= OAuthServer.stateTTL) /\
  forall earlier, earlier <= now ->
    OAuthServer.cleanupExpiredStates now (OAuthServer.cleanupExpiredStates earlier store)
      = OAuthServer.cleanupExpiredStates now store.
Proof.
  assert (forall t m s d,
            OAuthServer.cleanupExpiredStates t m !! s = Some d <->
            m !! s = Some d /\ t - createdAt d <= OAuthServer.stateTTL) as Hchar.
  { intros t m s d. unfold OAuthServer.cleanupExpiredStates.
    rewrite map_lookup_filter_Some. simpl. unfold OAuthServer.is_stale.
    rewrite Z.ltb_ge. reflexivity. }
  split; [apply Hchar | ].
  intros earlier Hle. apply map_eq. intros s. apply option_eq. intros d.
  rewrite !Hchar. split.
  - intros [[Hd _] Hage]. auto.
  - intros [Hd Hage]. repeat split; [exact Hd | lia | exact Hage].
Qed.

End SweepExact.
